(** * Enigma2 plugin: a shallow embedding of [enigma2/__init__.py]

    The plugin object ([class Enigma2]) is modelled by explicit state passing.
    One record holds the fields of [self] that the update and dispatch code
    reads or writes, together with the part of the outside world the code
    talks to: the device behind [self._session.get], the logger, and the
    value slots of the SmartHomeNG items.  Python exceptions are modelled by
    an outcome type; an exception leaves the state as it was when it was
    raised.

    Calls are modelled sequentially: one method runs at a time, so the
    [alive] flag, which only [run] and [stop] change, is constant during a
    cycle. *)

From Stdlib Require Import ZArith Floats.PrimFloat.
From stdpp Require Import gmap strings list fin_maps pretty.

Open Scope string_scope.
Set Warnings "-register-all".

(** ** XML documents as [xml.dom.minidom] presents them *)

(** [Element] is an element node with its tag name and child nodes, [Text] a
    character-data node.  A parsed document is the node
    [Element "#document" [root]]. *)
Inductive node :=
| Element (tagName : string) (childNodes : list node)
| Text (data : string).

(** [node.getElementsByTagName(name)]: the elements below [n], in document
    order, whose tag is [name]; the name ["*"] matches every element. *)
Fixpoint getElementsByTagName (n : node) (name : string) : list node :=
  match n with
  | Text _ => []
  | Element _ cs =>
      flat_map (λ c,
        match c with
        | Element t _ =>
            ((if bool_decide (name = "*" ∨ t = name) then [c] else [])
               ++ getElementsByTagName c name)%list
        | Text _ => []
        end) cs
  end.

(** [node.firstChild] *)
Definition firstChild (n : node) : option node :=
  match n with
  | Element _ (c :: _) => Some c
  | _ => None
  end.

(** ** Python strings *)

(** [needle in hay] on strings: [needle] occurs in [hay] as a contiguous
    run of characters. *)
Fixpoint str_in (needle hay : string) : bool :=
  String.prefix needle hay
  || match hay with
     | EmptyString => false
     | String _ rest => str_in needle rest
     end.

(** ** Values, exceptions, effects *)

(** What the code hands to an item or stores in a result dictionary. *)
Inductive value :=
| VInt (z : Z)
| VFloat (f : float)
| VStr (s : string)
| VBool (b : bool).

(** The exception classes that the modelled code can meet. *)
Inductive exn :=
| KeyError (key : string)
| AttributeError
| TypeError
| ValueError
| UnboundLocalError (name : string)
| RequestException
| ExpatError.

Inductive loglevel := DEBUG | INFO | ERROR.

(** A call of [self.logger].  Where the source formats [str(e)] into the
    message, the record keeps the text before it and the exception. *)
Record logrec := Log {
  level : loglevel;
  message : string;
  cause : option exn
}.

(** A call of [self._session.get(url, ...)].  [cache_key] is bookkeeping of
    the model: the key on whose behalf [_cached_get_request] sent the
    request, [None] for the calls sent elsewhere.  [reply] is
    [response.content], or [None] when the call raised. *)
Record request := Request {
  cache_key : option string;
  url : string;
  reply : option string
}.

(** Entries into the two resolvers whose invocations the dispatcher is
    specified by; bookkeeping of the model. *)
Inductive call :=
| EventItems (cache : bool)      (* _update_event_items(cache) *)
| FastCycle (cache : bool)       (* _update_loop_fast(cache) *)
| SlowCycle.                     (* _update_loop() *)

(** A SmartHomeNG item: its [conf] dictionary, its [type()] and the path
    that names its value slot. *)
Record Item := {
  path : string;
  conf : gmap string string;
  type : string
}.

(** [class Enigma2Device] *)
Record Enigma2Device := {
  _host : string;
  _port : string;
  _ssl : bool;
  _username : string;
  _password : string;
  _identifier : string;
  _items : list Item;
  _items_fast : list Item
}.

Definition get_items (d : Enigma2Device) : list Item := _items d.
Definition get_fast_items (d : Enigma2Device) : list Item := _items_fast d.
Definition get_item_count (d : Enigma2Device) : nat :=
  length (_items d) + length (_items_fast d).

(** The state: fields of [self] first, then the world. *)
Record State := {
  _enigma2_device : Enigma2Device;
  alive : bool;
  _response_cache : gmap string string;
  (* the device: the reply to the n-th request of the run, by its URL;
     [None] stands for an exception raised by [self._session.get] *)
  network : nat → string → option string;
  sent : list request;
  logged : list logrec;
  (* the value slots of the items, by item path *)
  values : gmap string value;
  calls : list call
}.

Definition set_alive (b : bool) (st : State) : State :=
  {| _enigma2_device := _enigma2_device st; alive := b;
     _response_cache := _response_cache st; network := network st;
     sent := sent st; logged := logged st; values := values st;
     calls := calls st |}.

Definition set_response_cache (c : gmap string string) (st : State) : State :=
  {| _enigma2_device := _enigma2_device st; alive := alive st;
     _response_cache := c; network := network st;
     sent := sent st; logged := logged st; values := values st;
     calls := calls st |}.

Definition add_sent (r : request) (st : State) : State :=
  {| _enigma2_device := _enigma2_device st; alive := alive st;
     _response_cache := _response_cache st; network := network st;
     sent := sent st ++ [r]; logged := logged st; values := values st;
     calls := calls st |}.

Definition add_logged (r : logrec) (st : State) : State :=
  {| _enigma2_device := _enigma2_device st; alive := alive st;
     _response_cache := _response_cache st; network := network st;
     sent := sent st; logged := logged st ++ [r]; values := values st;
     calls := calls st |}.

Definition set_value (p : string) (v : value) (st : State) : State :=
  {| _enigma2_device := _enigma2_device st; alive := alive st;
     _response_cache := _response_cache st; network := network st;
     sent := sent st; logged := logged st; values := <[p := v]> (values st);
     calls := calls st |}.

Definition add_call (c : call) (st : State) : State :=
  {| _enigma2_device := _enigma2_device st; alive := alive st;
     _response_cache := _response_cache st; network := network st;
     sent := sent st; logged := logged st; values := values st;
     calls := calls st ++ [c] |}.

(** How a Python call ends. *)
Inductive outcome (A : Type) :=
| Normal (a : A)
| Raised (e : exn).
Arguments Normal {A} a.
Arguments Raised {A} e.

(** A method body: from the state before to its outcome and the state
    after. *)
Definition M (A : Type) : Type := State → outcome A * State.

#[global] Instance M_ret : MRet M := λ A a st, (Normal a, st).

#[global] Instance M_bind : MBind M := λ A B f m st,
  match m st with
  | (Normal a, st') => f a st'
  | (Raised e, st') => (Raised e, st')
  end.

Definition raise {A} (e : exn) : M A := λ st, (Raised e, st).

(** [try: m  except Exception as e: ...]: the outcome of [m] handed to the
    code after the [try]. *)
Definition attempt {A} (m : M A) : M (exn + A) := λ st,
  match m st with
  | (Normal a, st') => (Normal (inr a), st')
  | (Raised e, st') => (Normal (inl e), st')
  end.

Definition get_state : M State := λ st, (Normal st, st).
Definition modify (f : State → State) : M unit := λ st, (Normal tt, f st).

Definition result {A} (m : M A) (st : State) : outcome A := fst (m st).
Definition after {A} (m : M A) (st : State) : State := snd (m st).

(** [d[k]] on a dictionary *)
Definition subscript {V} (d : gmap string V) (k : string) : M V :=
  match d !! k with
  | Some v => mret v
  | None => raise (KeyError k)
  end.

(** [k in d] on a dictionary *)
Definition has_key {V} (d : gmap string V) (k : string) : bool :=
  bool_decide (is_Some (d !! k)).

(** [c.data] for the node [c = n.firstChild] that the source has already
    tested, or not, against [None] *)
Definition data_of (c : option node) : M string :=
  match c with
  | Some (Text d) => mret d
  | _ => raise AttributeError
  end.

Definition logger (lvl : loglevel) (msg : string) (e : option exn) : M unit :=
  modify (add_logged (Log lvl msg e)).

(** [item(v)] *)
Definition item_call (item : Item) (v : value) : M unit :=
  modify (set_value (path item) v).

(** [self._session.get(url, timeout=..., auth=..., verify=...)] followed by
    [.content] *)
Definition session_get (key : option string) (u : string) : M string := λ st,
  match network st (length (sent st)) u with
  | Some body => (Normal body, add_sent (Request key u (Some body)) st)
  | None => (Raised RequestException, add_sent (Request key u None) st)
  end.

(** The library functions the code relies on: the builtins [int] and
    [float] on strings ([None] for [ValueError]) and
    [minidom.parseString] ([None] for a parse error). *)
Class Runtime := {
  py_int : string → option Z;
  py_float : string → option float;
  parseString : string → option node
}.

(** ** [class Enigma2] *)

Definition _url_suffix_map : gmap string string :=
  list_to_map [("about", "/web/about");
               ("deviceinfo", "/web/deviceinfo");
               ("epgservice", "/web/epgservice");
               ("getaudiotracks", "/web/getaudiotracks");
               ("getcurrent", "/web/getcurrent");
               ("message", "/web/message");
               ("messageanswer", "/web/messageanswer");
               ("powerstate", "/web/powerstate");
               ("remotecontrol", "/web/remotecontrol");
               ("subservices", "/web/subservices");
               ("zap", "/web/zap")].

Definition _keys_fast_refresh : list string :=
  ["current_eventtitle"; "current_eventdescription";
   "current_eventdescriptionextended"; "current_volume"; "e2servicename";
   "e2videoheight"; "e2videowidth"; "e2apid"; "e2vpid"; "e2instandby"].

Definition _key_event_information : list string :=
  ["current_eventtitle"; "current_eventdescription";
   "current_eventdescriptionextended"].

(** [x in l] on a list of strings *)
Definition str_mem (x : string) (l : list string) : bool := bool_decide (x ∈ l).

Definition _build_url (d : Enigma2Device) (suffix parameter : string) : string :=
  (if _ssl d then "https" else "http")
    +:+ "://" +:+ _host d +:+ ":" +:+ _port d +:+ suffix +:+ "?" +:+ parameter.

Definition build_url (suffix parameter : string) : M string :=
  st ← get_state; mret (_build_url (_enigma2_device st) suffix parameter).

Section Enigma2.
Context `{Runtime}.

Definition parse (body : string) : M node :=
  match parseString body with
  | Some xml => mret xml
  | None => raise ExpatError
  end.

Definition _represents_int (s : string) : bool := bool_decide (is_Some (py_int s)).
Definition _represents_float (s : string) : bool := bool_decide (is_Some (py_float s)).

Definition int (s : string) : M Z :=
  match py_int s with Some z => mret z | None => raise ValueError end.

Definition float (s : string) : M PrimFloat.float :=
  match py_float s with Some f => mret f | None => raise ValueError end.

Definition _get_value_from_xml_node (n : node) (tag_name : string) : M (option string) :=
  match getElementsByTagName n tag_name with
  | x :: _ =>
      match firstChild x with
      | Some c => d ← data_of (Some c); mret (Some d)
      | None => mret None
      end
  | [] => mret None
  end.

Definition _cached_get_request (key u : string) (cache : bool) : M unit :=
  st ← get_state;
  if negb (has_key (_response_cache st) key) || negb cache then
    r ← attempt (session_get (Some key) u);
    match r with
    | inl e => logger ERROR "Exception when sending GET request: " (Some e)
    | inr content =>
        modify (λ st, set_response_cache (<[key := content]> (_response_cache st)) st)
    end
  else
    logger DEBUG ("Accessing reponse cache for " +:+ u +:+ "!") None.

(** Lines 568-593 of [_update]: the coercion of the located element by the
    item's type. *)
Definition _update_write (item : Item) (xml : node) : M unit :=
  dt ← subscript (conf item) "enigma2_data_type";
  match getElementsByTagName xml dt with
  | el :: _ =>
      if bool_decide (type item = "bool") then
        match firstChild el with
        | Some c =>
            d ← data_of (Some c);
            if bool_decide (d = "true") || bool_decide (d = "True")
            then item_call item (VInt 1)
            else item_call item (VInt 0)
        | None => mret tt
        end
      else if bool_decide (type item = "num") then
        match firstChild el with
        | Some c =>
            d ← data_of (Some c);
            if _represents_int d then z ← int d; item_call item (VInt z)
            else if _represents_float d then f ← float d; item_call item (VFloat f)
            else mret tt
        | None => mret tt
        end
      else
        match firstChild el with
        | Some c =>
            d ← data_of (Some c);
            if bool_decide (d = "N/A") then item_call item (VStr "-")
            else item_call item (VStr d)
        | None => item_call item (VStr "-")
        end
  | [] =>
      logger ERROR ("Attribute " +:+ dt +:+ " not available on the Enigma2Device") None
  end.

(** Lines 562-593 of [_update]: what follows the cached request. *)
Definition _update_from_cache (item : Item) (page : string) : M unit :=
  r ← attempt (st ← get_state;
               body ← subscript (_response_cache st) page;
               parse body);
  match r with
  | inl e => logger ERROR "Exception when parsing response: " (Some e)
  | inr xml => _update_write item xml
  end.

Definition _update (item : Item) (cache : bool) : M unit :=
  if negb (has_key (conf item) "enigma2_data_type") then
    logger ERROR "No enigma2_data_type set in item!" None
  else
    page ← subscript (conf item) "enigma2_page";
    suffix ← subscript _url_suffix_map page;
    u ← build_url suffix "";
    _cached_get_request page u cache;;
    _update_from_cache item page.

(** The [for] loop of [_update_loop] with what follows it. *)
Fixpoint _update_loop_from (items : list Item) : M unit :=
  match items with
  | [] => modify (set_response_cache ∅)
  | item :: rest =>
      st ← get_state;
      if negb (alive st) then mret tt
      else _update item true;; _update_loop_from rest
  end.

Definition _update_loop : M unit :=
  modify (add_call SlowCycle);;
  st ← get_state;
  logger DEBUG ("Starting update loop for identifier "
                  +:+ _identifier (_enigma2_device st)) None;;
  _update_loop_from (get_items (_enigma2_device st)).

(** [_get_value_from_xml_node] with the default that its callers apply to a
    missing value ([if x is None: x = '-']). *)
Definition or_dash (x : option string) : string :=
  match x with Some s => s | None => "-" end.

(** Lines 521-545 of [get_current_epgservice_for_service_reference]: the
    event record read from the response. *)
Definition _epgservice_from_response (content : string)
  : M (option (gmap string string)) :=
  r ← attempt (parse content);
  match r with
  | inl e => logger ERROR "Exception when parsing response: " (Some e);; mret None
  | inr xml =>
      match getElementsByTagName xml "e2event" with
      | ev :: _ =>
          e2eventdescription ← _get_value_from_xml_node ev "e2eventdescription";
          e2eventdescriptionextended ←
            _get_value_from_xml_node ev "e2eventdescriptionextended";
          e2eventtitle ← _get_value_from_xml_node ev "e2eventtitle";
          mret (Some (<["e2eventtitle" := or_dash e2eventtitle]>
                     (<["e2eventdescriptionextended" := or_dash e2eventdescriptionextended]>
                     (<["e2eventdescription" := or_dash e2eventdescription]> ∅))))
      | [] => mret (Some ∅)
      end
  end.

Definition get_current_epgservice_for_service_reference (service_reference : string)
  : M (option (gmap string string)) :=
  suffix ← subscript _url_suffix_map "epgservice";
  u ← build_url suffix ("sRef=" +:+ service_reference);
  r ← attempt (session_get None u);
  match r with
  | inl e => logger ERROR "Exception when sending GET request: " (Some e);; mret None
  | inr content => _epgservice_from_response content
  end.

(** The event record that [_update_current_event] builds without asking the
    device (lines 486-489). *)
Definition no_event : gmap string string :=
  <["e2eventdescriptionextended" := "-"]>
    (<["e2eventdescription" := "-"]> (<["e2eventtitle" := "-"]> ∅)).

(** [current_epgservice[k]], where [current_epgservice] may be [None] *)
Definition epg_subscript (d : option (gmap string string)) (k : string) : M string :=
  match d with
  | Some d => subscript d k
  | None => raise TypeError
  end.

(** Lines 491-501 of [_update_current_event]: the write to the item, by
    its data type. *)
Definition _update_current_event_item (item : Item) (xml : node)
    (current_epgservice : option (gmap string string)) : M unit :=
  dt ← subscript (conf item) "enigma2_data_type";
  (if bool_decide (dt = "e2servicename") then
     e2servicename ← _get_value_from_xml_node xml "e2servicename";
     item_call item
       (VStr match e2servicename with
             | None => "-"
             | Some n => if bool_decide (n = "N/A") then "-" else n
             end)
   else mret tt);;
  if bool_decide (dt = "current_eventtitle") then
    v ← epg_subscript current_epgservice "e2eventtitle"; item_call item (VStr v)
  else if bool_decide (dt = "current_eventdescription") then
    v ← epg_subscript current_epgservice "e2eventdescription"; item_call item (VStr v)
  else if bool_decide (dt = "current_eventdescriptionextended") then
    v ← epg_subscript current_epgservice "e2eventdescriptionextended";
    item_call item (VStr v)
  else mret tt.

(** Lines 483-489 of [_update_current_event]: the event record for a
    service reference. *)
Definition _current_epgservice (e2servicereference : string)
  : M (option (gmap string string)) :=
  if negb (bool_decide (e2servicereference = "N/A"))
     && negb (str_in "1:0:0:0:0:0:0:0:0:0" e2servicereference)
  then get_current_epgservice_for_service_reference e2servicereference
  else mret (Some no_event).

(** Lines 476-501 of [_update_current_event], from the parsed subservices
    document on. *)
Definition _update_current_event_write (item : Item) (xml : node) : M unit :=
  (* the local [e2servicereference]; [None] while it is unbound *)
  e2servicereference ←
    match getElementsByTagName xml "e2servicereference" with
    | el :: _ => d ← data_of (firstChild el); mret (Some d)
    | [] =>
        dt ← subscript (conf item) "enigma2_data_type";
        logger ERROR ("Attribute " +:+ dt +:+ " not available on the Enigma2Device") None;;
        mret None
    end;
  sref ← match e2servicereference with
         | Some s => mret s
         | None => raise (UnboundLocalError "e2servicereference")
         end;
  current_epgservice ← _current_epgservice sref;
  _update_current_event_item item xml current_epgservice.

(** Lines 470-501 of [_update_current_event]: what follows the cached
    request. *)
Definition _update_current_event_from_cache (item : Item) : M unit :=
  r ← attempt (st ← get_state;
               body ← subscript (_response_cache st) "subservices";
               parse body);
  match r with
  | inl e => logger ERROR "Exception when parsing response: " (Some e)
  | inr xml => _update_current_event_write item xml
  end.

Definition _update_current_event (item : Item) (cache : bool) : M unit :=
  suffix ← subscript _url_suffix_map "subservices";
  u ← build_url suffix "";
  if negb (has_key (conf item) "enigma2_data_type") then
    logger ERROR "No enigma2_data_type set in item!" None
  else
    _cached_get_request "subservices" u cache;;
    _update_current_event_from_cache item.

Fixpoint _update_event_items_from (items : list Item) (cache : bool) : M unit :=
  match items with
  | [] => mret tt
  | item :: rest =>
      dt ← subscript (conf item) "enigma2_data_type";
      (if str_mem dt ["current_eventtitle"; "current_eventdescription";
                      "current_eventdescriptionextended"; "e2servicename"]
       then _update_current_event item cache
       else mret tt);;
      _update_event_items_from rest cache
  end.

Definition _update_event_items (cache : bool) : M unit :=
  modify (add_call (EventItems cache));;
  st ← get_state;
  _update_event_items_from (get_fast_items (_enigma2_device st)) cache.

Definition _update_volume (item : Item) (cache : bool) : M unit :=
  suffix ← subscript _url_suffix_map "getcurrent";
  u ← build_url suffix "";
  logger DEBUG "Getting Volume" None;;
  r ← attempt (content ← session_get None u; parse content);
  match r with
  | inl e => logger ERROR "Exception when sending GET request: " (Some e)
  | inr xml =>
      volume ← _get_value_from_xml_node xml "e2current";
      match volume with
      | Some v => logger DEBUG ("Volume " +:+ v) None;; item_call item (VStr v)
      | None => raise TypeError          (* "Volume " + None *)
      end
  end.

(** The body of the [for] loop of [_update_loop_fast], after the [alive]
    test. *)
Definition _update_loop_fast_item (item : Item) (cache : bool) : M unit :=
  if has_key (conf item) "enigma2_page" then _update item true
  else
    dt ← subscript (conf item) "enigma2_data_type";
    if str_mem dt _key_event_information then _update_event_items cache
    else if bool_decide (dt = "current_volume") then _update_volume item cache
    else mret tt.

Fixpoint _update_loop_fast_from (items : list Item) (cache : bool) : M unit :=
  match items with
  | [] => modify (set_response_cache ∅)
  | item :: rest =>
      st ← get_state;
      if negb (alive st) then mret tt
      else _update_loop_fast_item item cache;; _update_loop_fast_from rest cache
  end.

Definition _update_loop_fast (cache : bool) : M unit :=
  modify (add_call (FastCycle cache));;
  st ← get_state;
  logger DEBUG ("Starting update loop for identifier "
                  +:+ _identifier (_enigma2_device st)) None;;
  _update_loop_fast_from (get_fast_items (_enigma2_device st)) cache.

(** The reading of a device acknowledgement that [remote_control_command]
    (lines 305-311) and [zap] (lines 373-379) share: the text is logged when
    the flag element says ['True']. *)
Definition log_acknowledgement (xml : node) (flag_tag text_tag : string) : M unit :=
  match getElementsByTagName xml text_tag, getElementsByTagName xml flag_tag with
  | t :: _, f :: _ =>
      match firstChild t, firstChild f with
      | Some tc, Some fc =>
          flag ← data_of (Some fc);
          if bool_decide (flag = "True") then
            text ← data_of (Some tc); logger DEBUG text None
          else mret tt
      | _, _ => mret tt
      end
  | _, _ => mret tt
  end.

Definition remote_control_command (command_id : string) : M unit :=
  suffix ← subscript _url_suffix_map "remotecontrol";
  u ← build_url suffix ("command=" +:+ command_id);
  r ← attempt (session_get None u);
  match r with
  | inl e => logger ERROR "Exception when sending GET request: " (Some e)
  | inr content =>
      xml ← parse content;
      log_acknowledgement xml "e2result" "e2resulttext"
  end.

Definition zap (e2servicereference title : string) : M unit :=
  suffix ← subscript _url_suffix_map "zap";
  u ← build_url suffix ("sRef=" +:+ e2servicereference +:+ "&title=" +:+ title);
  r ← attempt (session_get None u);
  match r with
  | inl e => logger ERROR "Exception when sending GET request: " (Some e)
  | inr content =>
      xml ← parse content;
      log_acknowledgement xml "e2state" "e2statetext"
  end.

Definition execute_item (item : Item) (caller : option string) : M unit :=
  if negb (bool_decide (caller = Some "Enigma2")) then
    if has_key (conf item) "enigma2_remote_command_id" then
      command_id ← subscript (conf item) "enigma2_remote_command_id";
      remote_control_command command_id;;
      if str_mem command_id ["105"; "106"; "116"] then
        _update_event_items false;; _update_loop_fast false
      else if str_mem command_id ["114"; "115"] then
        _update_loop_fast false
      else mret tt
    else if has_key (conf item) "sref" then
      sref ← subscript (conf item) "sref";
      zap sref "";;
      _update_event_items false;; _update_loop_fast false
    else mret tt
  else mret tt.

(** [run] and [stop], as far as the plugin's own state goes (the scheduler
    that [run] registers the two cycles with is the host's). *)
Definition run : M unit := modify (set_alive true).
Definition stop : M unit := modify (set_alive false).

(** The body of the [for] loop of [get_audio_tracks]: the dictionary built
    for one [e2audiotrack] element. *)
Definition audio_track_entry (entry : node) : M (gmap string value) :=
  let result_entry : gmap string value := ∅ in
  result_entry ←
    match getElementsByTagName entry "e2audiotrackdescription" with
    | x :: _ =>
        d ← data_of (firstChild x);
        mret (<["e2audiotrackdescription" := VStr d]> result_entry)
    | [] => mret result_entry
    end;
  result_entry ←
    match getElementsByTagName entry "e2audiotrackid" with
    | x :: _ =>
        d ← data_of (firstChild x); z ← int d;
        mret (<["e2audiotrackid" := VInt z]> result_entry)
    | [] => mret result_entry
    end;
  result_entry ←
    match getElementsByTagName entry "e2audiotrackpid" with
    | x :: _ =>
        d ← data_of (firstChild x); z ← int d;
        mret (<["e2audiotrackpid" := VInt z]> result_entry)
    | [] => mret result_entry
    end;
  match getElementsByTagName entry "e2audiotrackactive" with
  | x :: _ =>
      d ← data_of (firstChild x);
      if str_in d "True"
      then mret (<["e2audiotrackactive" := VBool true]> result_entry)
      else mret (<["e2audiotrackactive" := VBool false]> result_entry)
  | [] => mret result_entry
  end.

Fixpoint audio_track_entries (entries : list node) : M (list (gmap string value)) :=
  match entries with
  | [] => mret []
  | entry :: rest =>
      result_entry ← audio_track_entry entry;
      result ← audio_track_entries rest;
      mret (result_entry :: result)
  end.

(** [get_audio_tracks]: [None] is the bare [return] after a failed
    request. *)
Definition get_audio_tracks : M (option (list (gmap string value))) :=
  suffix ← subscript _url_suffix_map "getaudiotracks";
  u ← build_url suffix "";
  r ← attempt (content ← session_get None u; parse content);
  match r with
  | inl e => logger ERROR "Exception when sending GET request: " (Some e);; mret None
  | inr xml =>
      result ← audio_track_entries (getElementsByTagName xml "e2audiotrack");
      mret (Some result)
  end.

End Enigma2.

(** ** What the claims are stated with *)

(** The requests a body sent, read off the states before and after it. *)
Definition new_sent (st st' : State) : list request :=
  drop (length (sent st)) (sent st').

Definition new_calls (st st' : State) : list call :=
  drop (length (calls st)) (calls st').

(** The records that [self.logger] was given from [st] to [st']. *)
Definition new_logged (st st' : State) : list logrec :=
  drop (length (logged st)) (logged st').

(** [r] was sent by [_cached_get_request] for [key]. *)
Definition for_key (key : string) (r : request) : bool :=
  bool_decide (cache_key r = Some key).

(** [r] was sent for [key] and the device answered it. *)
Definition fetched (key : string) (r : request) : bool :=
  for_key key r && bool_decide (is_Some (reply r)).

(** How many requests were sent for [key]. *)
Definition fetches (key : string) (l : list request) : nat :=
  length (filter (λ r, for_key key r = true) l).

(** How many requests for [key] the device answered. *)
Definition answers (key : string) (l : list request) : nat :=
  length (filter (λ r, fetched key r = true) l).

(** No request for [key] among [l]. *)
Definition quiet (key : string) (l : list request) : Prop :=
  Forall (λ r, for_key key r = false) l.

(** Some request for [key] among [l] was answered. *)
Definition answered (key : string) (l : list request) : Prop :=
  Exists (λ r, fetched key r = true) l.

(** Once a request for [key] has been answered, no further request for
    [key] follows in [l]. *)
Fixpoint deduplicated (key : string) (l : list request) : Prop :=
  match l with
  | [] => True
  | r :: l' => if fetched key r then quiet key l' else deduplicated key l'
  end.

Definition cached (key : string) (st : State) : Prop :=
  is_Some (_response_cache st !! key).

(** What a step of a cycle that runs with caching does to the requests for
    [key]. *)
Record dedup_step (key : string) (st st' : State) : Prop := {
  ds_new : ∃ new, sent st' = (sent st ++ new)%list;
  ds_cached : cached key st → cached key st' ∧ quiet key (new_sent st st');
  ds_dedup : deduplicated key (new_sent st st');
  ds_answered : answered key (new_sent st st') → cached key st'
}.

(** What a whole cycle does to the requests for [key]: as a step, but the
    cache is gone at the end. *)
Definition dedup_cycle (key : string) (st st' : State) : Prop :=
  (∃ new, sent st' = (sent st ++ new)%list)
  ∧ deduplicated key (new_sent st st')
  ∧ (cached key st → quiet key (new_sent st st')).

(** The step sends nothing. *)
Definition same_sent (st st' : State) : Prop := sent st' = sent st.

(** The step leaves the plugin's configuration, its [alive] flag and the
    device's behaviour alone. *)
Definition same_setup (st st' : State) : Prop :=
  alive st' = alive st
  ∧ _enigma2_device st' = _enigma2_device st
  ∧ network st' = network st.

(** The step enters neither cycle nor the event resolver. *)
Definition same_calls (st st' : State) : Prop := calls st' = calls st.

(** The step does not touch the cache. *)
Definition same_cache (st st' : State) : Prop :=
  _response_cache st' = _response_cache st.

(** The bindings that the fast cycle hands to the event resolver: no
    [enigma2_page], and a data type in [_key_event_information]. *)
Definition routed_to_event_resolver (item : Item) : bool :=
  negb (has_key (conf item) "enigma2_page")
  && match conf item !! "enigma2_data_type" with
     | Some dt => str_mem dt _key_event_information
     | None => false
     end.

(** The two cycles that the scheduler runs, and the forced fast cycle. *)
Inductive cycle :=
| Slow
| Fast (cache : bool).

Definition registry (c : cycle) (st : State) : list Item :=
  match c with
  | Slow => get_items (_enigma2_device st)
  | Fast _ => get_fast_items (_enigma2_device st)
  end.

Definition run_cycle `{Runtime} (c : cycle) : M unit :=
  match c with
  | Slow => _update_loop
  | Fast cache => _update_loop_fast cache
  end.

(** How often a fast cycle started in [st] enters the event resolver: once
    for each such binding of the fast registry while the engine is alive. *)
Definition nested_event_resolutions (st : State) : nat :=
  if alive st
  then length (filter (λ item, routed_to_event_resolver item = true)
                 (get_fast_items (_enigma2_device st)))
  else 0%nat.

(** The step only adds to the requests sent. *)
Definition sent_grows (st st' : State) : Prop :=
  ∃ new, sent st' = (sent st ++ new)%list.

(** The step writes to no item. *)
Definition same_values (st st' : State) : Prop := values st' = values st.

(** The state in which [_update item cache], started in [st], reads the
    response for [page] from the cache: the state after its cached
    request. *)
Definition page_requested (page : string) (cache : bool) (st : State) : State :=
  match _url_suffix_map !! page with
  | Some suffix =>
      after (_cached_get_request page
               (_build_url (_enigma2_device st) suffix "") cache) st
  | None => st
  end.

(** The elements named by the item's data type in the document that
    [_update item cache], started in [st], parses; [None] when it does not
    get that far. *)
Definition located `{Runtime} (item : Item) (cache : bool) (st : State)
    : option (list node) :=
  dt ← conf item !! "enigma2_data_type";
  page ← conf item !! "enigma2_page";
  _ ← _url_suffix_map !! page;
  body ← _response_cache (page_requested page cache st) !! page;
  xml ← parseString body;
  Some (getElementsByTagName xml dt).

(** The subservices document that [_update_current_event item cache],
    started in [st], parses. *)
Definition subservices_document `{Runtime} (cache : bool) (st : State) : option node :=
  body ← _response_cache (page_requested "subservices" cache st) !! "subservices";
  parseString body.

(** The URL of the secondary request for the events of a service. *)
Definition epgservice_url (st : State) (sref : string) : string :=
  _build_url (_enigma2_device st) "/web/epgservice" ("sRef=" +:+ sref).

(** A relation between the states before and after a body holds whatever
    the state before. *)
Definition preserves (R : relation State) {A} (m : M A) : Prop :=
  ∀ st, R st (after m st).

(** ** A sample installation

    A receiver at [https://dreambox:80], a runtime that knows a handful of
    documents, and items as [parse_item] would register them. *)
Module Sample.

Definition digit (a : Ascii.ascii) : option Z :=
  let n := Z.of_nat (Ascii.nat_of_ascii a) in
  if (48 <=? n)%Z && (n <=? 57)%Z then Some (n - 48)%Z else None.

Fixpoint digits (acc : Z) (s : string) : option Z :=
  match s with
  | EmptyString => Some acc
  | String a rest =>
      match digit a with
      | Some d => digits (10 * acc + d) rest
      | None => None
      end
  end.

(** [int] on plain decimal numerals *)
Definition sample_int (s : string) : option Z :=
  match s with
  | EmptyString => None
  | _ => digits 0 s
  end.

(** [float] on the one literal used below *)
Definition sample_float (s : string) : option PrimFloat.float :=
  if bool_decide (s = "3.5") then Some 3.5%float else None.

Definition document (root : node) : node := Element "#document" [root].

Definition about_xml : node :=
  document (Element "e2abouts" [Element "e2about"
    [Element "e2model" [Text "Solo4K"];
     Element "e2enigmaversion" [Text "N/A"];
     Element "e2lanmac" [];
     Element "e2hddinfo" [Text "abc"];
     Element "e2fpversion" [Text "3.5"];
     Element "e2videowidth" [Text "42"]]]).

Definition subservices_xml (sref : string) : node :=
  document (Element "e2servicelist" [Element "e2service"
    [Element "e2servicereference" [Text sref];
     Element "e2servicename" [Text "Das Erste HD"]]]).

Definition no_reference_xml : node :=
  document (Element "e2servicelist" [Element "e2service" []]).

Definition epg_xml : node :=
  document (Element "e2eventlist" [Element "e2event"
    [Element "e2eventtitle" [Text "Tagesschau"];
     Element "e2eventdescription" [Text "Nachrichten"];
     Element "e2eventdescriptionextended" []]]).

Definition volume_xml : node :=
  document (Element "e2volume" [Element "e2current" [Text "35"]]).

Definition ack_xml : node :=
  document (Element "e2remotecontrol"
    [Element "e2result" [Text "True"];
     Element "e2resulttext" [Text "RC command '114' has been issued"]]).

Definition audio_xml : node :=
  document (Element "e2audiotracklist"
    [Element "e2audiotrack"
       [Element "e2audiotrackdescription" [Text "Deutsch"];
        Element "e2audiotrackid" [Text "0"];
        Element "e2audiotrackpid" [Text "5102"];
        Element "e2audiotrackactive" [Text "True"]];
     Element "e2audiotrack"
       [Element "e2audiotrackdescription" [Text "English"];
        Element "e2audiotrackid" [Text "1"];
        Element "e2audiotrackpid" [Text "5103"];
        Element "e2audiotrackactive" [Text "False"]];
     Element "e2audiotrack"
       [Element "e2audiotrackactive" [Text "rue"]]]).

(** The response bodies, named by a short text each. *)
Definition documents : gmap string node :=
  list_to_map [("<about>", about_xml);
               ("<subservices tv>", subservices_xml "1:0:19:283D:41B:1:FFFF0000:0:0:0:");
               ("<subservices N/A>", subservices_xml "N/A");
               ("<subservices none>", subservices_xml "1:0:0:0:0:0:0:0:0:0:");
               ("<subservices empty>", no_reference_xml);
               ("<epg>", epg_xml);
               ("<volume>", volume_xml);
               ("<ack>", ack_xml);
               ("<audio>", audio_xml)].

Definition runtime : Runtime :=
  {| py_int := sample_int;
     py_float := sample_float;
     parseString body := documents !! body |}.

Definition item (p : string) (c : list (string * string)) (t : string) : Item :=
  {| path := p; conf := list_to_map c; type := t |}.

Definition page_item (p page dt t : string) : Item :=
  item p [("device_id", "enigma2"); ("enigma2_page", page); ("enigma2_data_type", dt)] t.

Definition data_item (p dt t : string) : Item :=
  item p [("device_id", "enigma2"); ("enigma2_data_type", dt)] t.

Definition command_item (p id : string) : Item :=
  item p [("device_id", "enigma2"); ("enigma2_remote_command_id", id)] "bool".

Definition model_item := page_item "box.model" "about" "e2model" "str".
Definition version_item := page_item "box.version" "about" "e2enigmaversion" "str".
Definition mac_item := page_item "box.mac" "about" "e2lanmac" "str".
Definition tuner_item := page_item "box.tuner" "about" "e2tunerinfo" "str".
Definition width_item := page_item "box.width" "about" "e2videowidth" "num".
Definition fp_item := page_item "box.fp" "about" "e2fpversion" "num".
Definition hdd_item := page_item "box.hdd" "about" "e2hddinfo" "num".
Definition title_item := data_item "tv.title" "current_eventtitle" "str".
Definition name_item := data_item "tv.name" "e2servicename" "str".
Definition volume_item := data_item "tv.volume" "current_volume" "num".

Definition device (items items_fast : list Item) : Enigma2Device :=
  {| _host := "dreambox"; _port := "80"; _ssl := true;
     _username := "root"; _password := "secret"; _identifier := "enigma2";
     _items := items; _items_fast := items_fast |}.

(** The plugin after [__init__], [parse_item] for the given items, and
    [run], in front of a device that answers by [net]. *)
Definition started (items items_fast : list Item)
    (net : nat → string → option string) : State :=
  {| _enigma2_device := device items items_fast; alive := true;
     _response_cache := ∅; network := net; sent := []; logged := [];
     values := ∅; calls := [] |}.

(** A device that cannot be reached. *)
Definition unreachable : nat → string → option string := λ _ _, None.

(** A device that answers each URL by the listed body. *)
Definition serving (pages : list (string * string)) : nat → string → option string :=
  λ _ u, (list_to_map pages : gmap string string) !! u.

(** A device that answers like [net] for the first [n] requests and
    cannot be reached afterwards. *)
Definition failing_after (n : nat) (net : nat → string → option string)
    : nat → string → option string :=
  λ i u, if (i <? n)%nat then net i u else None.

Definition about_url := "https://dreambox:80/web/about?".
Definition subservices_url := "https://dreambox:80/web/subservices?".
Definition getcurrent_url := "https://dreambox:80/web/getcurrent?".
Definition getaudiotracks_url := "https://dreambox:80/web/getaudiotracks?".
Definition epg_url :=
  "https://dreambox:80/web/epgservice?sRef=1:0:19:283D:41B:1:FFFF0000:0:0:0:".
Definition command_url (id : string) :=
  "https://dreambox:80/web/remotecontrol?command=" +:+ id.

Definition tv : nat → string → option string :=
  serving [(about_url, "<about>");
           (subservices_url, "<subservices tv>");
           (epg_url, "<epg>");
           (getcurrent_url, "<volume>");
           (getaudiotracks_url, "<audio>");
           (command_url "105", "<ack>");
           (command_url "114", "<ack>")].

#[local] Existing Instance runtime.

(** Two bindings of the same page, and a device that cannot be reached. *)
Definition two_bindings_unreachable : State :=
  started [model_item; version_item] [] unreachable.

(** The registries used in the runs below, in front of the device [tv]. *)
Definition living_room : State :=
  started [model_item; version_item; width_item] [title_item; volume_item] tv.

(** [stop()] has been called; command 105 is then dispatched, and the
    dispatcher has sent the command and run the event resolver: the state in
    which it enters the forced fast cycle. *)
Definition stopped_before_forced_cycle : State :=
  after (stop;; remote_control_command "105";; _update_event_items false) living_room.

(** The receiver reports no service, by the sentinel and by the reserved
    reference. *)
Definition no_service : State :=
  started [] [title_item] (serving [(subservices_url, "<subservices N/A>")]).

Definition reserved_service : State :=
  started [] [title_item] (serving [(subservices_url, "<subservices none>")]).

(** The subservices response lacks the service reference; the volume can
    be read. *)
Definition no_reference : State :=
  started [] [title_item; volume_item]
    (serving [(subservices_url, "<subservices empty>"); (getcurrent_url, "<volume>")]).

(** The device answers the subservices request and cannot be reached for
    the EPG request that follows. *)
Definition epg_unreachable : State :=
  started [] [title_item; volume_item] (failing_after 1 tv).

Definition power_item : Item := command_item "rc.power" "105".
Definition volume_up_item : Item := command_item "rc.volume_up" "114".

(** What [get_audio_tracks] returns in the living room. *)
Definition audio_tracks : list (gmap string value) :=
  match result get_audio_tracks living_room with
  | Normal (Some tracks) => tracks
  | _ => []
  end.

(** A page binding of the fast registry whose page is in the cache. *)
Definition service_page_item : Item :=
  page_item "tv.service" "subservices" "e2servicename" "str".

Definition service_page_cached : State :=
  after (_cached_get_request "subservices" subservices_url true)
    (started [] [service_page_item] tv).

(** The page [about] is in the cache. *)
Definition about_cached : State := after (_update model_item true) living_room.

(** The device answers the two requests of a first event resolution and
    cannot be reached afterwards: the subservices response is in the cache
    when the next binding is resolved. *)
Definition cached_then_unreachable : State :=
  after (_update_current_event title_item false)
    (started [] [title_item; name_item] (failing_after 2 tv)).

End Sample.

(** ** The rest of [class Enigma2]: registration and messages *)

Definition set_enigma2_device (d : Enigma2Device) (st : State) : State :=
  {| _enigma2_device := d; alive := alive st;
     _response_cache := _response_cache st; network := network st;
     sent := sent st; logged := logged st; values := values st;
     calls := calls st |}.

(** [self._enigma2_device._items.append(item)] *)
Definition append_item (item : Item) (d : Enigma2Device) : Enigma2Device :=
  {| _host := _host d; _port := _port d; _ssl := _ssl d;
     _username := _username d; _password := _password d;
     _identifier := _identifier d;
     _items := _items d ++ [item]; _items_fast := _items_fast d |}.

(** [self._enigma2_device._items_fast.append(item)] *)
Definition append_fast_item (item : Item) (d : Enigma2Device) : Enigma2Device :=
  {| _host := _host d; _port := _port d; _ssl := _ssl d;
     _username := _username d; _password := _password d;
     _identifier := _identifier d;
     _items := _items d; _items_fast := _items_fast d ++ [item] |}.

(** What [parse_item] hands back to the host: the bound method
    [self.execute_item], or nothing. *)
Inductive callback := ExecuteItem.

(** The [if]/[else] that [parse_item] runs twice (lines 261-264 and
    266-269): the item goes to the registry that its data type selects. *)
Definition register_by_data_type (item : Item) : M unit :=
  dt ← subscript (conf item) "enigma2_data_type";
  if str_mem dt _keys_fast_refresh
  then modify (λ st, set_enigma2_device (append_fast_item item (_enigma2_device st)) st)
  else modify (λ st, set_enigma2_device (append_item item (_enigma2_device st)) st).

Definition parse_item (item : Item) : M (option callback) :=
  if has_key (conf item) "device_id" then
    value ← subscript (conf item) "device_id";
    st ← get_state;
    if bool_decide (value = _identifier (_enigma2_device st)) then
      if has_key (conf item) "enigma2_page" then
        page ← subscript (conf item) "enigma2_page";
        if str_mem page ["about"; "powerstate"; "subservices"; "deviceinfo"]
        then register_by_data_type item;; mret None
        else mret None
      else if has_key (conf item) "enigma2_data_type" then
        register_by_data_type item;; mret None
      else if has_key (conf item) "enigma2_remote_command_id"
              || has_key (conf item) "sref"
      then mret (Some ExecuteItem)
      else mret None
    else mret None
  else mret None.

(** [parse_item] for one item after the other, as the host calls it while
    it loads its items. *)
Fixpoint parse_items (items : list Item) : M unit :=
  match items with
  | [] => mret tt
  | item :: rest => parse_item item;; parse_items rest
  end.

Section Messages.
Context `{Runtime}.

(** [messagetype] and [timeout] are the numbers of the signature; ['%s']
    prints them in decimal. *)
Definition send_message (messagetext : string) (messagetype timeout : Z) : M unit :=
  suffix ← subscript _url_suffix_map "message";
  u ← build_url suffix
        ("text=" +:+ messagetext +:+ "&type=" +:+ pretty messagetype
           +:+ "&timeout=" +:+ pretty timeout);
  r ← attempt (session_get None u);
  match r with
  | inl e => logger ERROR "Exception when sending GET request: " (Some e)
  | inr content =>
      xml ← parse content;
      log_acknowledgement xml "e2result" "e2resulttext"
  end.

(** [get_answer]: [None] is what the method returns when it gives no
    answer. *)
Definition get_answer : M (option string) :=
  suffix ← subscript _url_suffix_map "message";
  u ← build_url suffix "getanswer=now";
  r ← attempt (content ← session_get None u; parse content);
  match r with
  | inl e => logger ERROR "Exception when sending GET request: " (Some e);; mret None
  | inr xml =>
      match getElementsByTagName xml "e2statetext", getElementsByTagName xml "e2state" with
      | t :: _, f :: _ =>
          match firstChild t, firstChild f with
          | Some tc, Some fc =>
              text ← data_of (Some tc);
              logger DEBUG text None;;
              flag ← data_of (Some fc);
              if bool_decide (flag = "True") then
                answer ← data_of (Some tc); mret (Some answer)
              else mret None
          | _, _ => mret None
          end
      | _, _ => mret None
      end
  end.

End Messages.

(** ** What the further properties are stated with *)

(** The step writes to no item whose path lies outside [S]. *)
Definition writes_within (S : string → Prop) (st st' : State) : Prop :=
  ∀ p, ¬ S p → values st' !! p = values st !! p.

(** The paths of the items of a registry. *)
Definition paths_of (items : list Item) (p : string) : Prop :=
  p ∈ path <$> items.

(** What [parse_item] keeps true of the two registries: every registered
    item names this device and has a data type, which is a fast-refresh one
    exactly for the items of the fast registry. *)
Definition fast_binding (d : Enigma2Device) (item : Item) : Prop :=
  conf item !! "device_id" = Some (_identifier d)
  ∧ ∃ dt, conf item !! "enigma2_data_type" = Some dt ∧ dt ∈ _keys_fast_refresh.

Definition slow_binding (d : Enigma2Device) (item : Item) : Prop :=
  conf item !! "device_id" = Some (_identifier d)
  ∧ ∃ dt, conf item !! "enigma2_data_type" = Some dt ∧ dt ∉ _keys_fast_refresh.

Definition registries_sorted (d : Enigma2Device) : Prop :=
  Forall (fast_binding d) (_items_fast d) ∧ Forall (slow_binding d) (_items d).

(** The step leaves everything alone but the log. *)
Definition only_logs (st st' : State) : Prop :=
  _enigma2_device st' = _enigma2_device st
  ∧ alive st' = alive st
  ∧ _response_cache st' = _response_cache st
  ∧ network st' = network st
  ∧ sent st' = sent st
  ∧ values st' = values st
  ∧ calls st' = calls st.

(** The text that the event resolver writes for the service name
    (lines 492-495). *)
Definition service_name_text (e2servicename : option string) : string :=
  match e2servicename with
  | None => "-"
  | Some n => if bool_decide (n = "N/A") then "-" else n
  end.

(** The URLs of the requests of the dispatcher and of the messages. *)
Definition remotecontrol_url (st : State) (command_id : string) : string :=
  _build_url (_enigma2_device st) "/web/remotecontrol" ("command=" +:+ command_id).

Definition zap_url (st : State) (sref : string) : string :=
  _build_url (_enigma2_device st) "/web/zap" ("sRef=" +:+ sref +:+ "&title=").

Definition getcurrent_url (st : State) : string :=
  _build_url (_enigma2_device st) "/web/getcurrent" "".

Definition answer_url (st : State) : string :=
  _build_url (_enigma2_device st) "/web/message" "getanswer=now".

(** The text of the first element named [tag] below [n]; [None] when there
    is no such element or it has no text. *)
Definition text_of (n : node) (tag : string) : option string :=
  match getElementsByTagName n tag with
  | x :: _ =>
      match firstChild x with
      | Some (Text d) => Some d
      | _ => None
      end
  | [] => None
  end.

(** The key of the event record that a binding of the data type [dt]
    reads (lines 496-501). *)
Definition event_field (dt : string) : string :=
  if bool_decide (dt = "current_eventtitle") then "e2eventtitle"
  else if bool_decide (dt = "current_eventdescription") then "e2eventdescription"
  else "e2eventdescriptionextended".

Definition message_url (st : State) (text : string) (kind timeout : Z) : string :=
  _build_url (_enigma2_device st) "/web/message"
    ("text=" +:+ text +:+ "&type=" +:+ pretty kind +:+ "&timeout=" +:+ pretty timeout).

Definition getaudiotracks_url (st : State) : string :=
  _build_url (_enigma2_device st) "/web/getaudiotracks" "".

(** The device's answer to the EPG request that the event resolver sends
    after its subservices request. *)
Definition epg_reply (cache : bool) (sref : string) (st : State) : option string :=
  network (page_requested "subservices" cache st)
    (length (sent (page_requested "subservices" cache st)))
    (epgservice_url st sref).

(** The step changes nothing at all. *)
Definition unchanged (st st' : State) : Prop := st' = st.

(** A binding of the fast registry that the fast cycle passes over: it
    has no endpoint page, and its data type is neither one of the event
    information nor the volume. *)
Definition passed_over (item : Item) : Prop :=
  conf item !! "enigma2_page" = None
  ∧ ∃ dt, conf item !! "enigma2_data_type" = Some dt
          ∧ (dt ∉ _key_event_information) ∧ (dt ≠ "current_volume").

(** ** More of the sample installation

    Further documents, items and devices for the properties beyond the
    claims. *)
Module Cases.
Import Sample.

Definition powerstate_xml : node :=
  document (Element "e2powerstate" [Element "e2instandby" [Text "true"]]).

Definition answer_xml : node :=
  document (Element "e2simplexmlresult"
    [Element "e2state" [Text "True"];
     Element "e2statetext" [Text "Answer is NO!"]]).

Definition epg_empty_xml : node := document (Element "e2eventlist" []).

Definition documents : gmap string node :=
  list_to_map [("<powerstate>", powerstate_xml);
               ("<answer>", answer_xml);
               ("<epg empty>", epg_empty_xml)].

(** The runtime of [Sample] with the further documents; a body that
    neither table knows does not parse. *)
Definition runtime : Runtime :=
  {| py_int := sample_int;
     py_float := sample_float;
     parseString body :=
       match documents !! body with
       | Some xml => Some xml
       | None => Sample.documents !! body
       end |}.

#[local] Existing Instance runtime.

Definition standby_item := page_item "box.standby" "powerstate" "e2instandby" "bool".
Definition model_flag_item := page_item "box.flag" "about" "e2model" "bool".
Definition mac_flag_item := page_item "box.macflag" "about" "e2lanmac" "bool".
Definition unknown_page_item := page_item "box.bogus" "bogus" "e2model" "str".
Definition untyped_item : Item :=
  item "box.untyped" [("device_id", "enigma2"); ("enigma2_page", "about")] "str".
Definition uptime_item := data_item "box.uptime" "e2uptime" "str".
Definition height_item := data_item "tv.height" "e2videoheight" "num".
Definition foreign_item : Item :=
  item "other.model"
    [("device_id", "bedroom"); ("enigma2_page", "about"); ("enigma2_data_type", "e2model")]
    "str".
Definition zap_item : Item :=
  item "tv.first" [("device_id", "enigma2"); ("sref", "1:0:19:283D:41B:1:FFFF0000:0:0:0:")]
    "bool".
Definition menu_item : Item := command_item "rc.menu" "139".
Definition standby_command_item : Item := command_item "rc.standby" "116".
Definition volume_down_item : Item := command_item "rc.volume_down" "115".

Definition powerstate_url := "https://dreambox:80/web/powerstate?".
Definition answer_page_url := "https://dreambox:80/web/message?getanswer=now".
Definition hello_url := "https://dreambox:80/web/message?text=Hello&type=1&timeout=10".
Definition first_zap_url :=
  "https://dreambox:80/web/zap?sRef=1:0:19:283D:41B:1:FFFF0000:0:0:0:&title=".

Definition home : nat → string → option string :=
  serving [(about_url, "<about>");
           (powerstate_url, "<powerstate>");
           (subservices_url, "<subservices tv>");
           (epg_url, "<epg>");
           (getcurrent_url, "<volume>");
           (getaudiotracks_url, "<audio>");
           (answer_page_url, "<answer>");
           (hello_url, "<ack>");
           (first_zap_url, "<ack>")].

(** A device whose answers do not parse. *)
Definition garbling : nat → string → option string := λ _ _, Some "<garbage>".

(** A device that answers the EPG request with an empty event list. *)
Definition no_events : nat → string → option string :=
  serving [(subservices_url, "<subservices tv>"); (epg_url, "<epg empty>")].

(** A device that answers the get-current request with a document that
    holds no [e2current] element. *)
Definition no_volume : nat → string → option string :=
  serving [(getcurrent_url, "<about>")].

Definition house : State :=
  started [standby_item; model_flag_item; mac_flag_item]
    [title_item; name_item; volume_item] home.

Definition garbled : State := started [model_item] [title_item] garbling.

Definition empty_house (net : nat → string → option string) : State :=
  started [] [] net.

Definition offline : State := started [model_item] [title_item; volume_item] unreachable.

Definition without_events : State := started [] [title_item] no_events.

Definition without_volume : State := started [] [volume_item] no_volume.

Definition stopped_house : State := after stop house.

(** Only bindings that the fast cycle passes over. *)
Definition passed_over_house : State := started [] [name_item; height_item] home.

(** The host's items, in the order in which it hands them to
    [parse_item]. *)
Definition host_items : list Item :=
  [model_item; title_item; foreign_item; uptime_item; volume_item; power_item;
   zap_item; unknown_page_item; height_item].

Definition first_track : node :=
  Element "e2audiotrack"
    [Element "e2audiotrackdescription" [Text "Deutsch"];
     Element "e2audiotrackid" [Text "0"];
     Element "e2audiotrackpid" [Text "5102"];
     Element "e2audiotrackactive" [Text "True"]].

(** A device that answers the audio-track request with a document that
    holds no [e2audiotrack] element. *)
Definition no_tracks : State :=
  started [] [] (serving [(Sample.getaudiotracks_url, "<about>")]).

(** What the methods return in the house. *)
Definition event_record : option (gmap string string) :=
  match result (get_current_epgservice_for_service_reference
                  "1:0:19:283D:41B:1:FFFF0000:0:0:0:") house with
  | Normal record => record
  | Raised _ => None
  end.

Definition first_track_entry : gmap string value :=
  match result (audio_track_entry first_track) house with
  | Normal track => track
  | Raised _ => ∅
  end.

Definition house_tracks : list (gmap string value) :=
  match result get_audio_tracks house with
  | Normal (Some tracks) => tracks
  | _ => []
  end.

End Cases.

(** ** Reasoning about method bodies *)

Lemma run_bind {A B} (m : M A) (f : A → M B) (st : State) :
  (m ≫= f) st
  = match m st with
    | (Normal a, st') => f a st'
    | (Raised e, st') => (Raised e, st')
    end.
Proof. reflexivity. Qed.

Lemma after_bind {A B} (m : M A) (f : A → M B) (st : State) :
  after (m ≫= f) st
  = match result m st with
    | Normal a => after (f a) (after m st)
    | Raised _ => after m st
    end.
Proof.
  unfold after, result. rewrite run_bind.
  destruct (m st) as [[a|e] st']; reflexivity.
Qed.

Lemma result_bind {A B} (m : M A) (f : A → M B) (st : State) :
  result (m ≫= f) st
  = match result m st with
    | Normal a => result (f a) (after m st)
    | Raised e => Raised e
    end.
Proof.
  unfold after, result. rewrite run_bind.
  destruct (m st) as [[a|e] st']; reflexivity.
Qed.

(** A body that returned normally went through both halves of a
    sequence. *)
Lemma bind_normal {A B} (m : M A) (f : A → M B) (st : State) (b : B) :
  result (m ≫= f) st = Normal b →
  ∃ a, result m st = Normal a
       ∧ result (f a) (after m st) = Normal b
       ∧ after (m ≫= f) st = after (f a) (after m st).
Proof.
  rewrite result_bind, after_bind.
  destruct (result m st) as [a|e]; [eauto | discriminate].
Qed.

Lemma after_ret {A} (a : A) st : after (mret a) st = st.
Proof. reflexivity. Qed.
Lemma result_ret {A} (a : A) st : result (mret a) st = Normal a.
Proof. reflexivity. Qed.
Lemma after_raise {A} (e : exn) st : after (@raise A e) st = st.
Proof. reflexivity. Qed.
Lemma result_raise {A} (e : exn) st : result (@raise A e) st = Raised e.
Proof. reflexivity. Qed.
Lemma after_get_state st : after get_state st = st.
Proof. reflexivity. Qed.
Lemma result_get_state st : result get_state st = Normal st.
Proof. reflexivity. Qed.
Lemma after_modify f st : after (modify f) st = f st.
Proof. reflexivity. Qed.
Lemma result_modify f st : result (modify f) st = Normal tt.
Proof. reflexivity. Qed.
Lemma after_logger lvl msg e st :
  after (logger lvl msg e) st = add_logged (Log lvl msg e) st.
Proof. reflexivity. Qed.
Lemma result_logger lvl msg e st : result (logger lvl msg e) st = Normal tt.
Proof. reflexivity. Qed.
Lemma after_item_call item v st :
  after (item_call item v) st = set_value (path item) v st.
Proof. reflexivity. Qed.
Lemma result_item_call item v st : result (item_call item v) st = Normal tt.
Proof. reflexivity. Qed.
Lemma after_build_url suffix parameter st : after (build_url suffix parameter) st = st.
Proof. reflexivity. Qed.
Lemma result_build_url suffix parameter st :
  result (build_url suffix parameter) st
  = Normal (_build_url (_enigma2_device st) suffix parameter).
Proof. reflexivity. Qed.

Create Rewrite HintDb run.

Lemma after_attempt {A} (m : M A) st : after (attempt m) st = after m st.
Proof. unfold after, attempt. destruct (m st) as [[a|e] st']; reflexivity. Qed.
Lemma result_attempt {A} (m : M A) st :
  result (attempt m) st
  = Normal match result m st with Normal a => inr a | Raised e => inl e end.
Proof. unfold result, attempt. destruct (m st) as [[a|e] st']; reflexivity. Qed.

#[global] Hint Rewrite @after_attempt @result_attempt : run.
#[global] Hint Rewrite @after_bind @result_bind @after_ret @result_ret
  @after_raise @result_raise after_get_state result_get_state
  after_modify result_modify after_logger result_logger
  after_item_call result_item_call after_build_url result_build_url : run.

(** *** Relations that every step of a body keeps *)

Section Preservation.
Context (R : relation State) `{!PreOrder R}.

Lemma preserves_ret {A} (a : A) : preserves R (mret a).
Proof. intros st. reflexivity. Qed.

Lemma preserves_raise {A} (e : exn) : preserves R (@raise A e).
Proof. intros st. reflexivity. Qed.

Lemma preserves_get_state : preserves R get_state.
Proof. intros st. reflexivity. Qed.

Lemma preserves_bind {A B} (m : M A) (f : A → M B) :
  preserves R m → (∀ a, preserves R (f a)) → preserves R (m ≫= f).
Proof.
  intros Hm Hf st. rewrite after_bind.
  destruct (result m st) as [a|e]; [| apply Hm].
  transitivity (after m st); [apply Hm | apply Hf].
Qed.

Lemma preserves_attempt {A} (m : M A) : preserves R m → preserves R (attempt m).
Proof.
  intros Hm st. specialize (Hm st). unfold after, attempt in *.
  destruct (m st) as [[a|e] st']; exact Hm.
Qed.

Lemma preserves_subscript {V} (d : gmap string V) (k : string) :
  preserves R (subscript d k).
Proof. unfold subscript. destruct (d !! k); [apply preserves_ret | apply preserves_raise]. Qed.

Lemma preserves_data_of (c : option node) : preserves R (data_of c).
Proof.
  unfold data_of. destruct c as [[?|?]|];
    [apply preserves_raise | apply preserves_ret | apply preserves_raise].
Qed.

Lemma preserves_build_url (suffix parameter : string) :
  preserves R (build_url suffix parameter).
Proof.
  apply preserves_bind; [apply preserves_get_state | intros; apply preserves_ret].
Qed.

Lemma preserves_modify (f : State → State) :
  (∀ st, R st (f st)) → preserves R (modify f).
Proof. intros Hf st. apply Hf. Qed.
End Preservation.

Create HintDb pres.

#[global] Hint Resolve preserves_ret preserves_raise preserves_get_state
  preserves_subscript preserves_data_of preserves_build_url : pres.

(** Splits a goal [preserves R body] along the structure of [body]. *)
Ltac pres_step :=
  first
    [ solve [eauto with pres]
    | match goal with
      | |- preserves _ (attempt _) => apply preserves_attempt
      | |- preserves _ (if ?b then _ else _) => destruct b
      | |- preserves _ (match ?x with _ => _ end) => destruct x
      end
    | apply preserves_bind; [typeclasses eauto | | intros ?] ].
Ltac pres := repeat pres_step.

Section PreservationOfBodies.
Context `{Runtime}.
Context (R : relation State) `{!PreOrder R}.

(** Relations that do not look at the log or at the item values are kept
    by every body that sends nothing and leaves the cache alone. *)
Hypothesis R_logged : ∀ r st, R st (add_logged r st).
Hypothesis R_value : ∀ p v st, R st (set_value p v st).

Lemma preserves_logger lvl msg e : preserves R (logger lvl msg e).
Proof. apply preserves_modify, R_logged. Qed.

Lemma preserves_item_call item v : preserves R (item_call item v).
Proof. apply preserves_modify, R_value. Qed.

Lemma preserves_parse body : preserves R (parse body).
Proof. unfold parse. pres. Qed.

Lemma preserves_int s : preserves R (int s).
Proof. unfold int. pres. Qed.

Lemma preserves_float s : preserves R (float s).
Proof. unfold float. pres. Qed.

Hint Resolve preserves_logger preserves_item_call preserves_parse
  preserves_int preserves_float : pres.

Lemma preserves_get_value n tag : preserves R (_get_value_from_xml_node n tag).
Proof. unfold _get_value_from_xml_node. pres. Qed.

Lemma preserves_update_write item xml : preserves R (_update_write item xml).
Proof. unfold _update_write. pres. Qed.

Lemma preserves_log_acknowledgement xml a b :
  preserves R (log_acknowledgement xml a b).
Proof. unfold log_acknowledgement. pres. Qed.

Lemma preserves_epg_subscript d k : preserves R (epg_subscript d k).
Proof. unfold epg_subscript. pres. Qed.

Hint Resolve preserves_get_value preserves_update_write
  preserves_log_acknowledgement preserves_epg_subscript : pres.

Lemma preserves_epgservice_from_response content :
  preserves R (_epgservice_from_response content).
Proof. unfold _epgservice_from_response. pres. Qed.

Lemma preserves_current_event_item item xml d :
  preserves R (_update_current_event_item item xml d).
Proof. unfold _update_current_event_item. pres. Qed.

Hint Resolve preserves_epgservice_from_response preserves_current_event_item : pres.

Lemma preserves_update_from_cache item page :
  preserves R (_update_from_cache item page).
Proof. unfold _update_from_cache. pres. Qed.

Hint Resolve preserves_update_from_cache : pres.

(** What the relation must allow of the two ways a request is sent: the
    direct call, and the cached request with the caller's flag [c] or
    with the default flag. *)
Variable c : bool.
Hypothesis R_direct : ∀ u, preserves R (session_get None u).
Hypothesis R_cached : ∀ key u, preserves R (_cached_get_request key u c).
Hypothesis R_cached_default : ∀ key u, preserves R (_cached_get_request key u true).
Hypothesis R_call : ∀ x st, R st (add_call x st).

Hint Resolve R_direct R_cached R_cached_default : pres.

Lemma preserves_update item : preserves R (_update item true).
Proof. unfold _update. pres. Qed.

Lemma preserves_epgservice sref :
  preserves R (get_current_epgservice_for_service_reference sref).
Proof. unfold get_current_epgservice_for_service_reference. pres. Qed.

Hint Resolve preserves_update preserves_epgservice : pres.

Lemma preserves_current_epgservice sref : preserves R (_current_epgservice sref).
Proof. unfold _current_epgservice. pres. Qed.

Hint Resolve preserves_current_epgservice : pres.

Lemma preserves_current_event_write item xml :
  preserves R (_update_current_event_write item xml).
Proof. unfold _update_current_event_write. pres. Qed.

Hint Resolve preserves_current_event_write : pres.

Lemma preserves_current_event_from_cache item :
  preserves R (_update_current_event_from_cache item).
Proof. unfold _update_current_event_from_cache. pres. Qed.

Hint Resolve preserves_current_event_from_cache : pres.

Lemma preserves_current_event item : preserves R (_update_current_event item c).
Proof. unfold _update_current_event. pres. Qed.

Hint Resolve preserves_current_event : pres.

Lemma preserves_event_items_from items :
  preserves R (_update_event_items_from items c).
Proof. induction items as [|item rest IH]; simpl; pres. Qed.

Lemma preserves_volume item : preserves R (_update_volume item c).
Proof. unfold _update_volume. pres. Qed.

Lemma preserves_remote_control_command id : preserves R (remote_control_command id).
Proof. unfold remote_control_command. pres. Qed.

Lemma preserves_zap sref title : preserves R (zap sref title).
Proof. unfold zap. pres. Qed.

Hint Resolve preserves_event_items_from preserves_volume : pres.

Lemma preserves_event_items : preserves R (_update_event_items c).
Proof. unfold _update_event_items. pres. apply preserves_modify, R_call. Qed.

Hint Resolve preserves_event_items : pres.

Lemma preserves_loop_fast_item item : preserves R (_update_loop_fast_item item c).
Proof. unfold _update_loop_fast_item. pres. Qed.
End PreservationOfBodies.

(** *** Requests sent during a body *)

Lemma new_sent_app (st st' : State) (new : list request) :
  sent st' = (sent st ++ new)%list → new_sent st st' = new.
Proof. intros E. unfold new_sent. rewrite E. apply drop_app_length. Qed.

Lemma new_sent_same (st st' : State) : sent st' = sent st → new_sent st st' = [].
Proof. intros E. apply new_sent_app. rewrite E. symmetry. apply app_nil_r. Qed.

Lemma quiet_app (key : string) (a b : list request) :
  quiet key (a ++ b) ↔ quiet key a ∧ quiet key b.
Proof. apply Forall_app. Qed.

Lemma quiet_not_answered (key : string) (l : list request) :
  quiet key l → ¬ answered key l.
Proof.
  unfold quiet, answered. rewrite Forall_forall, Exists_exists.
  intros Hq (r & Hr & Hf). apply Hq in Hr.
  unfold fetched in Hf. rewrite Hr in Hf. discriminate.
Qed.

Lemma quiet_deduplicated (key : string) (l : list request) :
  quiet key l → deduplicated key l.
Proof.
  induction l as [|r l IH]; simpl; [done |].
  intros Hq. apply Forall_cons in Hq as [Hr Hl].
  unfold fetched. rewrite Hr. simpl. auto.
Qed.

Lemma deduplicated_app (key : string) (a b : list request) :
  deduplicated key a → (answered key a → quiet key b) → deduplicated key b →
  deduplicated key (a ++ b).
Proof.
  induction a as [|r a IH]; simpl; [done |].
  intros Ha Hab Hb. destruct (fetched key r) eqn:Er.
  - apply quiet_app. split; [done |]. apply Hab. by apply Exists_cons_hd.
  - apply IH; [done | | done]. intros Hans. apply Hab. by apply Exists_cons_tl.
Qed.

Lemma quiet_none_fetched (key : string) (l : list request) :
  quiet key l → filter (λ r, fetched key r = true) l = [].
Proof.
  induction l as [|r l IH]; [done |].
  intros Hq. apply Forall_cons in Hq as [Hr Hl].
  rewrite filter_cons, decide_False; [auto |].
  unfold fetched. rewrite Hr. discriminate.
Qed.

(** How many requests for [key] were answered. *)
Lemma deduplicated_once (key : string) (l : list request) :
  deduplicated key l → (answers key l ≤ 1)%nat.
Proof.
  unfold answers. induction l as [|r l IH]; simpl; [lia |].
  intros Hd. rewrite filter_cons. destruct (fetched key r) eqn:Er.
  - rewrite decide_True by done. rewrite quiet_none_fetched by done. simpl. lia.
  - rewrite decide_False by discriminate. auto.
Qed.

#[global] Instance dedup_step_preorder (key : string) : PreOrder (dedup_step key).
Proof.
  split.
  - intros st. assert (new_sent st st = []) as E by by apply new_sent_same.
    split; rewrite ?E.
    + exists []. symmetry. apply app_nil_r.
    + intros Hc. split; [done | constructor].
    + done.
    + intros Ha. inversion Ha.
  - intros a b c [[n1 E1] C1 D1 A1] [[n2 E2] C2 D2 A2].
    assert (sent c = (sent a ++ (n1 ++ n2))%list) as E3
      by (rewrite E2, E1; symmetry; apply app_assoc).
    rewrite (new_sent_app _ _ _ E1) in *. rewrite (new_sent_app _ _ _ E2) in *.
    split; rewrite ?(new_sent_app _ _ _ E3).
    + eauto.
    + intros Hc. destruct (C1 Hc) as [Hb Hq1]. destruct (C2 Hb) as [Hc' Hq2].
      split; [done |]. by apply quiet_app.
    + apply deduplicated_app; [done | | done].
      intros Ha. apply C2. auto.
    + intros Ha. apply Exists_app in Ha as [Ha | Ha]; [| auto].
      apply A1 in Ha. by apply C2.
Qed.

(** A step that sends nothing and leaves the cache alone. *)
Lemma dedup_step_idle (key : string) (st st' : State) :
  sent st' = sent st → _response_cache st' = _response_cache st →
  dedup_step key st st'.
Proof.
  intros Es Ec. assert (new_sent st st' = []) as E by by apply new_sent_same.
  split; rewrite ?E.
  - exists []. rewrite Es. symmetry. apply app_nil_r.
  - intros Hc. split; [| constructor]. unfold cached in *. by rewrite Ec.
  - done.
  - intros Ha. inversion Ha.
Qed.

Section Deduplication.
Context `{Runtime}.
Variable key : string.

Lemma dedup_direct u : preserves (dedup_step key) (session_get None u).
Proof.
  intros st. unfold after, session_get.
  destruct (network st (length (sent st)) u) as [body|]; simpl.
  all: match goal with |- dedup_step _ _ (add_sent ?r _) =>
         assert (new_sent st (add_sent r st) = [r]) as E
           by (by apply new_sent_app) end.
  all: split; rewrite ?E; simpl.
  all: try (eexists; reflexivity).
  all: try (intros Hc; split; [exact Hc | by repeat constructor]).
  all: try done.
  all: intros Ha; apply Exists_cons in Ha as [Ha | Ha];
         [discriminate | inversion Ha].
Qed.

Lemma dedup_cached k u : preserves (dedup_step key) (_cached_get_request k u true).
Proof.
  intros st. unfold after, _cached_get_request.
  rewrite run_bind. simpl. rewrite orb_false_r.
  destruct (has_key (_response_cache st) k) eqn:Ek; simpl.
  { by apply dedup_step_idle. }
  rewrite run_bind. unfold attempt, session_get.
  destruct (network st (length (sent st)) u) as [body|]; simpl.
  - (* answered: the body is stored under [k] *)
    set (r := Request (Some k) u (Some body)).
    match goal with |- dedup_step _ _ ?s =>
      assert (new_sent st s = [r]) as E by (by apply new_sent_app) end.
    unfold has_key in Ek. apply bool_decide_eq_false in Ek.
    split; rewrite ?E.
    + by eexists.
    + intros Hc. unfold cached in *. simpl.
      destruct (decide (k = key)) as [->|Hne]; [contradiction |].
      split; [by rewrite lookup_insert_ne |].
      repeat constructor. unfold for_key. simpl.
      apply bool_decide_eq_false. congruence.
    + simpl. destruct (fetched key r); [constructor | done].
    + intros Ha. apply Exists_cons in Ha as [Ha | Ha]; [| inversion Ha].
      unfold fetched, for_key in Ha. simpl in Ha.
      apply andb_true_iff in Ha as [Ha _]. apply bool_decide_eq_true in Ha.
      injection Ha as ->. unfold cached. simpl. rewrite lookup_insert_eq. eauto.
  - (* not answered: nothing is stored *)
    set (r := Request (Some k) u None).
    match goal with |- dedup_step _ _ ?s =>
      assert (new_sent st s = [r]) as E by (by apply new_sent_app) end.
    unfold has_key in Ek. apply bool_decide_eq_false in Ek.
    split; rewrite ?E.
    + by eexists.
    + intros Hc. split; [exact Hc |]. unfold cached in Hc.
      repeat constructor. unfold for_key. simpl.
      apply bool_decide_eq_false. intros [= ->]. contradiction.
    + simpl. unfold fetched. simpl. by rewrite andb_false_r.
    + intros Ha. apply Exists_cons in Ha as [Ha | Ha]; [| inversion Ha].
      unfold fetched in Ha. simpl in Ha. rewrite andb_false_r in Ha. discriminate.
Qed.

Lemma dedup_logged r st : dedup_step key st (add_logged r st).
Proof. by apply dedup_step_idle. Qed.

Lemma dedup_value p v st : dedup_step key st (set_value p v st).
Proof. by apply dedup_step_idle. Qed.

Lemma dedup_call x st : dedup_step key st (add_call x st).
Proof. by apply dedup_step_idle. Qed.

Lemma dedup_update item : preserves (dedup_step key) (_update item true).
Proof.
  apply preserves_update;
    auto using dedup_logged, dedup_value, dedup_cached with typeclass_instances.
Qed.

Lemma dedup_loop_fast_item item :
  preserves (dedup_step key) (_update_loop_fast_item item true).
Proof.
  apply preserves_loop_fast_item;
    auto using dedup_logged, dedup_value, dedup_cached, dedup_direct, dedup_call
      with typeclass_instances.
Qed.

Lemma dedup_step_cycle st st' : dedup_step key st st' → dedup_cycle key st st'.
Proof. intros [E C D A]. split; [done |]. split; [done |]. intros Hc. by apply C. Qed.

Lemma dedup_step_then_cycle a b c :
  dedup_step key a b → dedup_cycle key b c → dedup_cycle key a c.
Proof.
  intros [[n1 E1] C1 D1 A1] ([n2 E2] & D2 & C2).
  assert (sent c = (sent a ++ (n1 ++ n2))%list) as E3
    by (rewrite E2, E1; symmetry; apply app_assoc).
  rewrite (new_sent_app _ _ _ E1) in *. rewrite (new_sent_app _ _ _ E2) in *.
  unfold dedup_cycle. rewrite (new_sent_app _ _ _ E3).
  split; [eauto |]. split.
  - apply deduplicated_app; auto.
  - intros Hc. destruct (C1 Hc). apply quiet_app. auto.
Qed.

Lemma dedup_cycle_clear st : dedup_cycle key st (set_response_cache ∅ st).
Proof.
  assert (new_sent st (set_response_cache ∅ st) = []) as E by by apply new_sent_same.
  unfold dedup_cycle. rewrite E. split; [| split]; [| done | constructor].
  exists []. simpl. symmetry. apply app_nil_r.
Qed.

Lemma dedup_update_loop_from items st :
  dedup_cycle key st (after (_update_loop_from items) st).
Proof.
  revert st. induction items as [|item rest IH]; intros st; simpl.
  { apply dedup_cycle_clear. }
  autorewrite with run.
  destruct (alive st); simpl; autorewrite with run;
    [| apply dedup_step_cycle; reflexivity].
  destruct (result (_update item true) st) as [[]|e].
  - eapply dedup_step_then_cycle; [apply dedup_update | apply IH].
  - apply dedup_step_cycle, dedup_update.
Qed.

Lemma dedup_update_loop_fast_from items st :
  dedup_cycle key st (after (_update_loop_fast_from items true) st).
Proof.
  revert st. induction items as [|item rest IH]; intros st; simpl.
  { apply dedup_cycle_clear. }
  autorewrite with run.
  destruct (alive st); simpl; autorewrite with run;
    [| apply dedup_step_cycle; reflexivity].
  destruct (result (_update_loop_fast_item item true) st) as [[]|e].
  - eapply dedup_step_then_cycle; [apply dedup_loop_fast_item | apply IH].
  - apply dedup_step_cycle, dedup_loop_fast_item.
Qed.

Lemma dedup_update_loop st : dedup_cycle key st (after _update_loop st).
Proof.
  unfold _update_loop. autorewrite with run.
  eapply dedup_step_then_cycle; [| apply dedup_update_loop_from].
  etransitivity; [apply dedup_call | apply dedup_logged].
Qed.

Lemma dedup_update_loop_fast st : dedup_cycle key st (after (_update_loop_fast true) st).
Proof.
  unfold _update_loop_fast. autorewrite with run.
  eapply dedup_step_then_cycle; [| apply dedup_update_loop_fast_from].
  etransitivity; [apply dedup_call | apply dedup_logged].
Qed.
End Deduplication.

(** *** Relations that the requests and the cache do not disturb *)

Section Tolerant.
Context `{Runtime}.
Context (R : relation State) `{!PreOrder R}.
Hypothesis R_sent : ∀ r st, R st (add_sent r st).
Hypothesis R_cache : ∀ c st, R st (set_response_cache c st).
Hypothesis R_logged : ∀ r st, R st (add_logged r st).

Lemma tolerant_session_get key u : preserves R (session_get key u).
Proof.
  intros st. unfold after, session_get.
  destruct (network st (length (sent st)) u); apply R_sent.
Qed.

Lemma tolerant_cached_get_request key u c :
  preserves R (_cached_get_request key u c).
Proof.
  unfold _cached_get_request.
  apply preserves_bind; [done | apply preserves_get_state; done | intros st0].
  destruct (_ || _).
  - apply preserves_bind; [done | apply preserves_attempt, tolerant_session_get |].
    intros [e|content]; apply preserves_modify; auto.
  - apply preserves_modify; auto.
Qed.
End Tolerant.

(** Closes the side conditions of the lemmas above for a concrete
    relation. *)
Ltac side := first [typeclasses eauto | done].

#[global] Instance same_setup_preorder : PreOrder same_setup.
Proof.
  split; [done |].
  intros a b c (A1 & D1 & N1) (A2 & D2 & N2). unfold same_setup. by rewrite A2, D2, N2.
Qed.

#[global] Instance same_calls_preorder : PreOrder same_calls.
Proof. split; [done |]. intros a b c E1 E2. unfold same_calls in *. congruence. Qed.

#[global] Instance same_sent_preorder : PreOrder same_sent.
Proof. split; [done |]. intros a b c E1 E2. unfold same_sent in *. congruence. Qed.

Section Setup.
Context `{Runtime}.

Lemma setup_cached key u c : preserves same_setup (_cached_get_request key u c).
Proof. apply tolerant_cached_get_request; side. Qed.

Lemma setup_direct u : preserves same_setup (session_get None u).
Proof. apply tolerant_session_get; side. Qed.

Lemma setup_update item : preserves same_setup (_update item true).
Proof. apply preserves_update; side || auto using setup_cached. Qed.

Lemma setup_loop_fast_item item c :
  preserves same_setup (_update_loop_fast_item item c).
Proof.
  apply preserves_loop_fast_item;
    side || auto using setup_cached, setup_direct.
Qed.

Lemma setup_event_items c : preserves same_setup (_update_event_items c).
Proof.
  apply preserves_event_items;
    side || auto using setup_cached, setup_direct.
Qed.

Lemma setup_remote_control_command id :
  preserves same_setup (remote_control_command id).
Proof.
  apply preserves_remote_control_command;
    side || auto using setup_direct.
Qed.

Lemma calls_cached key u c : preserves same_calls (_cached_get_request key u c).
Proof. apply tolerant_cached_get_request; side. Qed.

Lemma calls_direct u : preserves same_calls (session_get None u).
Proof. apply tolerant_session_get; side. Qed.

Lemma calls_update item : preserves same_calls (_update item true).
Proof. apply preserves_update; side || auto using calls_cached. Qed.

Lemma calls_volume item c : preserves same_calls (_update_volume item c).
Proof. apply preserves_volume; side || auto using calls_direct. Qed.

Lemma calls_event_items_from items c :
  preserves same_calls (_update_event_items_from items c).
Proof.
  apply preserves_event_items_from;
    side || auto using calls_cached, calls_direct.
Qed.

Lemma calls_remote_control_command id :
  preserves same_calls (remote_control_command id).
Proof.
  apply preserves_remote_control_command;
    side || auto using calls_direct.
Qed.

(** *** The cache at the end of a cycle *)

Lemma update_loop_from_clears items st :
  alive st = true → result (_update_loop_from items) st = Normal tt →
  _response_cache (after (_update_loop_from items) st) = ∅.
Proof.
  revert st. induction items as [|item rest IH]; intros st Ha Hr; [done |].
  simpl in *. autorewrite with run in *. rewrite Ha in *. simpl in *.
  apply bind_normal in Hr as (a & _ & Hr & ->).
  apply IH; [| done]. destruct (setup_update item st) as [-> _]. done.
Qed.

Lemma update_loop_fast_from_clears items c st :
  alive st = true → result (_update_loop_fast_from items c) st = Normal tt →
  _response_cache (after (_update_loop_fast_from items c) st) = ∅.
Proof.
  revert st. induction items as [|item rest IH]; intros st Ha Hr; [done |].
  simpl in *. autorewrite with run in *. rewrite Ha in *. simpl in *.
  apply bind_normal in Hr as (a & _ & Hr & ->).
  apply IH; [| done]. destruct (setup_loop_fast_item item c st) as [-> _]. done.
Qed.

(** A stopped engine leaves a cycle at its first binding. *)
Lemma update_loop_from_stopped item rest st :
  alive st = false →
  _update_loop_from (item :: rest) st = (Normal tt, st).
Proof. intros Ha. simpl. rewrite run_bind. simpl. by rewrite Ha. Qed.

Lemma update_loop_fast_from_stopped item rest c st :
  alive st = false →
  _update_loop_fast_from (item :: rest) c st = (Normal tt, st).
Proof. intros Ha. simpl. rewrite run_bind. simpl. by rewrite Ha. Qed.
End Setup.

(** *** Entries into the resolvers *)

Lemma new_calls_app (st st' : State) (new : list call) :
  calls st' = (calls st ++ new)%list → new_calls st st' = new.
Proof. intros E. unfold new_calls. rewrite E. apply drop_app_length. Qed.

Lemma nested_same_setup (st st' : State) :
  same_setup st st' → nested_event_resolutions st' = nested_event_resolutions st.
Proof. intros (Ea & Ed & _). unfold nested_event_resolutions. by rewrite Ea, Ed. Qed.

Section Calls.
Context `{Runtime}.

Lemma event_items_calls c st :
  calls (after (_update_event_items c) st) = (calls st ++ [EventItems c])%list.
Proof.
  unfold _update_event_items. autorewrite with run.
  rewrite (calls_event_items_from _ c (add_call (EventItems c) st)). done.
Qed.

Lemma loop_fast_item_calls item c st :
  calls (after (_update_loop_fast_item item c) st)
  = (calls st ++ if routed_to_event_resolver item then [EventItems c] else [])%list.
Proof.
  unfold _update_loop_fast_item, routed_to_event_resolver.
  destruct (has_key (conf item) "enigma2_page"); simpl.
  { rewrite app_nil_r. apply calls_update. }
  unfold subscript. destruct (conf item !! "enigma2_data_type") as [dt|];
    autorewrite with run; [| by rewrite app_nil_r].
  destruct (str_mem dt _key_event_information); [apply event_items_calls |].
  rewrite app_nil_r. destruct (bool_decide (dt = "current_volume")); [| done].
  apply calls_volume.
Qed.

Lemma loop_fast_from_calls items c st :
  alive st = true →
  result (_update_loop_fast_from items c) st = Normal tt →
  calls (after (_update_loop_fast_from items c) st)
  = (calls st ++ repeat (EventItems c)
       (length (filter (λ item, routed_to_event_resolver item = true) items)))%list.
Proof.
  revert st. induction items as [|item rest IH]; intros st Ha Hr.
  { simpl. by rewrite app_nil_r. }
  simpl in *. autorewrite with run in *. rewrite Ha in *. simpl in *.
  apply bind_normal in Hr as (a & _ & Hr & ->).
  rewrite IH; [| by destruct (setup_loop_fast_item item c st) as [-> _] | done].
  rewrite loop_fast_item_calls, filter_cons.
  destruct (routed_to_event_resolver item).
  - rewrite decide_True by done. simpl. by rewrite <- app_assoc.
  - rewrite decide_False by done. by rewrite app_nil_r.
Qed.

Lemma loop_fast_calls c st :
  result (_update_loop_fast c) st = Normal tt →
  calls (after (_update_loop_fast c) st)
  = (calls st ++ FastCycle c :: repeat (EventItems c) (nested_event_resolutions st))%list.
Proof.
  unfold _update_loop_fast, nested_event_resolutions.
  autorewrite with run. simpl. intros Hr.
  destruct (alive st) eqn:Ha.
  - rewrite loop_fast_from_calls by done. simpl. by rewrite <- app_assoc.
  - destruct (get_fast_items (_enigma2_device st)) as [|item rest]; [done |].
    unfold after. by rewrite update_loop_fast_from_stopped.
Qed.
End Calls.

(** *** The cached request and the resolvers built on it *)

#[global] Instance same_values_preorder : PreOrder same_values.
Proof. split; [done |]. intros a b c E1 E2. unfold same_values in *. congruence. Qed.

#[global] Instance sent_grows_preorder : PreOrder sent_grows.
Proof.
  split.
  - intros st. exists []. symmetry. apply app_nil_r.
  - intros a b c [n1 E1] [n2 E2]. exists (n1 ++ n2)%list.
    rewrite E2, E1. symmetry. apply app_assoc.
Qed.

Lemma sent_grows_idle (st st' : State) : sent st' = sent st → sent_grows st st'.
Proof. intros E. exists []. rewrite E. symmetry. apply app_nil_r. Qed.

Section Fetch.
Context `{Runtime}.

Lemma new_logged_app st st' l :
  logged st' = (logged st ++ l)%list → new_logged st st' = l.
Proof. intros Hl. unfold new_logged. by rewrite Hl, drop_app_length. Qed.

(** The cached request, case by case. *)
Lemma cached_get_request_run key u c st :
  _cached_get_request key u c st
  = if negb (has_key (_response_cache st) key) || negb c then
      match network st (length (sent st)) u with
      | Some body =>
          (Normal tt,
           set_response_cache (<[key := body]> (_response_cache st))
             (add_sent (Request (Some key) u (Some body)) st))
      | None =>
          (Normal tt,
           add_logged (Log ERROR "Exception when sending GET request: "
                         (Some RequestException))
             (add_sent (Request (Some key) u None) st))
      end
    else
      (Normal tt,
       add_logged (Log DEBUG ("Accessing reponse cache for " +:+ u +:+ "!") None) st).
Proof.
  unfold _cached_get_request. rewrite run_bind. simpl.
  destruct (_ || _); [| reflexivity].
  rewrite run_bind. unfold attempt, session_get.
  destruct (network st (length (sent st)) u); reflexivity.
Qed.

Lemma cached_get_request_result key u c st :
  result (_cached_get_request key u c) st = Normal tt.
Proof.
  unfold result. rewrite cached_get_request_run.
  destruct (_ || _); [destruct (network _ _ _) |]; reflexivity.
Qed.

Lemma cached_get_request_values key u c st :
  values (after (_cached_get_request key u c) st) = values st.
Proof.
  unfold after. rewrite cached_get_request_run.
  destruct (_ || _); [destruct (network _ _ _) |]; reflexivity.
Qed.

(** With the cache bypassed the request is always sent. *)
Lemma cached_get_request_bypass key u st :
  sent (after (_cached_get_request key u false) st)
  = (sent st ++ [Request (Some key) u (network st (length (sent st)) u)])%list.
Proof.
  unfold after. rewrite cached_get_request_run. rewrite orb_true_r.
  destruct (network _ _ _); reflexivity.
Qed.

(** [_update] up to its cached request. *)
Lemma update_run item cache dt page suffix st :
  conf item !! "enigma2_data_type" = Some dt →
  conf item !! "enigma2_page" = Some page →
  _url_suffix_map !! page = Some suffix →
  _update item cache st = _update_from_cache item page (page_requested page cache st).
Proof.
  intros Hdt Hpage Hsuffix. unfold _update, page_requested, has_key.
  rewrite Hdt, Hsuffix. rewrite bool_decide_true by eauto. simpl.
  rewrite run_bind. unfold subscript at 1. rewrite Hpage. simpl.
  rewrite run_bind. unfold subscript at 1. rewrite Hsuffix. simpl.
  rewrite run_bind. simpl. rewrite run_bind.
  pose proof (cached_get_request_result page
                (_build_url (_enigma2_device st) suffix "") cache st) as Hr.
  unfold result, after in *.
  destruct (_cached_get_request _ _ _ st) as [o st1]. simpl in *. by subst o.
Qed.

(** [_update_current_event] up to its cached request. *)
Lemma update_current_event_run item cache st :
  has_key (conf item) "enigma2_data_type" = true →
  _update_current_event item cache st
  = _update_current_event_from_cache item (page_requested "subservices" cache st).
Proof.
  intros Hdt. unfold _update_current_event, page_requested.
  change (_url_suffix_map !! "subservices") with (Some "/web/subservices").
  rewrite run_bind. unfold subscript at 1.
  change (_url_suffix_map !! "subservices") with (Some "/web/subservices"). simpl.
  rewrite run_bind. simpl. rewrite Hdt. simpl. rewrite run_bind.
  pose proof (cached_get_request_result "subservices"
                (_build_url (_enigma2_device st) "/web/subservices" "") cache st) as Hr.
  unfold result, after in *.
  destruct (_cached_get_request _ _ _ st) as [o st1]. simpl in *. by subst o.
Qed.

(** What follows the cached request of [_update] sends nothing. *)
Lemma update_from_cache_sent item page st :
  sent (after (_update_from_cache item page) st) = sent st.
Proof. apply (preserves_update_from_cache same_sent); side. Qed.

Lemma sent_grows_direct u : preserves sent_grows (session_get None u).
Proof.
  intros st. unfold after, session_get.
  destruct (network _ _ _); by eexists.
Qed.

(** What follows the cached request of [_update_current_event] may send
    more, and takes nothing back. *)
Lemma current_event_from_cache_sent item st :
  sent_grows st (after (_update_current_event_from_cache item) st).
Proof.
  apply (preserves_current_event_from_cache sent_grows);
    first [typeclasses eauto | apply sent_grows_direct
          | intros; by apply sent_grows_idle].
Qed.
End Fetch.

(** *** The coercion by the item type *)

Section Coercion.
Context `{Runtime}.

Lemma located_inv item cache st els :
  located item cache st = Some els →
  ∃ dt page suffix body xml,
    conf item !! "enigma2_data_type" = Some dt
    ∧ conf item !! "enigma2_page" = Some page
    ∧ _url_suffix_map !! page = Some suffix
    ∧ _response_cache (page_requested page cache st) !! page = Some body
    ∧ parseString body = Some xml
    ∧ getElementsByTagName xml dt = els.
Proof.
  unfold located. intros Hl.
  destruct (conf item !! "enigma2_data_type") as [dt|]; [| done].
  destruct (conf item !! "enigma2_page") as [page|]; [| done].
  simpl in Hl.
  destruct (_url_suffix_map !! page) as [suffix|] eqn:Hs; [| done].
  simpl in Hl.
  destruct (_response_cache (page_requested page cache st) !! page) as [body|] eqn:Hb;
    [| done].
  simpl in Hl. destruct (parseString body) as [xml|] eqn:Hp; [| done].
  simpl in Hl. injection Hl as <-. by exists dt, page, suffix, body, xml.
Qed.

Lemma page_requested_values page cache st :
  values (page_requested page cache st) = values st.
Proof.
  unfold page_requested. destruct (_url_suffix_map !! page); [| done].
  apply cached_get_request_values.
Qed.

Lemma page_requested_logged page cache st :
  ∃ earlier, logged (page_requested page cache st) = (logged st ++ earlier)%list.
Proof.
  unfold page_requested. destruct (_url_suffix_map !! page) as [suffix|].
  - unfold after. rewrite cached_get_request_run.
    destruct (_ || _); [destruct (network _ _ _) |]; simpl;
      first [by exists [] ; rewrite app_nil_r | by eexists].
  - exists []. by rewrite app_nil_r.
Qed.

Lemma update_from_cache_run item page body xml st :
  _response_cache st !! page = Some body →
  parseString body = Some xml →
  _update_from_cache item page st = _update_write item xml st.
Proof.
  intros Hb Hp. unfold _update_from_cache. rewrite run_bind. unfold attempt.
  rewrite run_bind. simpl. unfold subscript. rewrite Hb. rewrite run_bind. simpl.
  unfold parse. rewrite Hp. reflexivity.
Qed.

Lemma update_at_page item cache st els :
  located item cache st = Some els →
  ∃ dt page xml,
    conf item !! "enigma2_data_type" = Some dt
    ∧ getElementsByTagName xml dt = els
    ∧ _update item cache st = _update_write item xml (page_requested page cache st).
Proof.
  intros Hl. apply located_inv in Hl as (dt & page & suffix & body & xml & Hl).
  destruct Hl as (Hdt & Hpage & Hs & Hb & Hp & He).
  exists dt, page, xml. split; [done |]. split; [done |].
  rewrite (update_run item cache dt page suffix) by done.
  by apply update_from_cache_run with body.
Qed.

Lemma update_at_located item cache st els :
  located item cache st = Some els →
  ∃ dt xml st1,
    conf item !! "enigma2_data_type" = Some dt
    ∧ getElementsByTagName xml dt = els
    ∧ values st1 = values st
    ∧ _update item cache st = _update_write item xml st1.
Proof.
  intros Hl. apply located_inv in Hl as (dt & page & suffix & body & xml & Hl).
  destruct Hl as (Hdt & Hpage & Hs & Hb & Hp & He).
  exists dt, xml, (page_requested page cache st).
  split; [done |]. split; [done |]. split; [apply page_requested_values |].
  rewrite (update_run item cache dt page suffix) by done.
  by apply update_from_cache_run with body.
Qed.

Lemma update_write_num item xml dt el rest s st :
  conf item !! "enigma2_data_type" = Some dt →
  getElementsByTagName xml dt = el :: rest →
  type item = "num" →
  firstChild el = Some (Text s) →
  _update_write item xml st
  = (Normal tt,
     match py_int s, py_float s with
     | Some z, _ => set_value (path item) (VInt z) st
     | None, Some f => set_value (path item) (VFloat f) st
     | None, None => st
     end).
Proof.
  intros Hdt He Ht Hc. unfold _update_write, subscript. rewrite Hdt.
  rewrite run_bind. simpl. rewrite He, Ht, Hc.
  change (bool_decide ("num" = "bool")) with false.
  change (bool_decide ("num" = "num")) with true. cbv iota.
  rewrite run_bind. simpl.
  unfold _represents_int, _represents_float, int, float.
  destruct (py_int s) as [z|].
  { rewrite bool_decide_true by eauto. reflexivity. }
  rewrite bool_decide_false by (by intros [? ?]).
  destruct (py_float s) as [f|].
  { rewrite bool_decide_true by eauto. reflexivity. }
  rewrite bool_decide_false by (by intros [? ?]). reflexivity.
Qed.

Lemma update_write_text item xml dt st :
  conf item !! "enigma2_data_type" = Some dt →
  type item ≠ "bool" → type item ≠ "num" →
  _update_write item xml st
  = match getElementsByTagName xml dt with
    | el :: _ =>
        match firstChild el with
        | Some (Text d) =>
            (Normal tt,
             set_value (path item)
               (VStr (if bool_decide (d = "N/A") then "-" else d)) st)
        | Some (Element _ _) => (Raised AttributeError, st)
        | None => (Normal tt, set_value (path item) (VStr "-") st)
        end
    | [] =>
        (Normal tt,
         add_logged (Log ERROR ("Attribute " +:+ dt +:+ " not available on the Enigma2Device")
                       None) st)
    end.
Proof.
  intros Hdt Hb Hn. unfold _update_write, subscript. rewrite Hdt.
  rewrite run_bind. simpl.
  destruct (getElementsByTagName xml dt) as [|el rest]; [reflexivity |].
  rewrite !bool_decide_false by done.
  destruct (firstChild el) as [[t cs|d]|]; try reflexivity.
  rewrite run_bind. simpl. destruct (bool_decide (d = "N/A")); reflexivity.
Qed.
End Coercion.

(** *** The event resolver *)

Section EventResolution.
Context `{Runtime}.

Lemma epgservice_sent sref st :
  sent (after (get_current_epgservice_for_service_reference sref) st)
  = (sent st ++ [Request None (epgservice_url st sref)
                   (network st (length (sent st)) (epgservice_url st sref))])%list.
Proof.
  unfold get_current_epgservice_for_service_reference, epgservice_url, after.
  rewrite run_bind. unfold subscript at 1.
  change (_url_suffix_map !! "epgservice") with (Some "/web/epgservice"). simpl.
  rewrite run_bind. simpl. rewrite run_bind. unfold attempt, session_get.
  destruct (network st (length (sent st)) _) as [content|]; simpl; [| done].
  match goal with |- sent (snd (?m ?s)) = _ => change (same_sent s (after m s)) end.
  apply preserves_epgservice_from_response; side.
Qed.

Lemma current_epgservice_sent sref st :
  sent (after (_current_epgservice sref) st)
  = if negb (bool_decide (sref = "N/A")) && negb (str_in "1:0:0:0:0:0:0:0:0:0" sref)
    then (sent st ++ [Request None (epgservice_url st sref)
                        (network st (length (sent st)) (epgservice_url st sref))])%list
    else sent st.
Proof.
  unfold _current_epgservice. destruct (_ && _); [apply epgservice_sent | done].
Qed.

Lemma current_event_from_cache_run item xml body el rest sref st :
  _response_cache st !! "subservices" = Some body →
  parseString body = Some xml →
  getElementsByTagName xml "e2servicereference" = el :: rest →
  firstChild el = Some (Text sref) →
  _update_current_event_from_cache item st
  = (_current_epgservice sref ≫= _update_current_event_item item xml) st.
Proof.
  intros Hb Hp He Hc. unfold _update_current_event_from_cache.
  rewrite run_bind. unfold attempt.
  rewrite run_bind. simpl. unfold subscript. rewrite Hb. rewrite run_bind. simpl.
  unfold parse. rewrite Hp. simpl.
  unfold _update_current_event_write. rewrite He, Hc.
  rewrite run_bind. simpl. rewrite (run_bind (mret sref)). reflexivity.
Qed.

Lemma current_event_item_sent item xml d st :
  sent (after (_update_current_event_item item xml d) st) = sent st.
Proof. apply (preserves_current_event_item same_sent); side. Qed.

Lemma no_event_item item xml dt st :
  conf item !! "enigma2_data_type" = Some dt →
  dt ∈ _key_event_information →
  _update_current_event_item item xml (Some no_event) st
  = (Normal tt, set_value (path item) (VStr "-") st).
Proof.
  intros Hdt Hin. unfold _update_current_event_item, subscript. rewrite Hdt.
  rewrite run_bind. simpl.
  apply list_elem_of_In in Hin. simpl in Hin.
  destruct Hin as [<-|[<-|[<-|[]]]]; reflexivity.
Qed.
Lemma page_requested_setup page cache st :
  same_setup st (page_requested page cache st).
Proof.
  unfold page_requested. destruct (_url_suffix_map !! page); [| done].
  apply setup_cached.
Qed.

Lemma subservices_document_inv cache st xml :
  subservices_document cache st = Some xml →
  ∃ body,
    _response_cache (page_requested "subservices" cache st) !! "subservices" = Some body
    ∧ parseString body = Some xml.
Proof.
  unfold subservices_document. intros Hd.
  destruct (_response_cache _ !! "subservices") as [body|]; [| done].
  by exists body.
Qed.
End EventResolution.

(** *** Containment of strings *)

Lemma append_cons (c : Ascii.ascii) (a r : string) :
  String c a +:+ r = String c (a +:+ r).
Proof. reflexivity. Qed.

Lemma append_nil (r : string) : "" +:+ r = r.
Proof. reflexivity. Qed.

Lemma prefix_app (a b : string) :
  String.prefix a b = true ↔ ∃ r, b = a +:+ r.
Proof.
  revert b. induction a as [|x a IH]; intros b.
  - split; [intros _; by exists b | intros _; by destruct b].
  - destruct b as [|y b]; simpl.
    + split; [done | intros [r Hr]; discriminate].
    + destruct (Ascii.ascii_dec x y) as [->|Hne].
      * rewrite IH. split; intros [r Hr]; exists r;
          rewrite append_cons in *; congruence.
      * split; [done | intros [r Hr]; rewrite append_cons in Hr; congruence].
Qed.

Lemma str_in_cons (needle : string) (c : Ascii.ascii) (hay : string) :
  str_in needle (String c hay)
  = String.prefix needle (String c hay) || str_in needle hay.
Proof. reflexivity. Qed.

Lemma str_in_nil (needle : string) :
  str_in needle "" = String.prefix needle "" || false.
Proof. reflexivity. Qed.

(** [needle in hay] holds exactly when [hay] is [needle] with something
    before and something after it. *)
Lemma str_in_spec (needle hay : string) :
  str_in needle hay = true ↔ ∃ l r, hay = l +:+ needle +:+ r.
Proof.
  induction hay as [|c hay IH].
  - rewrite str_in_nil, orb_false_r, prefix_app. split.
    + intros [r Hr]. by exists "", r.
    + intros (l & r & Hlr). destruct l; [by exists r | discriminate].
  - rewrite str_in_cons, orb_true_iff, prefix_app, IH. split.
    + intros [[r Hr] | (l & r & Hlr)].
      * by exists "", r.
      * exists (String c l), r. rewrite append_cons. by rewrite Hlr.
    + intros (l & r & Hlr). destruct l as [|c' l].
      * left. by exists r.
      * right. exists l, r. rewrite append_cons in Hlr. congruence.
Qed.

#[global] Arguments str_in : simpl never.

Section AudioTracks.
Context `{Runtime}.

(** The active flag that [get_audio_tracks] stores for an entry. *)
Lemma audio_track_entry_active entry a rest s st track :
  getElementsByTagName entry "e2audiotrackactive" = a :: rest →
  firstChild a = Some (Text s) →
  result (audio_track_entry entry) st = Normal track →
  track !! "e2audiotrackactive" = Some (VBool (str_in s "True")).
Proof.
  intros Ha Hc Hr. unfold audio_track_entry in Hr.
  apply bind_normal in Hr as (r1 & _ & Hr & _).
  apply bind_normal in Hr as (r2 & _ & Hr & _).
  apply bind_normal in Hr as (r3 & _ & Hr & _).
  rewrite Ha, Hc in Hr. rewrite result_bind in Hr. simpl in Hr.
  destruct (str_in s "True"); unfold result in Hr; simpl in Hr;
    injection Hr as <-; apply lookup_insert_eq.
Qed.

Lemma audio_track_entries_active entries st tracks :
  result (audio_track_entries entries) st = Normal tracks →
  Forall2 (λ entry track, ∀ a rest s,
             getElementsByTagName entry "e2audiotrackactive" = a :: rest →
             firstChild a = Some (Text s) →
             track !! "e2audiotrackactive" = Some (VBool (str_in s "True")))
    entries tracks.
Proof.
  revert st tracks. induction entries as [|entry rest IH]; intros st tracks Hr.
  { unfold result in Hr. simpl in Hr. injection Hr as <-. constructor. }
  simpl in Hr.
  apply bind_normal in Hr as (track & Ht & Hr & _).
  apply bind_normal in Hr as (more & Hm & Hr & _).
  unfold result in Hr. simpl in Hr. injection Hr as <-.
  constructor; [| by eapply IH].
  intros a rest' s Ha Hc. by eapply audio_track_entry_active.
Qed.
(** [get_audio_tracks] once the device has answered with a document. *)
Lemma get_audio_tracks_run st body xml :
  network st (length (sent st))
    (_build_url (_enigma2_device st) "/web/getaudiotracks" "") = Some body →
  parseString body = Some xml →
  get_audio_tracks st
  = (audio_track_entries (getElementsByTagName xml "e2audiotrack")
       ≫= λ tracks, mret (Some tracks))
      (add_sent (Request None
                   (_build_url (_enigma2_device st) "/web/getaudiotracks" "")
                   (Some body)) st).
Proof.
  intros Hnet Hp. unfold get_audio_tracks.
  rewrite run_bind. unfold subscript at 1.
  change (_url_suffix_map !! "getaudiotracks") with (Some "/web/getaudiotracks").
  simpl. rewrite run_bind. simpl. rewrite run_bind. unfold attempt.
  rewrite run_bind. unfold session_get. rewrite Hnet. simpl.
  unfold parse. rewrite Hp. reflexivity.
Qed.
End AudioTracks.

(** ** The claims *)

Section Claims.
Context `{Runtime}.

(** C1, with the amendment: in a slow cycle and in a fast cycle run with
    caching, once the device has answered a request sent for an endpoint-key
    by the cached-request operation, no further request for that key is sent
    during the invocation; so at most one request per key is answered, however
    many bindings share the key.  (Requests that fail are not counted: they
    store nothing and the next binding asks again.) *)
Theorem C1_answered_fetch_is_not_repeated (st : State) (key : string) :
  deduplicated key (new_sent st (after (run_cycle Slow) st))
  ∧ (answers key (new_sent st (after (run_cycle Slow) st)) ≤ 1)%nat
  ∧ deduplicated key (new_sent st (after (run_cycle (Fast true)) st))
  ∧ (answers key (new_sent st (after (run_cycle (Fast true)) st)) ≤ 1)%nat.
Proof.
  destruct (dedup_update_loop key st) as (_ & Ds & _).
  destruct (dedup_update_loop_fast key st) as (_ & Df & _).
  simpl. auto using deduplicated_once.
Qed.

(** C2, with the amendment: a cycle invocation, slow or fast, that finds the
    engine alive and returns normally leaves the Response Cache empty; an
    invocation that finds the engine stopped and its registry not empty
    returns at the first binding and leaves the cache as it found it. *)
Theorem C2_cache_after_cycle (c : cycle) (st : State) :
  (alive st = true → result (run_cycle c) st = Normal tt →
   _response_cache (after (run_cycle c) st) = ∅)
  ∧ (alive st = false → registry c st ≠ [] →
     result (run_cycle c) st = Normal tt
     ∧ _response_cache (after (run_cycle c) st) = _response_cache st).
Proof.
  split.
  - intros Ha Hr. destruct c as [|cache]; simpl in *.
    + unfold _update_loop in *. autorewrite with run in *.
      by apply update_loop_from_clears.
    + unfold _update_loop_fast in *. autorewrite with run in *.
      by apply update_loop_fast_from_clears.
  - intros Ha Hne. destruct c as [|cache]; simpl in *.
    + destruct (get_items (_enigma2_device st)) as [|item rest] eqn:E; [done |].
      unfold _update_loop. autorewrite with run. simpl. rewrite E.
      unfold result, after. by rewrite update_loop_from_stopped.
    + destruct (get_fast_items (_enigma2_device st)) as [|item rest] eqn:E; [done |].
      unfold _update_loop_fast. autorewrite with run. simpl. rewrite E.
      unfold result, after. by rewrite update_loop_fast_from_stopped.
Qed.

(** C4: with the cache bypassed ([cache=False]) the cached request always
    sends one request for the key, whatever the cache holds, also when it
    holds a response for that key; so does the resolution of a page binding,
    and the resolution of an event binding starts with a request for the
    subservices key. *)
Theorem C4_bypass_always_fetches (st : State) :
  (∀ key u,
     new_sent st (after (_cached_get_request key u false) st)
     = [Request (Some key) u (network st (length (sent st)) u)])
  ∧ (∀ item dt page suffix,
       conf item !! "enigma2_data_type" = Some dt →
       conf item !! "enigma2_page" = Some page →
       _url_suffix_map !! page = Some suffix →
       new_sent st (after (_update item false) st)
       = [Request (Some page) (_build_url (_enigma2_device st) suffix "")
            (network st (length (sent st))
               (_build_url (_enigma2_device st) suffix ""))])
  ∧ (∀ item,
       has_key (conf item) "enigma2_data_type" = true →
       ∃ more,
         new_sent st (after (_update_current_event item false) st)
         = Request (Some "subservices")
             (_build_url (_enigma2_device st) "/web/subservices" "")
             (network st (length (sent st))
                (_build_url (_enigma2_device st) "/web/subservices" "")) :: more).
Proof.
  split; [| split].
  - intros key u. apply new_sent_app, cached_get_request_bypass.
  - intros item dt page suffix Hdt Hpage Hsuffix. apply new_sent_app.
    unfold after at 1. rewrite (update_run item false dt page suffix) by done.
    fold (after (_update_from_cache item page) (page_requested page false st)).
    rewrite update_from_cache_sent. unfold page_requested. rewrite Hsuffix.
    apply cached_get_request_bypass.
  - intros item Hdt.
    unfold after at 1. rewrite update_current_event_run by done.
    fold (after (_update_current_event_from_cache item)
            (page_requested "subservices" false st)).
    destruct (current_event_from_cache_sent item
                (page_requested "subservices" false st)) as [more E].
    exists more. apply new_sent_app. rewrite E. unfold page_requested.
    change (_url_suffix_map !! "subservices") with (Some "/web/subservices").
    cbv iota. rewrite cached_get_request_bypass. by rewrite <- app_assoc.
Qed.

(** C5, with the amendment: when the fetch of the cached request fails, the
    operation stores nothing and leaves the Response Cache exactly as it was
    (an entry that was there for the key stays), writes to no item, and
    returns normally: the error is logged, by one record of level error
    that carries the exception, not raised.  A caller resolving a page
    binding whose key is not in the cache then finds no response, logs that
    by a second error record, which carries the [KeyError] of the cache
    lookup, and returns normally with the bound value slot unchanged and the
    key still absent. *)
Theorem C5_failed_fetch_stores_nothing (st : State) :
  (∀ key u cache,
     negb (has_key (_response_cache st) key) || negb cache = true →
     network st (length (sent st)) u = None →
     result (_cached_get_request key u cache) st = Normal tt
     ∧ _response_cache (after (_cached_get_request key u cache) st) = _response_cache st
     ∧ values (after (_cached_get_request key u cache) st) = values st
     ∧ new_logged st (after (_cached_get_request key u cache) st)
       = [Log ERROR "Exception when sending GET request: " (Some RequestException)])
  ∧ (∀ item cache dt page suffix,
       conf item !! "enigma2_data_type" = Some dt →
       conf item !! "enigma2_page" = Some page →
       _url_suffix_map !! page = Some suffix →
       _response_cache st !! page = None →
       network st (length (sent st)) (_build_url (_enigma2_device st) suffix "") = None →
       result (_update item cache) st = Normal tt
       ∧ values (after (_update item cache) st) = values st
       ∧ _response_cache (after (_update item cache) st) !! page = None
       ∧ new_logged st (after (_update item cache) st)
         = [Log ERROR "Exception when sending GET request: " (Some RequestException);
            Log ERROR "Exception when parsing response: " (Some (KeyError page))]).
Proof.
  split.
  - intros key u cache Hfetch Hnet.
    unfold result, after. rewrite cached_get_request_run, Hfetch, Hnet.
    repeat split. by apply new_logged_app.
  - intros item cache dt page suffix Hdt Hpage Hsuffix Hnone Hnet.
    unfold result, after. rewrite (update_run item cache dt page suffix) by done.
    unfold page_requested, after. rewrite Hsuffix, cached_get_request_run.
    unfold has_key. rewrite bool_decide_false by (rewrite Hnone; by intros [? ?]).
    simpl. rewrite Hnet. simpl.
    unfold _update_from_cache. rewrite run_bind. unfold attempt.
    rewrite run_bind. simpl. unfold subscript. rewrite Hnone. simpl.
    repeat split; [done |]. apply new_logged_app. simpl. by rewrite <- app_assoc.
Qed.

(** C8: the resolution of a numeric-kind binding whose located element
    holds the text [s] returns normally and writes [int(s)] if [s] parses as
    an integer, otherwise [float(s)] if [s] parses as a float, and otherwise
    leaves every value slot as it was. *)
Theorem C8_numeric_coercion (item : Item) (cache : bool) (st : State)
    (el : node) (rest : list node) (s : string) :
  type item = "num" →
  located item cache st = Some (el :: rest) →
  firstChild el = Some (Text s) →
  result (_update item cache) st = Normal tt
  ∧ values (after (_update item cache) st)
    = match py_int s, py_float s with
      | Some z, _ => <[path item := VInt z]> (values st)
      | None, Some f => <[path item := VFloat f]> (values st)
      | None, None => values st
      end.
Proof.
  intros Ht Hl Hc.
  apply update_at_located in Hl as (dt & xml & st1 & Hdt & He & Hv & Hrun).
  unfold result, after. rewrite Hrun.
  rewrite (update_write_num item xml dt el rest s) by done. simpl.
  split; [done |].
  destruct (py_int s); [| destruct (py_float s)]; simpl; by rewrite Hv.
Qed.

(** C9, with the amendment: the resolution by [_update] of a text-kind
    binding writes ["-"] when the located element's text is ["N/A"] and when
    the located element is empty; when the response holds no element of that
    name, it returns normally, leaves every value slot as it was, and the
    last thing it does is to log, at level error, that the attribute named
    by the binding's data type is not available. *)
Theorem C9_text_coercion (item : Item) (cache : bool) (st : State) :
  type item ≠ "bool" → type item ≠ "num" →
  (∀ el rest,
     located item cache st = Some (el :: rest) →
     firstChild el = Some (Text "N/A") ∨ firstChild el = None →
     result (_update item cache) st = Normal tt
     ∧ values (after (_update item cache) st) = <[path item := VStr "-"]> (values st))
  ∧ (located item cache st = Some [] →
     result (_update item cache) st = Normal tt
     ∧ values (after (_update item cache) st) = values st
     ∧ ∃ dt earlier,
         conf item !! "enigma2_data_type" = Some dt
         ∧ new_logged st (after (_update item cache) st)
           = (earlier ++ [Log ERROR ("Attribute " +:+ dt
                                       +:+ " not available on the Enigma2Device")
                            None])%list).
Proof.
  intros Hb Hn. split.
  - intros el rest Hl Hc.
    apply update_at_located in Hl as (dt & xml & st1 & Hdt & He & Hv & Hrun).
    unfold result, after. rewrite Hrun.
    rewrite (update_write_text item xml dt) by done. rewrite He.
    destruct Hc as [-> | ->]; simpl; by rewrite Hv.
  - intros Hl.
    apply update_at_page in Hl as (dt & page & xml & Hdt & He & Hrun).
    unfold result, after. rewrite Hrun.
    rewrite (update_write_text item xml dt) by done. rewrite He. simpl.
    split; [done |]. split; [apply page_requested_values |].
    destruct (page_requested_logged page cache st) as [earlier Hlog].
    exists dt, earlier. split; [done |].
    apply new_logged_app. simpl. by rewrite Hlog, <- app_assoc.
Qed.

(** C6: in the resolution of a current-event binding that has read the
    service reference [sref] from the subservices response, if [sref] is
    ["N/A"] or contains the reserved reference ["1:0:0:0:0:0:0:0:0:0"], no
    request follows the subservices request and a binding of any of the three
    event fields is written ["-"]; for every other reference exactly one
    request follows, the EPG request for [sref]. *)
Theorem C6_event_resolution (item : Item) (cache : bool) (st : State)
    (xml el : node) (rest : list node) (sref dt : string) :
  conf item !! "enigma2_data_type" = Some dt →
  subservices_document cache st = Some xml →
  getElementsByTagName xml "e2servicereference" = el :: rest →
  firstChild el = Some (Text sref) →
  (sref = "N/A" ∨ str_in "1:0:0:0:0:0:0:0:0:0" sref = true →
   new_sent (page_requested "subservices" cache st)
     (after (_update_current_event item cache) st) = []
   ∧ (dt ∈ _key_event_information →
      result (_update_current_event item cache) st = Normal tt
      ∧ values (after (_update_current_event item cache) st)
        = <[path item := VStr "-"]> (values st)))
  ∧ (sref ≠ "N/A" → str_in "1:0:0:0:0:0:0:0:0:0" sref = false →
     ∃ reply,
       new_sent (page_requested "subservices" cache st)
         (after (_update_current_event item cache) st)
       = [Request None (epgservice_url st sref) reply]).
Proof.
  intros Hdt Hdoc He Hc.
  apply subservices_document_inv in Hdoc as (body & Hb & Hp).
  set (st1 := page_requested "subservices" cache st) in *.
  assert (_update_current_event item cache st
          = (_current_epgservice sref ≫= _update_current_event_item item xml) st1)
    as Hrun.
  { rewrite update_current_event_run
      by (unfold has_key; rewrite Hdt; apply bool_decide_eq_true; eauto).
    by apply current_event_from_cache_run with body el rest. }
  split.
  - intros Hnone.
    assert (_current_epgservice sref st1 = (Normal (Some no_event), st1)) as Hcur.
    { unfold _current_epgservice.
      destruct Hnone as [-> | ->]; [reflexivity |].
      by rewrite andb_false_r. }
    unfold result, after. rewrite Hrun, run_bind, Hcur. split.
    + apply new_sent_same, current_event_item_sent.
    + intros Hin. rewrite (no_event_item item xml dt) by done. simpl.
      split; [done |]. unfold st1. by rewrite page_requested_values.
  - intros Hna Hpat. eexists. apply new_sent_app.
    unfold after at 1. rewrite Hrun.
    fold (after (_current_epgservice sref ≫= _update_current_event_item item xml) st1).
    rewrite after_bind.
    assert (sent (after (_current_epgservice sref) st1)
            = (sent st1 ++ [Request None (epgservice_url st sref)
                              (network st1 (length (sent st1))
                                 (epgservice_url st sref))])%list) as Hs.
    { rewrite current_epgservice_sent, Hpat.
      rewrite bool_decide_false by done. simpl.
      unfold epgservice_url.
      destruct (page_requested_setup "subservices" cache st) as (_ & Hdev & _).
      fold st1 in Hdev. by rewrite Hdev. }
    destruct (result (_current_epgservice sref) st1);
      [rewrite current_event_item_sent |]; exact Hs.
Qed.

(** C10: in the list that [get_audio_tracks] returns, the active flag of
    every entry whose [e2audiotrackactive] element holds the text [s] is
    [True] exactly when [s] occurs in ["True"] as a contiguous run of
    characters, and [False] otherwise. *)
Theorem C10_audio_track_active_flag (st : State) (body : string) (xml : node)
    (tracks : list (gmap string value)) :
  network st (length (sent st))
    (_build_url (_enigma2_device st) "/web/getaudiotracks" "") = Some body →
  parseString body = Some xml →
  result get_audio_tracks st = Normal (Some tracks) →
  Forall2 (λ entry track, ∀ a rest s,
             getElementsByTagName entry "e2audiotrackactive" = a :: rest →
             firstChild a = Some (Text s) →
             ∃ b, track !! "e2audiotrackactive" = Some (VBool b)
                  ∧ (b = true ↔ ∃ l r, "True" = l +:+ s +:+ r))
    (getElementsByTagName xml "e2audiotrack") tracks.
Proof.
  intros Hnet Hp Hr. unfold result in Hr.
  rewrite (get_audio_tracks_run st body xml) in Hr by done.
  match type of Hr with fst (?m ?s) = _ => change (result m s = Normal (Some tracks)) in Hr end.
  apply bind_normal in Hr as (tracks' & Ht & Hr & _).
  unfold result in Hr. simpl in Hr. injection Hr as <-.
  eapply Forall2_impl; [by eapply audio_track_entries_active |].
  intros entry track Hflag a rest s Ha Hc.
  exists (str_in s "True"). split; [by eapply Hflag |]. apply str_in_spec.
Qed.

(** What [execute_item] runs for a remote-control item dispatched by a
    caller other than the engine. *)
Lemma dispatch_remote_command (item : Item) (caller : option string) (id : string) :
  caller ≠ Some "Enigma2" →
  conf item !! "enigma2_remote_command_id" = Some id →
  execute_item item caller
  = (remote_control_command id;;
     if str_mem id ["105"; "106"; "116"] then
       _update_event_items false;; _update_loop_fast false
     else if str_mem id ["114"; "115"] then _update_loop_fast false
     else mret tt).
Proof.
  intros Hc Hid. unfold execute_item.
  rewrite bool_decide_false by done. simpl.
  unfold has_key, subscript. rewrite Hid.
  rewrite bool_decide_true by eauto. reflexivity.
Qed.

(** C7, with the amendment: a dispatch of command 105 by a caller other than
    the engine that returns normally enters the event resolver once with the
    cache bypassed and then one forced fast cycle; a dispatch of command 114
    enters one forced fast cycle and does not enter the event resolver
    itself.  In both cases the forced fast cycle enters the event resolver,
    with the cache bypassed, once more for every event binding of the fast
    registry that it passes. *)
Theorem C7_dispatch_enters_resolvers (item : Item) (caller : option string) (st : State) :
  caller ≠ Some "Enigma2" →
  result (execute_item item caller) st = Normal tt →
  (conf item !! "enigma2_remote_command_id" = Some "105" →
   new_calls st (after (execute_item item caller) st)
   = EventItems false :: FastCycle false
       :: repeat (EventItems false) (nested_event_resolutions st))
  ∧ (conf item !! "enigma2_remote_command_id" = Some "114" →
     new_calls st (after (execute_item item caller) st)
     = FastCycle false :: repeat (EventItems false) (nested_event_resolutions st)).
Proof.
  intros Hc Hr. split; intros Hid.
  - rewrite (dispatch_remote_command item caller "105") in * by done.
    change (str_mem "105" ["105"; "106"; "116"]) with true in *. cbv iota in *.
    apply bind_normal in Hr as (? & _ & Hr & ->).
    apply bind_normal in Hr as (? & _ & Hr & ->).
    set (st1 := after (remote_control_command "105") st) in *.
    set (st2 := after (_update_event_items false) st1) in *.
    assert (same_setup st st2) as Hs.
    { transitivity st1; [apply setup_remote_control_command | apply setup_event_items]. }
    apply new_calls_app. rewrite loop_fast_calls by done.
    rewrite (nested_same_setup _ _ Hs). unfold st2.
    rewrite event_items_calls. unfold st1.
    rewrite (calls_remote_control_command "105" st).
    by rewrite <- app_assoc.
  - rewrite (dispatch_remote_command item caller "114") in * by done.
    change (str_mem "114" ["105"; "106"; "116"]) with false in *.
    change (str_mem "114" ["114"; "115"]) with true in *. cbv iota in *.
    apply bind_normal in Hr as (? & _ & Hr & ->).
    set (st1 := after (remote_control_command "114") st) in *.
    apply new_calls_app. rewrite loop_fast_calls by done.
    rewrite (nested_same_setup st st1) by apply setup_remote_control_command.
    unfold st1. by rewrite (calls_remote_control_command "114" st).
Qed.

End Claims.

Section Runs.
#[local] Existing Instance Sample.runtime.

(** C1 as stated fails: two bindings of the page [about] in front of a
    device that cannot be reached make the slow cycle send two requests for
    the key [about]. *)
Lemma C1_unanswered_fetch_is_repeated :
  fetches "about"
    (new_sent Sample.two_bindings_unreachable
       (after (run_cycle Slow) Sample.two_bindings_unreachable)) = 2%nat.
Proof. vm_compute. reflexivity. Qed.

(** C2 as stated fails: the forced fast cycle that command 105 starts on a
    stopped engine ends at its first binding with the subservices response
    still in the cache, and the cache is not empty when the engine runs
    again. *)
Lemma C2_stopped_cycle_keeps_cache :
  alive Sample.stopped_before_forced_cycle = false
  ∧ _response_cache
      (after (run_cycle (Fast false)) Sample.stopped_before_forced_cycle)
      !! "subservices" = Some "<subservices tv>"
  ∧ _response_cache
      (after (run_cycle (Fast false);; run) Sample.stopped_before_forced_cycle)
    ≠ ∅.
Proof.
  split; [| split]; [vm_compute; reflexivity ..|].
  intros E. apply (f_equal (λ m, m !! "subservices")) in E.
  vm_compute in E. discriminate.
Qed.

Lemma C2_cache_after_cycle_witness :
  _response_cache (after (run_cycle Slow) Sample.living_room) = ∅
  ∧ _response_cache (after (run_cycle (Fast false)) Sample.stopped_before_forced_cycle)
    = _response_cache Sample.stopped_before_forced_cycle.
Proof.
  split.
  - apply (proj1 (C2_cache_after_cycle Slow Sample.living_room));
      vm_compute; reflexivity.
  - apply (proj2 (C2_cache_after_cycle (Fast false) Sample.stopped_before_forced_cycle));
      [vm_compute; reflexivity | vm_compute; discriminate].
Defined.

Lemma C4_bypass_always_fetches_witness :
  cached "about" Sample.about_cached
  ∧ new_sent Sample.about_cached (after (_update Sample.model_item false) Sample.about_cached)
    = [Request (Some "about") Sample.about_url (Some "<about>")]
  ∧ ∃ more,
      new_sent Sample.stopped_before_forced_cycle
        (after (_update_current_event Sample.title_item false)
           Sample.stopped_before_forced_cycle)
      = Request (Some "subservices") Sample.subservices_url (Some "<subservices tv>")
          :: more.
Proof.
  split; [vm_compute; eauto | split].
  - apply (proj1 (proj2 (C4_bypass_always_fetches Sample.about_cached))
             Sample.model_item "e2model" "about" "/web/about"); reflexivity.
  - apply (proj2 (proj2 (C4_bypass_always_fetches Sample.stopped_before_forced_cycle))
             Sample.title_item); reflexivity.
Defined.

(** The forced fast cycle resolves page bindings through [_update(item)],
    that is with the default flag: a cached page is not fetched again. *)
Example forced_fast_cycle_reads_pages_from_cache :
  new_sent Sample.service_page_cached
    (after (run_cycle (Fast false)) Sample.service_page_cached) = []
  ∧ values (after (run_cycle (Fast false)) Sample.service_page_cached) !! "tv.service"
    = Some (VStr "Das Erste HD").
Proof. split; vm_compute; reflexivity. Qed.

(** C5 as stated fails: the device cannot be reached, the forced request
    for the subservices key fails, the operation returns normally, the
    response stored before stays in the cache, and the binding resolved next
    is written from it. *)
Lemma C5_failed_forced_fetch_keeps_entry :
  network Sample.cached_then_unreachable
    (length (sent Sample.cached_then_unreachable)) Sample.subservices_url = None
  ∧ result (_cached_get_request "subservices" Sample.subservices_url false)
      Sample.cached_then_unreachable = Normal tt
  ∧ _response_cache
      (after (_cached_get_request "subservices" Sample.subservices_url false)
         Sample.cached_then_unreachable) !! "subservices"
    = Some "<subservices tv>"
  ∧ values (after (_update_current_event Sample.name_item false)
              Sample.cached_then_unreachable) !! "tv.name"
    = Some (VStr "Das Erste HD").
Proof. repeat split; vm_compute; reflexivity. Qed.

Lemma C5_failed_fetch_stores_nothing_witness :
  (result (_cached_get_request "subservices" Sample.subservices_url false)
     Sample.cached_then_unreachable = Normal tt
   ∧ _response_cache
       (after (_cached_get_request "subservices" Sample.subservices_url false)
          Sample.cached_then_unreachable)
     = _response_cache Sample.cached_then_unreachable
   ∧ values
       (after (_cached_get_request "subservices" Sample.subservices_url false)
          Sample.cached_then_unreachable)
     = values Sample.cached_then_unreachable
   ∧ new_logged Sample.cached_then_unreachable
       (after (_cached_get_request "subservices" Sample.subservices_url false)
          Sample.cached_then_unreachable)
     = [Log ERROR "Exception when sending GET request: " (Some RequestException)])
  ∧ (result (_update Sample.model_item true) Sample.two_bindings_unreachable = Normal tt
     ∧ values (after (_update Sample.model_item true) Sample.two_bindings_unreachable)
       = values Sample.two_bindings_unreachable
     ∧ _response_cache
         (after (_update Sample.model_item true) Sample.two_bindings_unreachable)
         !! "about" = None
     ∧ new_logged Sample.two_bindings_unreachable
         (after (_update Sample.model_item true) Sample.two_bindings_unreachable)
       = [Log ERROR "Exception when sending GET request: " (Some RequestException);
          Log ERROR "Exception when parsing response: " (Some (KeyError "about"))]).
Proof.
  split.
  - apply (proj1 (C5_failed_fetch_stores_nothing Sample.cached_then_unreachable));
      vm_compute; reflexivity.
  - apply (proj2 (C5_failed_fetch_stores_nothing Sample.two_bindings_unreachable)
             Sample.model_item true "e2model" "about" "/web/about");
      vm_compute; reflexivity.
Defined.

Lemma C8_numeric_coercion_witness :
  values (after (_update Sample.width_item true) Sample.living_room)
  = <["box.width" := VInt 42]> (values Sample.living_room)
  ∧ values (after (_update Sample.fp_item true) Sample.living_room)
    = <["box.fp" := VFloat 3.5]> (values Sample.living_room)
  ∧ values (after (_update Sample.hdd_item true) Sample.living_room)
    = values Sample.living_room.
Proof.
  split; [| split].
  - refine (eq_trans
              (proj2 (C8_numeric_coercion Sample.width_item true Sample.living_room
                        (Element "e2videowidth" [Text "42"]) [] "42" _ _ _)) _);
      vm_compute; reflexivity.
  - refine (eq_trans
              (proj2 (C8_numeric_coercion Sample.fp_item true Sample.living_room
                        (Element "e2fpversion" [Text "3.5"]) [] "3.5" _ _ _)) _);
      vm_compute; reflexivity.
  - refine (eq_trans
              (proj2 (C8_numeric_coercion Sample.hdd_item true Sample.living_room
                        (Element "e2hddinfo" [Text "abc"]) [] "abc" _ _ _)) _);
      vm_compute; reflexivity.
Defined.

(** C9 as stated fails: the response of the page [about] holds no
    [e2tunerinfo] element, and the resolution of the text binding leaves its
    slot without a value instead of writing ["-"]. *)
Lemma C9_missing_field_is_not_written :
  located Sample.tuner_item true Sample.living_room = Some []
  ∧ values (after (_update Sample.tuner_item true) Sample.living_room) !! "box.tuner"
    = None.
Proof. split; vm_compute; reflexivity. Qed.

Lemma C9_text_coercion_witness :
  values (after (_update Sample.version_item true) Sample.living_room)
  = <["box.version" := VStr "-"]> (values Sample.living_room)
  ∧ values (after (_update Sample.mac_item true) Sample.living_room)
    = <["box.mac" := VStr "-"]> (values Sample.living_room)
  ∧ values (after (_update Sample.tuner_item true) Sample.living_room)
    = values Sample.living_room
  ∧ ∃ dt earlier,
      conf Sample.tuner_item !! "enigma2_data_type" = Some dt
      ∧ new_logged Sample.living_room
          (after (_update Sample.tuner_item true) Sample.living_room)
        = (earlier ++ [Log ERROR ("Attribute " +:+ dt
                                    +:+ " not available on the Enigma2Device")
                         None])%list.
Proof.
  split; [| split].
  - apply (proj1 (C9_text_coercion Sample.version_item true Sample.living_room
                    ltac:(discriminate) ltac:(discriminate))
             (Element "e2enigmaversion" [Text "N/A"]) []);
      [reflexivity | left; reflexivity].
  - apply (proj1 (C9_text_coercion Sample.mac_item true Sample.living_room
                    ltac:(discriminate) ltac:(discriminate))
             (Element "e2lanmac" []) []);
      [reflexivity | right; reflexivity].
  - apply (proj2 (proj2 (C9_text_coercion Sample.tuner_item true Sample.living_room
                           ltac:(discriminate) ltac:(discriminate))
                    ltac:(reflexivity))).
Defined.

(** C3 fails on the code: in a fast cycle over an event binding followed
    by a volume binding, a subservices response without a service reference
    makes the event resolution raise after logging the missing attribute,
    and an unanswered EPG request makes it raise on the missing event record;
    either way the cycle ends there and the volume binding, which the same
    cycle resolves when the event resolution succeeds, is not reached. *)
Theorem C3_failed_event_resolution_ends_fast_cycle :
  result (run_cycle (Fast true)) Sample.no_reference
  = Raised (UnboundLocalError "e2servicereference")
  ∧ values (after (run_cycle (Fast true)) Sample.no_reference) !! "tv.volume" = None
  ∧ result (run_cycle (Fast true)) Sample.epg_unreachable = Raised TypeError
  ∧ values (after (run_cycle (Fast true)) Sample.epg_unreachable) !! "tv.volume" = None
  ∧ values (after (run_cycle (Fast true)) Sample.living_room) !! "tv.volume"
    = Some (VStr "35").
Proof. repeat split; vm_compute; reflexivity. Qed.

Lemma C6_event_resolution_witness :
  (new_sent (page_requested "subservices" true Sample.no_service)
     (after (_update_current_event Sample.title_item true) Sample.no_service) = []
   ∧ values (after (_update_current_event Sample.title_item true) Sample.no_service)
     = <["tv.title" := VStr "-"]> (values Sample.no_service))
  ∧ (new_sent (page_requested "subservices" true Sample.reserved_service)
       (after (_update_current_event Sample.title_item true) Sample.reserved_service)
     = []
     ∧ values (after (_update_current_event Sample.title_item true)
                 Sample.reserved_service)
       = <["tv.title" := VStr "-"]> (values Sample.reserved_service))
  ∧ ∃ reply,
      new_sent (page_requested "subservices" true Sample.living_room)
        (after (_update_current_event Sample.title_item true) Sample.living_room)
      = [Request None Sample.epg_url reply].
Proof.
  split; [| split].
  - destruct (C6_event_resolution Sample.title_item true Sample.no_service
                (Sample.subservices_xml "N/A")
                (Element "e2servicereference" [Text "N/A"]) [] "N/A"
                "current_eventtitle") as [Hnone _];
      [vm_compute; reflexivity ..|].
    destruct Hnone as [Hsent Hvalue]; [left; reflexivity |].
    split; [exact Hsent |]. apply Hvalue. constructor.
  - destruct (C6_event_resolution Sample.title_item true Sample.reserved_service
                (Sample.subservices_xml "1:0:0:0:0:0:0:0:0:0:")
                (Element "e2servicereference" [Text "1:0:0:0:0:0:0:0:0:0:"]) []
                "1:0:0:0:0:0:0:0:0:0:" "current_eventtitle") as [Hnone _];
      [vm_compute; reflexivity ..|].
    destruct Hnone as [Hsent Hvalue]; [right; vm_compute; reflexivity |].
    split; [exact Hsent |]. apply Hvalue. constructor.
  - destruct (C6_event_resolution Sample.title_item true Sample.living_room
                (Sample.subservices_xml "1:0:19:283D:41B:1:FFFF0000:0:0:0:")
                (Element "e2servicereference" [Text "1:0:19:283D:41B:1:FFFF0000:0:0:0:"])
                [] "1:0:19:283D:41B:1:FFFF0000:0:0:0:" "current_eventtitle")
      as [_ Hother]; [vm_compute; reflexivity ..|].
    apply Hother; [discriminate | vm_compute; reflexivity].
Defined.

(** C7 as stated fails: with an event binding in the fast registry, the
    dispatch of command 114 enters the event resolver (inside the forced
    fast cycle) and writes the event title, and the dispatch of command 105
    enters it twice. *)
Lemma C7_volume_command_resolves_events :
  new_calls Sample.living_room
    (after (execute_item Sample.volume_up_item None) Sample.living_room)
  = [FastCycle false; EventItems false]
  ∧ values (after (execute_item Sample.volume_up_item None) Sample.living_room)
      !! "tv.title" = Some (VStr "Tagesschau")
  ∧ new_calls Sample.living_room
      (after (execute_item Sample.power_item None) Sample.living_room)
    = [EventItems false; FastCycle false; EventItems false].
Proof. repeat split; vm_compute; reflexivity. Qed.

Lemma C7_dispatch_enters_resolvers_witness :
  new_calls Sample.living_room
    (after (execute_item Sample.power_item None) Sample.living_room)
  = EventItems false :: FastCycle false
      :: repeat (EventItems false) (nested_event_resolutions Sample.living_room)
  ∧ new_calls Sample.living_room
      (after (execute_item Sample.volume_up_item None) Sample.living_room)
    = FastCycle false
        :: repeat (EventItems false) (nested_event_resolutions Sample.living_room).
Proof.
  split.
  - apply (C7_dispatch_enters_resolvers Sample.power_item None Sample.living_room);
      [discriminate | vm_compute; reflexivity | vm_compute; reflexivity].
  - apply (C7_dispatch_enters_resolvers Sample.volume_up_item None Sample.living_room);
      [discriminate | vm_compute; reflexivity | vm_compute; reflexivity].
Defined.

(** Fragments of ["True"] count as active, ["False"] does not. *)
Example str_in_fragments :
  str_in "True" "True" = true ∧ str_in "T" "True" = true
  ∧ str_in "rue" "True" = true ∧ str_in "False" "True" = false
  ∧ str_in "true" "True" = false.
Proof. repeat split. Qed.

(** The three entries of the sample document: active, not active, and
    active by the fragment ["rue"]. *)
Example sample_audio_tracks_flags :
  (λ track : gmap string value, track !! "e2audiotrackactive") <$> Sample.audio_tracks
  = [Some (VBool true); Some (VBool false); Some (VBool true)].
Proof. vm_compute. reflexivity. Qed.

Lemma C10_audio_track_active_flag_witness :
  Forall2 (λ entry track, ∀ a rest s,
             getElementsByTagName entry "e2audiotrackactive" = a :: rest →
             firstChild a = Some (Text s) →
             ∃ b, track !! "e2audiotrackactive" = Some (VBool b)
                  ∧ (b = true ↔ ∃ l r, "True" = l +:+ s +:+ r))
    (getElementsByTagName Sample.audio_xml "e2audiotrack") Sample.audio_tracks.
Proof.
  apply (C10_audio_track_active_flag Sample.living_room "<audio>");
    vm_compute; reflexivity.
Defined.

End Runs.

(** ** Further properties of the code *)

(** *** The generic resolver *)

Section GenericResolver.
Context `{Runtime}.

Lemma update_write_bool item xml dt el rest st :
  conf item !! "enigma2_data_type" = Some dt →
  getElementsByTagName xml dt = el :: rest →
  type item = "bool" →
  _update_write item xml st
  = match firstChild el with
    | Some (Text s) =>
        (Normal tt,
         set_value (path item)
           (VInt (if bool_decide (s = "true" ∨ s = "True") then 1 else 0)) st)
    | Some (Element _ _) => (Raised AttributeError, st)
    | None => (Normal tt, st)
    end.
Proof.
  intros Hdt He Ht. unfold _update_write, subscript. rewrite Hdt.
  rewrite run_bind. simpl. rewrite He, Ht.
  change (bool_decide ("bool" = "bool")) with true. cbv iota.
  destruct (firstChild el) as [[t cs|s]|]; try reflexivity.
  rewrite run_bind. simpl.
  destruct (decide (s = "true")) as [->|Hn1]; [reflexivity |].
  destruct (decide (s = "True")) as [->|Hn2]; [reflexivity |].
  rewrite !bool_decide_false by tauto. reflexivity.
Qed.

(** X1: the resolution of a boolean-kind binding writes 1 when the located
    element's text is ["true"] or ["True"] and 0 for every other text; an
    empty element leaves every value slot as it was. *)
Theorem X1_boolean_coercion (item : Item) (cache : bool) (st : State)
    (el : node) (rest : list node) :
  type item = "bool" →
  located item cache st = Some (el :: rest) →
  (∀ s, firstChild el = Some (Text s) →
        result (_update item cache) st = Normal tt
        ∧ values (after (_update item cache) st)
          = <[path item := VInt (if bool_decide (s = "true" ∨ s = "True")
                                 then 1 else 0)]> (values st))
  ∧ (firstChild el = None →
     result (_update item cache) st = Normal tt
     ∧ values (after (_update item cache) st) = values st).
Proof.
  intros Ht Hl.
  apply update_at_located in Hl as (dt & xml & st1 & Hdt & He & Hv & Hrun).
  unfold result, after. rewrite Hrun.
  rewrite (update_write_bool item xml dt el rest) by done.
  split; [intros s Hc | intros Hc]; rewrite Hc; simpl; by rewrite Hv.
Qed.

(** X2: when the response that [_update] reads for the page does not
    parse, the resolution returns normally and writes nothing, the
    unparsable body stays in the cache under the page, and the last thing
    the resolution does is to log the parse error, at level error. *)
Theorem X2_unparsable_response (item : Item) (cache : bool) (st : State)
    (dt page suffix body : string) :
  conf item !! "enigma2_data_type" = Some dt →
  conf item !! "enigma2_page" = Some page →
  _url_suffix_map !! page = Some suffix →
  _response_cache (page_requested page cache st) !! page = Some body →
  parseString body = None →
  result (_update item cache) st = Normal tt
  ∧ values (after (_update item cache) st) = values st
  ∧ _response_cache (after (_update item cache) st) !! page = Some body
  ∧ ∃ earlier,
      new_logged st (after (_update item cache) st)
      = (earlier ++ [Log ERROR "Exception when parsing response: "
                       (Some ExpatError)])%list.
Proof.
  intros Hdt Hpage Hs Hb Hp.
  unfold result, after. rewrite (update_run item cache dt page suffix) by done.
  unfold _update_from_cache. rewrite run_bind. unfold attempt.
  rewrite run_bind. simpl. unfold subscript. rewrite Hb. rewrite run_bind. simpl.
  unfold parse. rewrite Hp. simpl.
  split; [done |]. split; [apply page_requested_values |]. split; [done |].
  destruct (page_requested_logged page cache st) as [earlier Hlog].
  exists earlier. apply new_logged_app. simpl. by rewrite Hlog, <- app_assoc.
Qed.

Lemma update_without_page (item : Item) (cache : bool) (st : State) :
  is_Some (conf item !! "enigma2_data_type") →
  conf item !! "enigma2_page" = None →
  _update item cache st = (Raised (KeyError "enigma2_page"), st).
Proof.
  intros Hdt Hpage. unfold _update, has_key.
  rewrite bool_decide_true by done. simpl.
  rewrite run_bind. unfold subscript at 1. by rewrite Hpage.
Qed.

Lemma update_unknown_page (item : Item) (cache : bool) (page : string) (st : State) :
  is_Some (conf item !! "enigma2_data_type") →
  conf item !! "enigma2_page" = Some page →
  _url_suffix_map !! page = None →
  _update item cache st = (Raised (KeyError page), st).
Proof.
  intros Hdt Hpage Hs. unfold _update, has_key.
  rewrite bool_decide_true by done. simpl.
  rewrite run_bind. unfold subscript at 1. rewrite Hpage. simpl.
  rewrite run_bind. unfold subscript at 1. by rewrite Hs.
Qed.

Lemma update_without_data_type (item : Item) (cache : bool) (st : State) :
  conf item !! "enigma2_data_type" = None →
  _update item cache st
  = (Normal tt, add_logged (Log ERROR "No enigma2_data_type set in item!" None) st).
Proof.
  intros Hdt. unfold _update, has_key. rewrite Hdt.
  by rewrite bool_decide_false by (by intros [? ?]).
Qed.

(** X3: the keys that [_update] needs.  Without a data type the
    resolution logs one record, at level error, that no data type is set,
    and nothing else happens; with a data type but without an endpoint page,
    or with a page that the URL table does not know, the resolution raises
    [KeyError] before anything is sent or logged. *)
Theorem X3_update_missing_keys (item : Item) (cache : bool) (st : State) :
  (conf item !! "enigma2_data_type" = None →
   result (_update item cache) st = Normal tt
   ∧ only_logs st (after (_update item cache) st)
   ∧ new_logged st (after (_update item cache) st)
     = [Log ERROR "No enigma2_data_type set in item!" None])
  ∧ (is_Some (conf item !! "enigma2_data_type") →
     conf item !! "enigma2_page" = None →
     _update item cache st = (Raised (KeyError "enigma2_page"), st))
  ∧ (∀ page,
       is_Some (conf item !! "enigma2_data_type") →
       conf item !! "enigma2_page" = Some page →
       _url_suffix_map !! page = None →
       _update item cache st = (Raised (KeyError page), st)).
Proof.
  split; [| split].
  - intros Hdt. unfold result, after. rewrite update_without_data_type by done.
    split; [done |]. split; [done |]. by apply new_logged_app.
  - apply update_without_page.
  - intros page. apply update_unknown_page.
Qed.

End GenericResolver.

(** *** Registration *)

Lemma str_mem_true (x : string) (l : list string) : str_mem x l = true ↔ x ∈ l.
Proof. unfold str_mem. apply bool_decide_eq_true. Qed.

Lemma str_mem_false (x : string) (l : list string) : str_mem x l = false ↔ x ∉ l.
Proof. unfold str_mem. apply bool_decide_eq_false. Qed.

Lemma has_key_true {V} (d : gmap string V) (k : string) :
  has_key d k = true ↔ is_Some (d !! k).
Proof. unfold has_key. apply bool_decide_eq_true. Qed.

Lemma has_key_false {V} (d : gmap string V) (k : string) :
  has_key d k = false ↔ d !! k = None.
Proof.
  unfold has_key. rewrite bool_decide_eq_false. split.
  - intros Hn. destruct (d !! k) eqn:E; [| done]. exfalso. apply Hn. eauto.
  - intros ->. by intros [? ?].
Qed.

(** The registration by data type, case by case. *)
Lemma register_by_data_type_run (item : Item) (st : State) :
  register_by_data_type item st
  = match conf item !! "enigma2_data_type" with
    | Some dt =>
        if str_mem dt _keys_fast_refresh
        then (Normal tt,
              set_enigma2_device (append_fast_item item (_enigma2_device st)) st)
        else (Normal tt,
              set_enigma2_device (append_item item (_enigma2_device st)) st)
    | None => (Raised (KeyError "enigma2_data_type"), st)
    end.
Proof.
  unfold register_by_data_type, subscript.
  destruct (conf item !! "enigma2_data_type") as [dt|]; [| reflexivity].
  rewrite run_bind. simpl. destruct (str_mem dt _keys_fast_refresh); reflexivity.
Qed.

Lemma register_by_data_type_sorted (item : Item) (st : State) :
  conf item !! "device_id" = Some (_identifier (_enigma2_device st)) →
  registries_sorted (_enigma2_device st) →
  registries_sorted (_enigma2_device (after (register_by_data_type item) st)).
Proof.
  intros Hid [Hf Hs]. unfold after. rewrite register_by_data_type_run.
  destruct (conf item !! "enigma2_data_type") as [dt|] eqn:Hdt; [| done].
  destruct (str_mem dt _keys_fast_refresh) eqn:Hm; simpl.
  - apply str_mem_true in Hm. split; [| exact Hs].
    simpl. apply Forall_app. split; [exact Hf |].
    repeat constructor; [exact Hid | eauto].
  - apply str_mem_false in Hm. split; [exact Hf |].
    simpl. apply Forall_app. split; [exact Hs |].
    repeat constructor; [exact Hid | eauto].
Qed.

(** Where [parse_item] registers, and where it does not. *)
Lemma parse_item_run (item : Item) (st : State) :
  parse_item item st
  = if bool_decide (conf item !! "device_id"
                    = Some (_identifier (_enigma2_device st))) then
      match conf item !! "enigma2_page" with
      | Some page =>
          if str_mem page ["about"; "powerstate"; "subservices"; "deviceinfo"]
          then (register_by_data_type item;; mret None) st
          else (Normal None, st)
      | None =>
          if has_key (conf item) "enigma2_data_type"
          then (register_by_data_type item;; mret None) st
          else if has_key (conf item) "enigma2_remote_command_id"
                  || has_key (conf item) "sref"
          then (Normal (Some ExecuteItem), st)
          else (Normal None, st)
      end
    else (Normal None, st).
Proof.
  unfold parse_item, has_key, subscript.
  destruct (conf item !! "device_id") as [value|] eqn:Hid.
  - rewrite (bool_decide_true (is_Some (Some value))) by eauto.
    rewrite run_bind. simpl. rewrite run_bind. simpl.
    destruct (decide (value = _identifier (_enigma2_device st))) as [->|Hne].
    + rewrite !(bool_decide_true (_ = _)) by done.
      destruct (conf item !! "enigma2_page") as [page|].
      * rewrite (bool_decide_true (is_Some (Some page))) by eauto.
        rewrite run_bind. simpl. by destruct (str_mem page _).
      * rewrite (bool_decide_false (is_Some None)) by (by intros [? ?]).
        destruct (bool_decide _); [reflexivity |]. by destruct (_ || _).
    + rewrite !(bool_decide_false (_ = _)) by congruence. reflexivity.
  - rewrite (bool_decide_false (is_Some None)) by (by intros [? ?]).
    rewrite bool_decide_false by done. reflexivity.
Qed.

Lemma parse_item_sorted (item : Item) (st : State) :
  registries_sorted (_enigma2_device st) →
  registries_sorted (_enigma2_device (after (parse_item item) st)).
Proof.
  intros Hs. unfold after. rewrite parse_item_run.
  case_bool_decide as Hid; [| done].
  assert (registries_sorted
            (_enigma2_device (after (register_by_data_type item;; mret (@None callback)) st)))
    as Hreg.
  { rewrite after_bind.
    destruct (result (register_by_data_type item) st) as [[]|e];
      rewrite ?after_ret; by apply register_by_data_type_sorted. }
  destruct (conf item !! "enigma2_page") as [page|].
  - destruct (str_mem page _); [exact Hreg | done].
  - destruct (has_key (conf item) "enigma2_data_type"); [exact Hreg |].
    destruct (_ || _); done.
Qed.

(** X4: [parse_item] keeps the registries sorted, at each call and so
    over any sequence of calls, whatever items the host hands over and
    also when a call raises: every item of the fast registry names this
    device and has a fast-refresh data type, and every item of the slow
    registry names this device and has a data type that is not a
    fast-refresh one. *)
Theorem X4_registries_stay_sorted (items : list Item) (st : State) :
  registries_sorted (_enigma2_device st) →
  (∀ item, registries_sorted (_enigma2_device (after (parse_item item) st)))
  ∧ registries_sorted (_enigma2_device (after (parse_items items) st)).
Proof.
  intros Hs. split; [intros item; by apply parse_item_sorted |].
  revert st Hs. induction items as [|item rest IH]; intros st Hs; [done |].
  simpl. rewrite after_bind.
  destruct (result (parse_item item) st); [apply IH |]; by apply parse_item_sorted.
Qed.

(** X5: [parse_item] hands back the dispatcher exactly for an item that
    names this device, has neither endpoint page nor data type, and has a
    remote command identifier or a service reference, and then registers
    nothing; an item that does not name this device is ignored
    altogether. *)
Theorem X5_parse_item_callback (item : Item) (st : State) :
  (result (parse_item item) st = Normal (Some ExecuteItem)
   ↔ conf item !! "device_id" = Some (_identifier (_enigma2_device st))
     ∧ conf item !! "enigma2_page" = None
     ∧ conf item !! "enigma2_data_type" = None
     ∧ (is_Some (conf item !! "enigma2_remote_command_id")
        ∨ is_Some (conf item !! "sref")))
  ∧ (result (parse_item item) st = Normal (Some ExecuteItem) →
     after (parse_item item) st = st)
  ∧ (conf item !! "device_id" ≠ Some (_identifier (_enigma2_device st)) →
     parse_item item st = (Normal None, st)).
Proof.
  assert (∀ b : option callback,
            result (register_by_data_type item;; mret (@None callback)) st ≠ Normal (Some ExecuteItem))
    as Hreg.
  { intros _. rewrite result_bind.
    destruct (result (register_by_data_type item) st); [| done].
    rewrite result_ret. discriminate. }
  specialize (Hreg None).
  unfold result, after in *. rewrite parse_item_run.
  split; [| split].
  - split.
    + case_bool_decide as Hid; [| done].
      destruct (conf item !! "enigma2_page") as [page|].
      { destruct (str_mem page _); [done | discriminate]. }
      destruct (has_key (conf item) "enigma2_data_type") eqn:Hdt; [done |].
      apply has_key_false in Hdt.
      destruct (_ || _) eqn:Hk; [| discriminate]. intros _.
      apply orb_true_iff in Hk. rewrite !has_key_true in Hk. done.
    + intros (Hid & Hpage & Hdt & Hk).
      rewrite bool_decide_true by done. rewrite Hpage.
      apply has_key_false in Hdt. rewrite Hdt.
      rewrite <- !has_key_true, <- orb_true_iff in Hk. by rewrite Hk.
  - case_bool_decide as Hid; [| done].
    destruct (conf item !! "enigma2_page") as [page|].
    { destruct (str_mem page _); [done | discriminate]. }
    destruct (has_key (conf item) "enigma2_data_type"); [done |].
    destruct (_ || _); done.
  - intros Hid. by rewrite bool_decide_false.
Qed.

Section Registration.
Context `{Runtime}.

(** X6: an item that names this device and has a data type outside the
    fast-refresh set but no endpoint page is put into the slow registry by
    [parse_item]; the slow cycle that follows on a running engine then raises
    [KeyError] for the page at that binding, having sent nothing. *)
Theorem X6_pageless_slow_binding (item : Item) (dt : string) (st : State) :
  alive st = true →
  get_items (_enigma2_device st) = [] →
  conf item !! "device_id" = Some (_identifier (_enigma2_device st)) →
  conf item !! "enigma2_page" = None →
  conf item !! "enigma2_data_type" = Some dt →
  dt ∉ _keys_fast_refresh →
  get_items (_enigma2_device (after (parse_item item) st)) = [item]
  ∧ result (parse_item item;; _update_loop) st = Raised (KeyError "enigma2_page")
  ∧ sent (after (parse_item item;; _update_loop) st) = sent st.
Proof.
  intros Ha Hitems Hid Hpage Hdt Hfast.
  assert (parse_item item st
          = (Normal None,
             set_enigma2_device (append_item item (_enigma2_device st)) st)) as Hrun.
  { rewrite parse_item_run, bool_decide_true by done. rewrite Hpage.
    assert (has_key (conf item) "enigma2_data_type" = true) as ->
      by (apply has_key_true; eauto).
    rewrite run_bind, register_by_data_type_run, Hdt.
    apply str_mem_false in Hfast. by rewrite Hfast. }
  split; [unfold after; rewrite Hrun; unfold get_items in *; simpl; by rewrite Hitems |].
  assert (result (parse_item item) st = Normal None) as Hres
    by (unfold result; by rewrite Hrun).
  assert (after (parse_item item) st
          = set_enigma2_device (append_item item (_enigma2_device st)) st) as Haft
    by (unfold after; by rewrite Hrun).
  rewrite result_bind, after_bind, Hres, Haft.
  unfold _update_loop. autorewrite with run. simpl.
  unfold get_items in *. rewrite Hitems. simpl.
  autorewrite with run. simpl. rewrite Ha. simpl. autorewrite with run.
  unfold result, after.
  rewrite update_without_page by eauto. done.
Qed.

End Registration.

(** *** Relations that no method of the plugin disturbs *)

Section Whole.
Context `{Runtime}.
Context (R : relation State) `{!PreOrder R}.
Hypothesis R_sent : ∀ r st, R st (add_sent r st).
Hypothesis R_cache : ∀ c st, R st (set_response_cache c st).
Hypothesis R_logged : ∀ r st, R st (add_logged r st).
Hypothesis R_value : ∀ p v st, R st (set_value p v st).
Hypothesis R_call : ∀ x st, R st (add_call x st).

Lemma whole_direct u : preserves R (session_get None u).
Proof. by apply tolerant_session_get. Qed.

Lemma whole_cached key u c : preserves R (_cached_get_request key u c).
Proof. by apply tolerant_cached_get_request. Qed.

Lemma whole_update item : preserves R (_update item true).
Proof. apply preserves_update; auto using whole_cached. Qed.

Lemma whole_loop_fast_item item c : preserves R (_update_loop_fast_item item c).
Proof. apply preserves_loop_fast_item; auto using whole_cached, whole_direct. Qed.

Lemma whole_event_items c : preserves R (_update_event_items c).
Proof. apply preserves_event_items; auto using whole_cached, whole_direct. Qed.

Lemma whole_remote_control_command id : preserves R (remote_control_command id).
Proof. apply preserves_remote_control_command; auto using whole_direct. Qed.

Lemma whole_zap sref title : preserves R (zap sref title).
Proof. apply preserves_zap; auto using whole_direct. Qed.

Lemma whole_update_loop_from items : preserves R (_update_loop_from items).
Proof.
  induction items as [|item rest IH]; simpl.
  - by apply preserves_modify.
  - apply preserves_bind; [done | apply preserves_get_state; done | intros st0].
    destruct (negb (alive st0)); [by apply preserves_ret |].
    apply preserves_bind; [done | apply whole_update | done].
Qed.

Lemma whole_update_loop_fast_from items c :
  preserves R (_update_loop_fast_from items c).
Proof.
  induction items as [|item rest IH]; simpl.
  - by apply preserves_modify.
  - apply preserves_bind; [done | apply preserves_get_state; done | intros st0].
    destruct (negb (alive st0)); [by apply preserves_ret |].
    apply preserves_bind; [done | apply whole_loop_fast_item | done].
Qed.

Lemma whole_run_cycle c : preserves R (run_cycle c).
Proof.
  destruct c as [|cache]; simpl.
  - unfold _update_loop.
    apply preserves_bind; [done | by apply preserves_modify | intros _].
    apply preserves_bind; [done | by apply preserves_get_state | intros st0].
    apply preserves_bind; [done | by apply preserves_modify | intros _].
    apply whole_update_loop_from.
  - unfold _update_loop_fast.
    apply preserves_bind; [done | by apply preserves_modify | intros _].
    apply preserves_bind; [done | by apply preserves_get_state | intros st0].
    apply preserves_bind; [done | by apply preserves_modify | intros _].
    apply whole_update_loop_fast_from.
Qed.

Lemma whole_resynchronize :
  preserves R (_update_event_items false;; _update_loop_fast false).
Proof.
  apply preserves_bind; [done | apply whole_event_items | intros _].
  apply (whole_run_cycle (Fast false)).
Qed.

Lemma whole_execute_item item caller : preserves R (execute_item item caller).
Proof.
  unfold execute_item.
  destruct (negb _); [| by apply preserves_ret].
  destruct (has_key (conf item) "enigma2_remote_command_id").
  - apply preserves_bind; [done | by apply preserves_subscript | intros id].
    apply preserves_bind; [done | apply whole_remote_control_command | intros _].
    destruct (str_mem id _); [apply whole_resynchronize |].
    destruct (str_mem id _); [apply (whole_run_cycle (Fast false)) |].
    by apply preserves_ret.
  - destruct (has_key (conf item) "sref"); [| by apply preserves_ret].
    apply preserves_bind; [done | by apply preserves_subscript | intros sref].
    apply preserves_bind; [done | apply whole_zap | intros _].
    apply whole_resynchronize.
Qed.

Lemma whole_send_message text kind timeout :
  preserves R (send_message text kind timeout).
Proof.
  unfold send_message.
  apply preserves_bind; [done | by apply preserves_subscript | intros suffix].
  apply preserves_bind; [done | by apply preserves_build_url | intros u].
  apply preserves_bind; [done | apply preserves_attempt, whole_direct |].
  intros [e|content]; [by apply preserves_modify |].
  apply preserves_bind; [done | by apply preserves_parse | intros xml].
  by apply preserves_log_acknowledgement.
Qed.
End Whole.

#[global] Instance same_cache_preorder : PreOrder same_cache.
Proof. split; [done |]. intros a b c E1 E2. unfold same_cache in *. congruence. Qed.

(** *** The dispatcher *)

Section Dispatcher.
Context `{Runtime}.

(** X7: no cycle, no dispatch and no message changes the device
    descriptor with its two registries, the [alive] flag or the device's
    behaviour: only [parse_item], [run] and [stop] do. *)
Theorem X7_setup_is_kept (c : cycle) (item : Item) (caller : option string)
    (text : string) (kind timeout : Z) (st : State) :
  same_setup st (after (run_cycle c) st)
  ∧ same_setup st (after (execute_item item caller) st)
  ∧ same_setup st (after (send_message text kind timeout) st).
Proof.
  split; [| split].
  - apply (whole_run_cycle same_setup); side.
  - apply (whole_execute_item same_setup); side.
  - apply (whole_send_message same_setup); side.
Qed.

Lemma acknowledgement_sent content a b st :
  sent (after (xml ← parse content; log_acknowledgement xml a b) st) = sent st.
Proof.
  change (same_sent st (after (xml ← parse content; log_acknowledgement xml a b) st)).
  apply preserves_bind; [side | apply preserves_parse; side | intros xml].
  apply preserves_log_acknowledgement; side.
Qed.

Lemma remote_control_command_sent id st :
  sent (after (remote_control_command id) st)
  = (sent st ++ [Request None (remotecontrol_url st id)
                   (network st (length (sent st)) (remotecontrol_url st id))])%list.
Proof.
  unfold remote_control_command, remotecontrol_url, after.
  rewrite run_bind. unfold subscript at 1.
  change (_url_suffix_map !! "remotecontrol") with (Some "/web/remotecontrol"). simpl.
  rewrite run_bind. simpl. rewrite run_bind. unfold attempt, session_get.
  destruct (network st (length (sent st)) _) as [content|]; simpl; [| done].
  match goal with |- sent (snd (?m ?s)) = _ => change (sent (after m s) = sent s) end.
  apply acknowledgement_sent.
Qed.

Lemma zap_sent sref st :
  sent (after (zap sref "") st)
  = (sent st ++ [Request None (zap_url st sref)
                   (network st (length (sent st)) (zap_url st sref))])%list.
Proof.
  unfold zap, zap_url, after.
  rewrite run_bind. unfold subscript at 1.
  change (_url_suffix_map !! "zap") with (Some "/web/zap"). simpl.
  rewrite run_bind. simpl. rewrite run_bind. unfold attempt, session_get.
  destruct (network st (length (sent st)) _) as [content|]; simpl; [| done].
  match goal with |- sent (snd (?m ?s)) = _ => change (sent (after m s) = sent s) end.
  apply acknowledgement_sent.
Qed.

(** What [execute_item] runs for an item with a service reference and no
    remote command, dispatched by a caller other than the engine. *)
Lemma dispatch_zap (item : Item) (caller : option string) (sref : string) :
  caller ≠ Some "Enigma2" →
  conf item !! "enigma2_remote_command_id" = None →
  conf item !! "sref" = Some sref →
  execute_item item caller
  = (zap sref "";; _update_event_items false;; _update_loop_fast false).
Proof.
  intros Hc Hid Hs. unfold execute_item.
  rewrite bool_decide_false by done. simpl.
  unfold has_key, subscript. rewrite Hid, Hs.
  rewrite (bool_decide_false (is_Some None)) by (by intros [? ?]).
  rewrite bool_decide_true by eauto. reflexivity.
Qed.

(** What [execute_item] does for the engine's own writes and for items
    that carry neither a command nor a service reference. *)
Lemma dispatch_nothing (item : Item) (caller : option string) (st : State) :
  caller = Some "Enigma2"
  ∨ (conf item !! "enigma2_remote_command_id" = None ∧ conf item !! "sref" = None) →
  execute_item item caller st = (Normal tt, st).
Proof.
  intros [-> | [Hid Hs]]; [reflexivity |].
  unfold execute_item, has_key. rewrite Hid, Hs.
  rewrite !(bool_decide_false (is_Some None)) by (by intros [? ?]).
  by destruct (negb _).
Qed.

Lemma sent_grows_resynchronize st :
  sent_grows st (after (_update_event_items false;; _update_loop_fast false) st).
Proof.
  apply whole_resynchronize; first [typeclasses eauto | intros; by apply sent_grows_idle
                                   | intros; by eexists].
Qed.

Lemma sent_grows_fast_cycle c st : sent_grows st (after (_update_loop_fast c) st).
Proof.
  change (sent_grows st (after (run_cycle (Fast c)) st)).
  apply whole_run_cycle;
    first [typeclasses eauto | intros; by apply sent_grows_idle | intros; by eexists].
Qed.

(** X8: [execute_item] sends nothing exactly when the write comes from the
    engine itself or the item carries neither a remote command identifier
    nor a service reference; in that case it changes nothing at all. *)
Theorem X8_dispatch_sends (item : Item) (caller : option string) (st : State) :
  (new_sent st (after (execute_item item caller) st) = []
   ↔ caller = Some "Enigma2"
     ∨ (conf item !! "enigma2_remote_command_id" = None ∧ conf item !! "sref" = None))
  ∧ (new_sent st (after (execute_item item caller) st) = [] →
     execute_item item caller st = (Normal tt, st)).
Proof.
  assert (new_sent st (after (execute_item item caller) st) = []
          → caller = Some "Enigma2"
            ∨ (conf item !! "enigma2_remote_command_id" = None
               ∧ conf item !! "sref" = None)) as Hforth.
  { intros Hnone.
    destruct (decide (caller = Some "Enigma2")) as [|Hc]; [by left | right].
    destruct (conf item !! "enigma2_remote_command_id") as [id|] eqn:Hid.
    - exfalso. rewrite (dispatch_remote_command item caller id) in Hnone by done.
      rewrite after_bind in Hnone.
      assert (sent_grows (after (remote_control_command id) st)
                (match result (remote_control_command id) st with
                 | Normal a =>
                     after (if str_mem id ["105"; "106"; "116"]
                            then _update_event_items false;; _update_loop_fast false
                            else if str_mem id ["114"; "115"]
                                 then _update_loop_fast false else mret tt)
                       (after (remote_control_command id) st)
                 | Raised _ => after (remote_control_command id) st
                 end)) as [more Hmore].
      { destruct (result _ st); [| reflexivity].
        destruct (str_mem id _); [apply sent_grows_resynchronize |].
        destruct (str_mem id _); [apply sent_grows_fast_cycle | reflexivity]. }
      rewrite remote_control_command_sent in Hmore.
      rewrite <- app_assoc in Hmore. apply new_sent_app in Hmore.
      rewrite Hmore in Hnone. discriminate.
    - split; [done |].
      destruct (conf item !! "sref") as [sref|] eqn:Hs; [exfalso | done].
      rewrite (dispatch_zap item caller sref) in Hnone by done.
      rewrite after_bind in Hnone.
      assert (sent_grows (after (zap sref "") st)
                (match result (zap sref "") st with
                 | Normal a =>
                     after (_update_event_items false;; _update_loop_fast false)
                       (after (zap sref "") st)
                 | Raised _ => after (zap sref "") st
                 end)) as [more Hmore].
      { destruct (result _ st); [apply sent_grows_resynchronize | reflexivity]. }
      rewrite zap_sent in Hmore.
      rewrite <- app_assoc in Hmore. apply new_sent_app in Hmore.
      rewrite Hmore in Hnone. discriminate. }
  split; [split; [exact Hforth |] |].
  - intros Hwhy. unfold after. rewrite dispatch_nothing by done. by apply new_sent_same.
  - intros Hnone. by apply dispatch_nothing, Hforth.
Qed.

End Dispatcher.

Section Resynchronization.
Context `{Runtime}.

Lemma calls_zap sref title : preserves same_calls (zap sref title).
Proof. apply preserves_zap; side || auto using calls_direct. Qed.

Lemma setup_zap sref title : preserves same_setup (zap sref title).
Proof. apply preserves_zap; side || auto using setup_direct. Qed.

(** The entries of the resynchronization that follows a standby command
    or a channel change. *)
Lemma resynchronize_calls st :
  result (_update_event_items false;; _update_loop_fast false) st = Normal tt →
  calls (after (_update_event_items false;; _update_loop_fast false) st)
  = (calls st ++ EventItems false :: FastCycle false
       :: repeat (EventItems false) (nested_event_resolutions st))%list.
Proof.
  intros Hr. apply bind_normal in Hr as (? & _ & Hr & ->).
  rewrite loop_fast_calls by done.
  rewrite (nested_same_setup st) by apply setup_event_items.
  rewrite event_items_calls. by rewrite <- app_assoc.
Qed.

(** X9: which resynchronization a remote command starts.  A dispatch by a
    caller other than the engine that returns normally enters the event
    resolver and then the forced fast cycle for the identifiers 105, 106 and
    116, the forced fast cycle alone for 114 and 115, and neither for any
    other identifier. *)
Theorem X9_command_resynchronization (item : Item) (caller : option string)
    (id : string) (st : State) :
  caller ≠ Some "Enigma2" →
  conf item !! "enigma2_remote_command_id" = Some id →
  result (execute_item item caller) st = Normal tt →
  new_calls st (after (execute_item item caller) st)
  = if str_mem id ["105"; "106"; "116"] then
      EventItems false :: FastCycle false
        :: repeat (EventItems false) (nested_event_resolutions st)
    else if str_mem id ["114"; "115"] then
      FastCycle false :: repeat (EventItems false) (nested_event_resolutions st)
    else [].
Proof.
  intros Hc Hid Hr.
  rewrite (dispatch_remote_command item caller id) in * by done.
  apply bind_normal in Hr as (? & _ & Hr & ->).
  pose proof (calls_remote_control_command id st) as Hcalls.
  pose proof (setup_remote_control_command id st) as Hsetup.
  unfold same_calls in Hcalls.
  apply new_calls_app. rewrite <- Hcalls, <- (nested_same_setup _ _ Hsetup).
  destruct (str_mem id ["105"; "106"; "116"]).
  { by apply resynchronize_calls. }
  destruct (str_mem id ["114"; "115"]).
  { by apply loop_fast_calls. }
  rewrite after_ret. symmetry. apply app_nil_r.
Qed.

(** X10: a channel change.  The dispatch of an item with a service
    reference and no remote command first sends the zap request for that
    reference with an empty title and, when it returns normally, has entered
    the event resolver and then the forced fast cycle. *)
Theorem X10_channel_change (item : Item) (caller : option string)
    (sref : string) (st : State) :
  caller ≠ Some "Enigma2" →
  conf item !! "enigma2_remote_command_id" = None →
  conf item !! "sref" = Some sref →
  (∃ more,
     new_sent st (after (execute_item item caller) st)
     = Request None (zap_url st sref)
         (network st (length (sent st)) (zap_url st sref)) :: more)
  ∧ (result (execute_item item caller) st = Normal tt →
     new_calls st (after (execute_item item caller) st)
     = EventItems false :: FastCycle false
         :: repeat (EventItems false) (nested_event_resolutions st)).
Proof.
  intros Hc Hid Hs. rewrite (dispatch_zap item caller sref) by done. split.
  - rewrite after_bind.
    assert (sent_grows (after (zap sref "") st)
              (match result (zap sref "") st with
               | Normal a =>
                   after (_update_event_items false;; _update_loop_fast false)
                     (after (zap sref "") st)
               | Raised _ => after (zap sref "") st
               end)) as [more Hmore].
    { destruct (result _ st); [apply sent_grows_resynchronize | reflexivity]. }
    rewrite zap_sent, <- app_assoc in Hmore. exists more. by apply new_sent_app.
  - intros Hr. apply bind_normal in Hr as (? & _ & Hr & ->).
    pose proof (calls_zap sref "" st) as Hcalls.
    pose proof (setup_zap sref "" st) as Hsetup.
    unfold same_calls in Hcalls.
    apply new_calls_app. rewrite <- Hcalls, <- (nested_same_setup _ _ Hsetup).
    by apply resynchronize_calls.
Qed.

Lemma remote_control_command_unparsable id body st :
  network st (length (sent st)) (remotecontrol_url st id) = Some body →
  parseString body = None →
  remote_control_command id st
  = (Raised ExpatError,
     add_sent (Request None (remotecontrol_url st id) (Some body)) st).
Proof.
  intros Hnet Hp. unfold remote_control_command, remotecontrol_url in *.
  rewrite run_bind. unfold subscript at 1.
  change (_url_suffix_map !! "remotecontrol") with (Some "/web/remotecontrol"). simpl.
  rewrite run_bind. simpl. rewrite run_bind. unfold attempt, session_get.
  rewrite Hnet. simpl. rewrite run_bind. unfold parse. by rewrite Hp.
Qed.

Lemma zap_unparsable sref body st :
  network st (length (sent st)) (zap_url st sref) = Some body →
  parseString body = None →
  zap sref "" st
  = (Raised ExpatError, add_sent (Request None (zap_url st sref) (Some body)) st).
Proof.
  intros Hnet Hp. unfold zap, zap_url in *.
  rewrite run_bind. unfold subscript at 1.
  change (_url_suffix_map !! "zap") with (Some "/web/zap"). simpl.
  rewrite run_bind. simpl. rewrite run_bind. unfold attempt, session_get.
  change ("&title=" +:+ "") with "&title=".
  rewrite Hnet. simpl. rewrite run_bind. unfold parse. by rewrite Hp.
Qed.

(** X11: the acknowledgement of a command or a channel change is parsed
    outside the [try]: when the device answers with a body that does not
    parse, the dispatch raises the parse error right after that one request,
    so no resynchronization follows and nothing else changes. *)
Theorem X11_unparsable_acknowledgement (item : Item) (caller : option string)
    (body : string) (st : State) :
  caller ≠ Some "Enigma2" →
  parseString body = None →
  (∀ id,
     conf item !! "enigma2_remote_command_id" = Some id →
     network st (length (sent st)) (remotecontrol_url st id) = Some body →
     execute_item item caller st
     = (Raised ExpatError,
        add_sent (Request None (remotecontrol_url st id) (Some body)) st))
  ∧ (∀ sref,
       conf item !! "enigma2_remote_command_id" = None →
       conf item !! "sref" = Some sref →
       network st (length (sent st)) (zap_url st sref) = Some body →
       execute_item item caller st
       = (Raised ExpatError,
          add_sent (Request None (zap_url st sref) (Some body)) st)).
Proof.
  intros Hc Hp. split.
  - intros id Hid Hnet. rewrite (dispatch_remote_command item caller id) by done.
    rewrite run_bind. by rewrite (remote_control_command_unparsable id body).
  - intros sref Hid Hs Hnet. rewrite (dispatch_zap item caller sref) by done.
    rewrite run_bind. by rewrite (zap_unparsable sref body).
Qed.

End Resynchronization.

(** *** The volume resolver *)

Section Volume.
Context `{Runtime}.

(** [_get_value_from_xml_node] changes nothing, and what it returns is the
    text of the element. *)
Lemma get_value_run n tag st :
  _get_value_from_xml_node n tag st
  = (match getElementsByTagName n tag with
     | x :: _ =>
         match firstChild x with
         | Some (Element _ _) => Raised AttributeError
         | _ => Normal (text_of n tag)
         end
     | [] => Normal None
     end, st).
Proof.
  unfold _get_value_from_xml_node, text_of.
  destruct (getElementsByTagName n tag) as [|x rest]; [reflexivity |].
  destruct (firstChild x) as [[t cs|d]|]; reflexivity.
Qed.

Lemma get_value_normal n tag st v :
  result (_get_value_from_xml_node n tag) st = Normal v → v = text_of n tag.
Proof.
  unfold result. rewrite get_value_run. simpl. unfold text_of.
  destruct (getElementsByTagName n tag) as [|x rest]; [congruence |].
  destruct (firstChild x) as [[t cs|d]|]; congruence.
Qed.

Lemma update_volume_sent item c st :
  sent (after (_update_volume item c) st)
  = (sent st ++ [Request None (getcurrent_url st)
                   (network st (length (sent st)) (getcurrent_url st))])%list.
Proof.
  unfold _update_volume, getcurrent_url, after.
  rewrite run_bind. unfold subscript at 1.
  change (_url_suffix_map !! "getcurrent") with (Some "/web/getcurrent"). simpl.
  rewrite run_bind. simpl. rewrite run_bind. simpl. rewrite run_bind.
  unfold attempt. rewrite run_bind. unfold session_get. simpl.
  destruct (network st (length (sent st)) _) as [body|]; simpl; [| done].
  unfold parse. destruct (parseString body) as [xml|]; simpl; [| done].
  rewrite run_bind, get_value_run. unfold text_of.
  destruct (getElementsByTagName xml "e2current") as [|x rest]; [done |].
  by destruct (firstChild x) as [[t cs|d]|].
Qed.

Lemma update_volume_cache item c : preserves same_cache (_update_volume item c).
Proof.
  apply preserves_volume; try side.
  intros u st. unfold after, session_get. by destruct (network _ _ _).
Qed.

(** X12: the volume resolver does not use the Response Cache: whatever
    the flag and whatever the cache holds, it sends exactly one request to
    the get-current endpoint and leaves the cache as it was. *)
Theorem X12_volume_is_never_cached (item : Item) (c : bool) (st : State) :
  new_sent st (after (_update_volume item c) st)
  = [Request None (getcurrent_url st)
       (network st (length (sent st)) (getcurrent_url st))]
  ∧ _response_cache (after (_update_volume item c) st) = _response_cache st.
Proof.
  split; [apply new_sent_app, update_volume_sent | apply update_volume_cache].
Qed.

(** [_update_volume] after an answer that parses. *)
Lemma update_volume_run item c body xml st :
  network st (length (sent st)) (getcurrent_url st) = Some body →
  parseString body = Some xml →
  ∃ st1, values st1 = values st
    ∧ _update_volume item c st
      = (volume ← _get_value_from_xml_node xml "e2current";
         match volume with
         | Some v => logger DEBUG ("Volume " +:+ v) None;; item_call item (VStr v)
         | None => raise TypeError
         end) st1.
Proof.
  intros Hnet Hp. eexists. split; [| unfold _update_volume, getcurrent_url in *].
  2: { rewrite run_bind. unfold subscript at 1.
       change (_url_suffix_map !! "getcurrent") with (Some "/web/getcurrent"). simpl.
       rewrite run_bind. simpl. rewrite run_bind. simpl. rewrite run_bind.
       unfold attempt. rewrite run_bind. unfold session_get. simpl.
       rewrite Hnet. simpl. unfold parse. rewrite Hp. simpl. reflexivity. }
  reflexivity.
Qed.

(** [_update_volume] after a failed request or an answer that does not
    parse. *)
Lemma update_volume_failed item c st :
  network st (length (sent st)) (getcurrent_url st) = None
  ∨ (∃ body, network st (length (sent st)) (getcurrent_url st) = Some body
             ∧ parseString body = None) →
  ∃ st1, values st1 = values st ∧ _update_volume item c st = (Normal tt, st1).
Proof.
  intros Hfail. unfold getcurrent_url in *.
  destruct Hfail as [Hnet | (body & Hnet & Hp)]; eexists.
  all: split; [| unfold _update_volume].
  all: try (rewrite run_bind; unfold subscript at 1;
            change (_url_suffix_map !! "getcurrent") with (Some "/web/getcurrent");
            simpl; rewrite run_bind; simpl; rewrite run_bind; simpl; rewrite run_bind;
            unfold attempt; rewrite run_bind; unfold session_get; simpl;
            rewrite Hnet; simpl; unfold parse; rewrite ?Hp; reflexivity).
  all: reflexivity.
Qed.

(** X13: what the volume resolver writes.  When the answer holds an
    [e2current] element with text, that text is written as it is, as a
    string; when the element is missing or empty, the resolver raises
    [TypeError] and writes nothing; when the request fails or the answer does
    not parse, it returns normally and writes nothing. *)
Theorem X13_volume_outcomes (item : Item) (c : bool) (st : State) :
  (∀ body xml v,
     network st (length (sent st)) (getcurrent_url st) = Some body →
     parseString body = Some xml →
     text_of xml "e2current" = Some v →
     result (_update_volume item c) st = Normal tt
     ∧ values (after (_update_volume item c) st) = <[path item := VStr v]> (values st))
  ∧ (∀ body xml,
       network st (length (sent st)) (getcurrent_url st) = Some body →
       parseString body = Some xml →
       getElementsByTagName xml "e2current" = []
       ∨ (∃ x rest, getElementsByTagName xml "e2current" = x :: rest
                    ∧ firstChild x = None) →
       result (_update_volume item c) st = Raised TypeError
       ∧ values (after (_update_volume item c) st) = values st)
  ∧ (network st (length (sent st)) (getcurrent_url st) = None
     ∨ (∃ body, network st (length (sent st)) (getcurrent_url st) = Some body
                ∧ parseString body = None) →
     result (_update_volume item c) st = Normal tt
     ∧ values (after (_update_volume item c) st) = values st).
Proof.
  split; [| split].
  - intros body xml v Hnet Hp Hv.
    destruct (update_volume_run item c body xml st Hnet Hp) as (st1 & Hvals & Hrun).
    unfold result, after. rewrite Hrun, run_bind, get_value_run.
    unfold text_of in *.
    destruct (getElementsByTagName xml "e2current") as [|x rest]; [done |].
    destruct (firstChild x) as [[t cs|d]|]; try done.
    injection Hv as ->. simpl. by rewrite Hvals.
  - intros body xml Hnet Hp Hnone.
    destruct (update_volume_run item c body xml st Hnet Hp) as (st1 & Hvals & Hrun).
    unfold result, after. rewrite Hrun, run_bind, get_value_run.
    unfold text_of.
    destruct Hnone as [-> | (x & rest & -> & ->)]; simpl; by rewrite Hvals.
  - intros Hfail.
    destruct (update_volume_failed item c st Hfail) as (st1 & Hvals & Hrun).
    unfold result, after. by rewrite Hrun.
Qed.

End Volume.

(** *** Messages *)

Section MessageProperties.
Context `{Runtime}.

Lemma send_message_sent text kind timeout st :
  sent (after (send_message text kind timeout) st)
  = (sent st ++ [Request None (message_url st text kind timeout)
                   (network st (length (sent st))
                      (message_url st text kind timeout))])%list.
Proof.
  unfold send_message, message_url, after.
  rewrite run_bind. unfold subscript at 1.
  change (_url_suffix_map !! "message") with (Some "/web/message"). simpl.
  rewrite run_bind. simpl. rewrite run_bind. unfold attempt, session_get.
  destruct (network st (length (sent st)) _) as [content|]; simpl; [| done].
  match goal with |- sent (snd (?m ?s)) = _ => change (sent (after m s) = sent s) end.
  apply acknowledgement_sent.
Qed.

Lemma send_message_unanswered text kind timeout st :
  network st (length (sent st)) (message_url st text kind timeout) = None →
  send_message text kind timeout st
  = (Normal tt,
     add_logged (Log ERROR "Exception when sending GET request: " (Some RequestException))
       (add_sent (Request None (message_url st text kind timeout) None) st)).
Proof.
  intros Hnet. unfold send_message.
  rewrite run_bind. unfold subscript at 1.
  change (_url_suffix_map !! "message") with (Some "/web/message"). simpl.
  rewrite run_bind. simpl. rewrite run_bind. unfold attempt, session_get.
  unfold message_url in Hnet. by rewrite Hnet.
Qed.

Lemma send_message_unparsable text kind timeout body st :
  network st (length (sent st)) (message_url st text kind timeout) = Some body →
  parseString body = None →
  send_message text kind timeout st
  = (Raised ExpatError,
     add_sent (Request None (message_url st text kind timeout) (Some body)) st).
Proof.
  intros Hnet Hp. unfold send_message.
  rewrite run_bind. unfold subscript at 1.
  change (_url_suffix_map !! "message") with (Some "/web/message"). simpl.
  rewrite run_bind. simpl. rewrite run_bind. unfold attempt, session_get.
  unfold message_url in Hnet. rewrite Hnet. simpl.
  rewrite run_bind. unfold parse. by rewrite Hp.
Qed.

(** X14: [send_message] sends exactly one request, to the message
    endpoint with the text, the type and the timeout printed into the query,
    and touches neither the cache nor any item; a failed request is logged,
    by one record of level error that carries the exception, and the method
    returns normally, but an answer that does not parse makes it raise the
    parse error, with nothing logged. *)
Theorem X14_send_message (text : string) (kind timeout : Z) (st : State) :
  new_sent st (after (send_message text kind timeout) st)
  = [Request None (message_url st text kind timeout)
       (network st (length (sent st)) (message_url st text kind timeout))]
  ∧ values (after (send_message text kind timeout) st) = values st
  ∧ _response_cache (after (send_message text kind timeout) st) = _response_cache st
  ∧ (network st (length (sent st)) (message_url st text kind timeout) = None →
     result (send_message text kind timeout) st = Normal tt
     ∧ new_logged st (after (send_message text kind timeout) st)
       = [Log ERROR "Exception when sending GET request: " (Some RequestException)])
  ∧ (∀ body,
       network st (length (sent st)) (message_url st text kind timeout) = Some body →
       parseString body = None →
       result (send_message text kind timeout) st = Raised ExpatError
       ∧ new_logged st (after (send_message text kind timeout) st) = []).
Proof.
  split; [apply new_sent_app, send_message_sent |].
  split; [apply (whole_send_message same_values); side |].
  split; [apply (whole_send_message same_cache); side |].
  split.
  - intros Hnet. unfold result, after. rewrite send_message_unanswered by done.
    split; [done |]. by apply new_logged_app.
  - intros body Hnet Hp. unfold result, after.
    rewrite (send_message_unparsable text kind timeout body) by done.
    split; [done |]. apply new_logged_app. simpl. by rewrite app_nil_r.
Qed.

Lemma get_answer_failed st :
  network st (length (sent st)) (answer_url st) = None
  ∨ (∃ body, network st (length (sent st)) (answer_url st) = Some body
             ∧ parseString body = None) →
  result get_answer st = Normal None.
Proof.
  intros Hfail. unfold get_answer, answer_url, result in *.
  rewrite run_bind. unfold subscript at 1.
  change (_url_suffix_map !! "message") with (Some "/web/message"). simpl.
  rewrite run_bind. simpl. rewrite run_bind.
  unfold attempt. rewrite run_bind. unfold session_get.
  destruct Hfail as [-> | (body & -> & Hp)]; simpl; [done |].
  unfold parse. by rewrite Hp.
Qed.

Lemma get_answer_answered body xml st :
  network st (length (sent st)) (answer_url st) = Some body →
  parseString body = Some xml →
  result get_answer st
  = match getElementsByTagName xml "e2statetext", getElementsByTagName xml "e2state" with
    | t :: _, f :: _ =>
        match firstChild t, firstChild f with
        | Some (Text text), Some (Text flag) =>
            Normal (if bool_decide (flag = "True") then Some text else None)
        | Some (Element _ _), Some _ => Raised AttributeError
        | Some (Text _), Some (Element _ _) => Raised AttributeError
        | _, _ => Normal None
        end
    | _, _ => Normal None
    end.
Proof.
  intros Hnet Hp. unfold get_answer, answer_url, result in *.
  rewrite run_bind. unfold subscript at 1.
  change (_url_suffix_map !! "message") with (Some "/web/message"). simpl.
  rewrite run_bind. simpl. rewrite run_bind.
  unfold attempt. rewrite run_bind. unfold session_get.
  rewrite Hnet. simpl. unfold parse. rewrite Hp. simpl.
  destruct (getElementsByTagName xml "e2statetext") as [|t ?]; [done |].
  destruct (getElementsByTagName xml "e2state") as [|f ?]; [done |].
  destruct (firstChild t) as [[? ?|text]|]; [destruct (firstChild f); done | | done].
  destruct (firstChild f) as [[? ?|flag]|]; [done | | done].
  rewrite run_bind. simpl. rewrite run_bind. simpl. rewrite run_bind. simpl.
  by destruct (bool_decide (flag = "True")).
Qed.

(** X15: [get_answer] returns an answer exactly when the device's answer
    holds a state text and the state ['True'], and then returns that text;
    after a failed request or an answer that does not parse it returns
    nothing, without raising. *)
Theorem X15_get_answer (st : State) :
  (network st (length (sent st)) (answer_url st) = None
   ∨ (∃ body, network st (length (sent st)) (answer_url st) = Some body
              ∧ parseString body = None) →
   result get_answer st = Normal None)
  ∧ (∀ body xml answer,
       network st (length (sent st)) (answer_url st) = Some body →
       parseString body = Some xml →
       (result get_answer st = Normal (Some answer)
        ↔ text_of xml "e2statetext" = Some answer
          ∧ text_of xml "e2state" = Some "True")).
Proof.
  split; [apply get_answer_failed |].
  intros body xml answer Hnet Hp.
  rewrite (get_answer_answered body xml) by done. unfold text_of.
  destruct (getElementsByTagName xml "e2statetext") as [|t ?];
    [split; [done | by intros [? ?]] |].
  destruct (getElementsByTagName xml "e2state") as [|f ?];
    [split; [done | by intros [? ?]] |].
  destruct (firstChild t) as [[? ?|text]|];
    [destruct (firstChild f); split; (done || by intros [? ?]) | |
      split; [done | by intros [? ?]]].
  destruct (firstChild f) as [[? ?|flag]|];
    [split; [done | by intros [? ?]] | | split; [done | by intros [? ?]]].
  case_bool_decide as Hflag.
  - subst flag. split; [intros [= ->]; done | intros [[= ->] _]; done].
  - split; [done | intros [_ [= ?]]; done].
Qed.

End MessageProperties.

(** *** The event record and the bindings that read it *)

Section EventRecord.
Context `{Runtime}.

Lemma epgservice_from_response_run content st :
  _epgservice_from_response content st
  = match parseString content with
    | None =>
        (Normal None,
         add_logged (Log ERROR "Exception when parsing response: " (Some ExpatError)) st)
    | Some xml =>
        match getElementsByTagName xml "e2event" with
        | [] => (Normal (Some ∅), st)
        | ev :: _ =>
            (e2eventdescription ← _get_value_from_xml_node ev "e2eventdescription";
             e2eventdescriptionextended ←
               _get_value_from_xml_node ev "e2eventdescriptionextended";
             e2eventtitle ← _get_value_from_xml_node ev "e2eventtitle";
             mret (Some (<["e2eventtitle" := or_dash e2eventtitle]>
                        (<["e2eventdescriptionextended" := or_dash e2eventdescriptionextended]>
                        (<["e2eventdescription" := or_dash e2eventdescription]> ∅))))) st
        end
    end.
Proof.
  unfold _epgservice_from_response. rewrite run_bind. unfold attempt, parse.
  destruct (parseString content) as [xml|]; [| reflexivity]. simpl.
  by destruct (getElementsByTagName xml "e2event").
Qed.

Lemma epgservice_run sref st :
  get_current_epgservice_for_service_reference sref st
  = match network st (length (sent st)) (epgservice_url st sref) with
    | None =>
        (Normal None,
         add_logged (Log ERROR "Exception when sending GET request: "
                       (Some RequestException))
           (add_sent (Request None (epgservice_url st sref) None) st))
    | Some content =>
        _epgservice_from_response content
          (add_sent (Request None (epgservice_url st sref) (Some content)) st)
    end.
Proof.
  unfold get_current_epgservice_for_service_reference, epgservice_url.
  rewrite run_bind. unfold subscript at 1.
  change (_url_suffix_map !! "epgservice") with (Some "/web/epgservice"). simpl.
  rewrite run_bind. simpl. rewrite run_bind. unfold attempt, session_get.
  by destruct (network st (length (sent st)) _).
Qed.

(** X16: the event record.  [get_current_epgservice_for_service_reference]
    returns no record after a failed request or an answer that does not
    parse, the empty record when the answer holds no [e2event] element, and
    otherwise, when it returns, a record whose three fields are the texts of
    the first event's title, description and extended description, each
    replaced by ["-"] when the element is missing or empty. *)
Theorem X16_event_record (sref : string) (st : State) :
  (network st (length (sent st)) (epgservice_url st sref) = None
   ∨ (∃ body, network st (length (sent st)) (epgservice_url st sref) = Some body
              ∧ parseString body = None) →
   result (get_current_epgservice_for_service_reference sref) st = Normal None)
  ∧ (∀ body xml,
       network st (length (sent st)) (epgservice_url st sref) = Some body →
       parseString body = Some xml →
       (getElementsByTagName xml "e2event" = [] →
        result (get_current_epgservice_for_service_reference sref) st
        = Normal (Some ∅))
       ∧ (∀ ev rest record,
            getElementsByTagName xml "e2event" = ev :: rest →
            result (get_current_epgservice_for_service_reference sref) st
            = Normal record →
            ∃ d, record = Some d
                 ∧ d !! "e2eventtitle" = Some (or_dash (text_of ev "e2eventtitle"))
                 ∧ d !! "e2eventdescription"
                   = Some (or_dash (text_of ev "e2eventdescription"))
                 ∧ d !! "e2eventdescriptionextended"
                   = Some (or_dash (text_of ev "e2eventdescriptionextended")))).
Proof.
  split.
  - intros Hfail. unfold result. rewrite epgservice_run.
    destruct Hfail as [-> | (body & -> & Hp)]; [done |].
    by rewrite epgservice_from_response_run, Hp.
  - intros body xml Hnet Hp. unfold result.
    rewrite epgservice_run, Hnet, epgservice_from_response_run, Hp. split.
    + by intros ->.
    + intros ev rest record -> Hr.
      match type of Hr with fst (?m ?s) = _ => change (result m s = Normal record) in Hr end.
      apply bind_normal in Hr as (x1 & H1 & Hr & _).
      apply bind_normal in Hr as (x2 & H2 & Hr & _).
      apply bind_normal in Hr as (x3 & H3 & Hr & _).
      apply get_value_normal in H1, H2, H3. subst x1 x2 x3.
      rewrite result_ret in Hr. injection Hr as <-.
      eexists. split; [reflexivity |].
      split; [apply lookup_insert_eq |].
      split.
      * rewrite lookup_insert_ne by done. rewrite lookup_insert_ne by done.
        apply lookup_insert_eq.
      * rewrite lookup_insert_ne by done. apply lookup_insert_eq.
Qed.

(** [_update_current_event] once the service reference has been read. *)
Lemma current_event_run item cache dt xml el rest sref st :
  conf item !! "enigma2_data_type" = Some dt →
  subservices_document cache st = Some xml →
  getElementsByTagName xml "e2servicereference" = el :: rest →
  firstChild el = Some (Text sref) →
  _update_current_event item cache st
  = (_current_epgservice sref ≫= _update_current_event_item item xml)
      (page_requested "subservices" cache st).
Proof.
  intros Hdt Hdoc He Hc.
  apply subservices_document_inv in Hdoc as (body & Hb & Hp).
  rewrite update_current_event_run
    by (unfold has_key; rewrite Hdt; apply bool_decide_eq_true; eauto).
  by apply current_event_from_cache_run with body el rest.
Qed.

(** The write of an event binding from a record, or from none. *)
Lemma current_event_item_run item xml dt record st :
  conf item !! "enigma2_data_type" = Some dt →
  dt ∈ _key_event_information →
  _update_current_event_item item xml record st
  = match record with
    | None => (Raised TypeError, st)
    | Some d =>
        match d !! event_field dt with
        | Some v => (Normal tt, set_value (path item) (VStr v) st)
        | None => (Raised (KeyError (event_field dt)), st)
        end
    end.
Proof.
  intros Hdt Hin. unfold _update_current_event_item, subscript at 1. rewrite Hdt.
  rewrite run_bind. simpl.
  apply list_elem_of_In in Hin. simpl in Hin.
  destruct Hin as [<-|[<-|[<-|[]]]].
  all: change (bool_decide (_ = "e2servicename")) with false; cbv iota;
    rewrite run_bind; simpl.
  all: destruct record as [d|]; [| reflexivity].
  all: unfold event_field, epg_subscript, subscript; simpl.
  - destruct (d !! "e2eventtitle"); reflexivity.
  - destruct (d !! "e2eventdescription"); reflexivity.
  - destruct (d !! "e2eventdescriptionextended"); reflexivity.
Qed.

Lemma current_epgservice_values sref : preserves same_values (_current_epgservice sref).
Proof.
  apply preserves_current_epgservice; try side.
  intros u st. unfold after, session_get. by destruct (network _ _ _).
Qed.

(** X17: an event binding without an event record.  For a service
    reference other than the sentinel and the reserved one, the resolution
    of a title, description or extended-description binding raises
    [TypeError] when the EPG request fails or its answer does not parse, and
    [KeyError] for the field when the answer holds no [e2event] element; in
    each case no item is written. *)
Theorem X17_event_binding_without_record (item : Item) (cache : bool) (st : State)
    (dt sref : string) (xml el : node) (rest : list node) :
  conf item !! "enigma2_data_type" = Some dt →
  dt ∈ _key_event_information →
  subservices_document cache st = Some xml →
  getElementsByTagName xml "e2servicereference" = el :: rest →
  firstChild el = Some (Text sref) →
  sref ≠ "N/A" → str_in "1:0:0:0:0:0:0:0:0:0" sref = false →
  (epg_reply cache sref st = None
   ∨ (∃ body, epg_reply cache sref st = Some body ∧ parseString body = None) →
   result (_update_current_event item cache) st = Raised TypeError
   ∧ values (after (_update_current_event item cache) st) = values st)
  ∧ (∀ body epg,
       epg_reply cache sref st = Some body →
       parseString body = Some epg →
       getElementsByTagName epg "e2event" = [] →
       result (_update_current_event item cache) st = Raised (KeyError (event_field dt))
       ∧ values (after (_update_current_event item cache) st) = values st).
Proof.
  intros Hdt Hin Hdoc He Hc Hna Hpat. unfold epg_reply, result, after.
  rewrite (current_event_run item cache dt xml el rest sref) by done.
  set (st1 := page_requested "subservices" cache st).
  assert (epgservice_url st1 sref = epgservice_url st sref) as Hurl.
  { unfold epgservice_url, st1.
    by destruct (page_requested_setup "subservices" cache st) as (_ & -> & _). }
  assert (values st1 = values st) as Hvals by apply page_requested_values.
  assert (_current_epgservice sref st1
          = get_current_epgservice_for_service_reference sref st1) as Hcur.
  { unfold _current_epgservice. rewrite Hpat, bool_decide_false by done. done. }
  rewrite run_bind, Hcur, epgservice_run, Hurl.
  split.
  - intros [Hnet | (body & Hnet & Hp)]; rewrite Hnet.
    + rewrite (current_event_item_run item xml dt) by done. done.
    + rewrite epgservice_from_response_run, Hp.
      rewrite (current_event_item_run item xml dt) by done. done.
  - intros body epg Hnet Hp Hnone.
    rewrite Hnet, epgservice_from_response_run, Hp, Hnone.
    rewrite (current_event_item_run item xml dt) by done.
    rewrite lookup_empty. done.
Qed.

(** The write of a service-name binding. *)
Lemma current_event_item_name item xml record st :
  conf item !! "enigma2_data_type" = Some "e2servicename" →
  _update_current_event_item item xml record st
  = match getElementsByTagName xml "e2servicename" with
    | x :: _ =>
        match firstChild x with
        | Some (Element _ _) => (Raised AttributeError, st)
        | _ =>
            (Normal tt,
             set_value (path item)
               (VStr (service_name_text (text_of xml "e2servicename"))) st)
        end
    | [] =>
        (Normal tt,
         set_value (path item)
           (VStr (service_name_text (text_of xml "e2servicename"))) st)
    end.
Proof.
  intros Hdt. unfold _update_current_event_item, subscript at 1. rewrite Hdt.
  rewrite run_bind. simpl.
  change (bool_decide ("e2servicename" = "e2servicename")) with true.
  change (bool_decide ("e2servicename" = "current_eventtitle")) with false.
  change (bool_decide ("e2servicename" = "current_eventdescription")) with false.
  change (bool_decide ("e2servicename" = "current_eventdescriptionextended"))
    with false.
  cbv iota. rewrite run_bind, run_bind, get_value_run. unfold text_of.
  destruct (getElementsByTagName xml "e2servicename") as [|x ?]; [reflexivity |].
  destruct (firstChild x) as [[? ?|d]|]; reflexivity.
Qed.

(** X18: the service name.  A binding of the data type [e2servicename]
    that the event resolver resolves normally is written the text of the
    [e2servicename] element of the subservices response, or ["-"] when that
    element is missing, empty or ["N/A"]; the event record plays no part. *)
Theorem X18_service_name (item : Item) (cache : bool) (st : State)
    (sref : string) (xml el : node) (rest : list node) :
  conf item !! "enigma2_data_type" = Some "e2servicename" →
  subservices_document cache st = Some xml →
  getElementsByTagName xml "e2servicereference" = el :: rest →
  firstChild el = Some (Text sref) →
  result (_update_current_event item cache) st = Normal tt →
  values (after (_update_current_event item cache) st)
  = <[path item := VStr (service_name_text (text_of xml "e2servicename"))]> (values st).
Proof.
  intros Hdt Hdoc He Hc Hr.
  pose proof (current_event_run item cache "e2servicename" xml el rest sref st
                Hdt Hdoc He Hc) as Hrun.
  unfold result in Hr. unfold after at 1. rewrite Hrun in *.
  set (st1 := page_requested "subservices" cache st) in *.
  match type of Hr with fst (?m ?s) = _ => change (result m s = Normal tt) in Hr end.
  apply bind_normal in Hr as (record & _ & Hr & Haft).
  match goal with |- values (snd (?m ?s)) = ?r => change (values (after m s) = r) end.
  rewrite Haft.
  assert (values (after (_current_epgservice sref) st1) = values st) as Hvals.
  { rewrite (current_epgservice_values sref st1). apply page_requested_values. }
  set (st2 := after (_current_epgservice sref) st1) in *.
  unfold result in Hr. unfold after at 1.
  rewrite (current_event_item_name item xml record) in * by done.
  destruct (getElementsByTagName xml "e2servicename") as [|x ?];
    [simpl; by rewrite Hvals |].
  destruct (firstChild x) as [[? ?|d]|]; [done | |]; simpl; by rewrite Hvals.
Qed.

End EventRecord.

(** *** Which items a cycle writes *)

#[global] Instance writes_within_preorder (S : string → Prop) : PreOrder (writes_within S).
Proof.
  split; [done |].
  intros a b c Hab Hbc p Hp. rewrite (Hbc p Hp). by apply Hab.
Qed.

Lemma writes_within_idle (S : string → Prop) (st st' : State) :
  values st' = values st → writes_within S st st'.
Proof. intros E p _. by rewrite E. Qed.

(** Closes the side conditions of the preservation lemmas for
    [writes_within]. *)
Ltac frame_side :=
  first [ typeclasses eauto
        | intros; by apply writes_within_idle
        | intros ? ?; unfold after, session_get;
          destruct (network _ _ _); by apply writes_within_idle ].

(** [pres] for a relation whose preorder is an instance. *)
Ltac frame_pres :=
  repeat first
    [ solve [eauto with pres typeclass_instances]
    | match goal with
      | |- preserves _ (attempt _) => apply preserves_attempt
      | |- preserves _ (if ?b then _ else _) => destruct b
      | |- preserves _ (match ?x with _ => _ end) => destruct x
      end
    | apply preserves_bind; [typeclasses eauto | | intros ?] ].

Section Frame.
Context `{Runtime}.
Variable S : string → Prop.

Lemma frame_direct key u : preserves (writes_within S) (session_get key u).
Proof. apply tolerant_session_get; frame_side. Qed.

Lemma frame_cached key u c : preserves (writes_within S) (_cached_get_request key u c).
Proof. apply tolerant_cached_get_request; frame_side. Qed.

Lemma frame_logger lvl msg e : preserves (writes_within S) (logger lvl msg e).
Proof. apply preserves_modify. frame_side. Qed.

Lemma frame_parse body : preserves (writes_within S) (parse body).
Proof. unfold parse. frame_pres. Qed.

Lemma frame_int s : preserves (writes_within S) (int s).
Proof. unfold int. frame_pres. Qed.

Lemma frame_float s : preserves (writes_within S) (float s).
Proof. unfold float. frame_pres. Qed.

Lemma frame_get_value n tag : preserves (writes_within S) (_get_value_from_xml_node n tag).
Proof. unfold _get_value_from_xml_node. frame_pres. Qed.

Lemma frame_epg_subscript d k : preserves (writes_within S) (epg_subscript d k).
Proof. unfold epg_subscript. frame_pres. Qed.

Lemma frame_current_epgservice sref :
  preserves (writes_within S) (_current_epgservice sref).
Proof. apply preserves_current_epgservice; frame_side. Qed.

Hint Resolve frame_direct frame_cached frame_logger frame_parse frame_int
  frame_float frame_get_value frame_epg_subscript frame_current_epgservice : pres.

Section OneItem.
Variable item : Item.
Hypothesis item_within : S (path item).

Lemma frame_item_call v : preserves (writes_within S) (item_call item v).
Proof.
  apply preserves_modify. intros st p Hp. simpl.
  apply lookup_insert_ne. by intros <-.
Qed.

Hint Resolve frame_item_call : pres.

Lemma frame_update_write xml : preserves (writes_within S) (_update_write item xml).
Proof. unfold _update_write. frame_pres. Qed.

Hint Resolve frame_update_write : pres.

Lemma frame_update c : preserves (writes_within S) (_update item c).
Proof. unfold _update, _update_from_cache. frame_pres. Qed.

Lemma frame_current_event c : preserves (writes_within S) (_update_current_event item c).
Proof.
  unfold _update_current_event, _update_current_event_from_cache,
    _update_current_event_write, _update_current_event_item.
  frame_pres.
Qed.

Lemma frame_volume c : preserves (writes_within S) (_update_volume item c).
Proof. unfold _update_volume. frame_pres. Qed.
End OneItem.

Lemma frame_event_items_from items c :
  Forall (λ item, S (path item)) items →
  preserves (writes_within S) (_update_event_items_from items c).
Proof.
  induction 1 as [|item rest Hitem Hrest IH]; simpl; [apply preserves_ret; frame_side |].
  apply preserves_bind; [frame_side | apply preserves_subscript; frame_side | intros dt].
  apply preserves_bind; [frame_side | | done].
  destruct (str_mem dt _); [by apply frame_current_event | apply preserves_ret; frame_side].
Qed.

Lemma frame_event_items c st :
  Forall (λ item, S (path item)) (get_fast_items (_enigma2_device st)) →
  writes_within S st (after (_update_event_items c) st).
Proof.
  intros Hall. unfold _update_event_items. autorewrite with run. simpl.
  etransitivity; [| by apply frame_event_items_from].
  by apply writes_within_idle.
Qed.

Lemma frame_loop_fast_item item c st :
  S (path item) →
  Forall (λ item, S (path item)) (get_fast_items (_enigma2_device st)) →
  writes_within S st (after (_update_loop_fast_item item c) st).
Proof.
  intros Hitem Hall. unfold _update_loop_fast_item.
  destruct (has_key (conf item) "enigma2_page"); [by apply frame_update |].
  unfold subscript. destruct (conf item !! "enigma2_data_type") as [dt|]; [| done].
  autorewrite with run.
  destruct (str_mem dt _); [by apply frame_event_items |].
  destruct (bool_decide _); [by apply frame_volume | done].
Qed.

Lemma frame_update_loop_from items :
  Forall (λ item, S (path item)) items →
  preserves (writes_within S) (_update_loop_from items).
Proof.
  induction 1 as [|item rest Hitem Hrest IH]; simpl.
  - apply preserves_modify. frame_side.
  - apply preserves_bind; [frame_side | apply preserves_get_state; frame_side |].
    intros st0. destruct (negb (alive st0)); [apply preserves_ret; frame_side |].
    apply preserves_bind; [frame_side | by apply frame_update | done].
Qed.

Lemma frame_update_loop_fast_from items c st :
  Forall (λ item, S (path item)) items →
  Forall (λ item, S (path item)) (get_fast_items (_enigma2_device st)) →
  writes_within S st (after (_update_loop_fast_from items c) st).
Proof.
  intros Hitems. revert st.
  induction Hitems as [|item rest Hitem Hrest IH]; intros st Hall; simpl.
  - by apply writes_within_idle.
  - autorewrite with run. destruct (alive st); simpl; [| done].
    autorewrite with run.
    pose proof (frame_loop_fast_item item c st Hitem Hall) as Hstep.
    destruct (result (_update_loop_fast_item item c) st); [| done].
    etransitivity; [exact Hstep |]. apply IH.
    by destruct (setup_loop_fast_item item c st) as (_ & -> & _).
Qed.
End Frame.

Lemma registry_within (items : list Item) :
  Forall (λ item, paths_of items (path item)) items.
Proof.
  apply Forall_forall. intros item Hin. unfold paths_of.
  apply list_elem_of_fmap. eauto.
Qed.

Section CycleFrame.
Context `{Runtime}.

(** X19: a cycle writes only to the items of its own registry: the value
    slot of every other item is after the cycle what it was before, however
    the cycle ends. *)
Theorem X19_cycle_writes_its_registry (c : cycle) (st : State) :
  writes_within (paths_of (registry c st)) st (after (run_cycle c) st).
Proof.
  destruct c as [|cache]; simpl.
  - unfold _update_loop. autorewrite with run. simpl.
    etransitivity; [| apply frame_update_loop_from, registry_within].
    by apply writes_within_idle.
  - unfold _update_loop_fast. autorewrite with run. simpl.
    etransitivity; [| apply frame_update_loop_fast_from; apply registry_within].
    by apply writes_within_idle.
Qed.

(** X20: a cycle on a stopped engine returns normally without sending a
    request and without writing an item. *)
Theorem X20_stopped_cycle_is_inert (c : cycle) (st : State) :
  alive st = false →
  result (run_cycle c) st = Normal tt
  ∧ sent (after (run_cycle c) st) = sent st
  ∧ values (after (run_cycle c) st) = values st.
Proof.
  intros Ha. destruct c as [|cache]; simpl.
  - unfold _update_loop. autorewrite with run. simpl.
    destruct (get_items (_enigma2_device st)) as [|item rest]; [done |].
    unfold result, after. by rewrite update_loop_from_stopped.
  - unfold _update_loop_fast. autorewrite with run. simpl.
    destruct (get_fast_items (_enigma2_device st)) as [|item rest]; [done |].
    unfold result, after. by rewrite update_loop_fast_from_stopped.
Qed.

End CycleFrame.

(** *** The audio tracks *)

Section AudioTrackProperties.
Context `{Runtime}.

Lemma data_of_run c st :
  data_of c st
  = (match c with Some (Text d) => Normal d | _ => Raised AttributeError end, st).
Proof. by destruct c as [[? ?|d]|]. Qed.

Lemma int_run s st :
  int s st = (match py_int s with Some z => Normal z | None => Raised ValueError end, st).
Proof. unfold int. by destruct (py_int s). Qed.

(** One optional field of an entry: the dictionary gains the key exactly
    when the entry has the element. *)
Lemma audio_field_run entry tag (f : string → outcome value)
    (r : gmap string value) (m : M (gmap string value)) st :
  (∀ x rest,
     getElementsByTagName entry tag = x :: rest →
     m st = (match firstChild x with
             | Some (Text d) =>
                 match f d with
                 | Normal v => Normal (<[tag := v]> r)
                 | Raised e => Raised e
                 end
             | _ => Raised AttributeError
             end, st)) →
  (getElementsByTagName entry tag = [] → m st = (Normal r, st)) →
  r !! tag = None →
  ∀ r', result m st = Normal r' →
        after m st = st
        ∧ r' !! tag = (text_of entry tag ≫= λ d,
                         match f d with Normal v => Some v | Raised _ => None end)
        ∧ ∀ k, k ≠ tag → r' !! k = r !! k.
Proof.
  intros Hcons Hnil Hfresh r' Hr. unfold result, after, text_of in *.
  destruct (getElementsByTagName entry tag) as [|x rest].
  - rewrite Hnil in * by done. simpl in *. injection Hr as <-. done.
  - rewrite (Hcons x rest) in * by done. simpl in *.
    destruct (firstChild x) as [[? ?|d]|]; [done | | done]. simpl.
    destruct (f d) as [v|e]; [| done]. injection Hr as <-.
    split; [done |]. split; [apply lookup_insert_eq |].
    intros k Hk. by apply lookup_insert_ne.
Qed.

(** X21: the keys of an entry that [get_audio_tracks] builds.  An entry
    that is read without an exception has the description, the identifier,
    the physical identifier and the active flag exactly for those of the four
    elements that the track has: the description as text, the two
    identifiers as the integers that [int] reads, and the flag by
    containment in ['True']. *)
Theorem X21_audio_track_entry (entry : node) (st : State) (track : gmap string value) :
  result (audio_track_entry entry) st = Normal track →
  track !! "e2audiotrackdescription" = VStr <$> text_of entry "e2audiotrackdescription"
  ∧ track !! "e2audiotrackid" = VInt <$> (text_of entry "e2audiotrackid" ≫= py_int)
  ∧ track !! "e2audiotrackpid" = VInt <$> (text_of entry "e2audiotrackpid" ≫= py_int)
  ∧ track !! "e2audiotrackactive"
    = (λ s, VBool (str_in s "True")) <$> text_of entry "e2audiotrackactive".
Proof.
  intros Hr. unfold audio_track_entry in Hr. cbv zeta in Hr.
  apply bind_normal in Hr as (r1 & H1 & Hr & _).
  apply (audio_field_run entry "e2audiotrackdescription" (λ d, Normal (VStr d)) ∅)
    in H1 as (_ & Hd1 & Ho1).
  2: { intros x rest ->. rewrite run_bind, data_of_run.
       by destruct (firstChild x) as [[? ?|d]|]. }
  2: { by intros ->. }
  2: { done. }
  apply bind_normal in Hr as (r2 & H2 & Hr & _).
  apply (audio_field_run entry "e2audiotrackid"
           (λ d, match py_int d with Some z => Normal (VInt z) | None => Raised ValueError end)
           r1)
    in H2 as (_ & Hd2 & Ho2).
  2: { intros x rest ->. rewrite run_bind, data_of_run.
       destruct (firstChild x) as [[? ?|d]|]; try done.
       simpl. rewrite run_bind, int_run. by destruct (py_int d). }
  2: { by intros ->. }
  2: { by rewrite Ho1. }
  apply bind_normal in Hr as (r3 & H3 & Hr & _).
  apply (audio_field_run entry "e2audiotrackpid"
           (λ d, match py_int d with Some z => Normal (VInt z) | None => Raised ValueError end)
           r2)
    in H3 as (_ & Hd3 & Ho3).
  2: { intros x rest ->. rewrite run_bind, data_of_run.
       destruct (firstChild x) as [[? ?|d]|]; try done.
       simpl. rewrite run_bind, int_run. by destruct (py_int d). }
  2: { by intros ->. }
  2: { by rewrite Ho2, Ho1. }
  apply (audio_field_run entry "e2audiotrackactive"
           (λ d, Normal (VBool (str_in d "True"))) r3)
    in Hr as (_ & Hd4 & Ho4).
  2: { intros x rest ->. rewrite run_bind, data_of_run.
       destruct (firstChild x) as [[? ?|d]|]; try done.
       simpl. by destruct (str_in d "True"). }
  2: { by intros ->. }
  2: { by rewrite Ho3, Ho2, Ho1. }
  repeat split.
  - rewrite Ho4, Ho3, Ho2, Hd1 by done.
    by destruct (text_of entry "e2audiotrackdescription").
  - rewrite Ho4, Ho3, Hd2 by done.
    destruct (text_of entry "e2audiotrackid") as [d|]; [| done]. simpl.
    by destruct (py_int d).
  - rewrite Ho4, Hd3 by done.
    destruct (text_of entry "e2audiotrackpid") as [d|]; [| done]. simpl.
    by destruct (py_int d).
  - rewrite Hd4. by destruct (text_of entry "e2audiotrackactive").
Qed.

End AudioTrackProperties.

#[global] Instance unchanged_preorder : PreOrder unchanged.
Proof. split; [done |]. intros a b c E1 E2. unfold unchanged in *. congruence. Qed.

Section AudioTrackList.
Context `{Runtime}.

Lemma audio_track_entry_unchanged entry : preserves unchanged (audio_track_entry entry).
Proof. unfold audio_track_entry, int. cbv zeta. frame_pres. Qed.

Lemma audio_track_entries_unchanged entries :
  preserves unchanged (audio_track_entries entries).
Proof.
  induction entries as [|entry rest IH]; simpl; [frame_pres |].
  apply preserves_bind; [side | apply audio_track_entry_unchanged | intros track].
  apply preserves_bind; [side | exact IH | intros tracks]. frame_pres.
Qed.

Lemma audio_track_entries_length entries st tracks :
  result (audio_track_entries entries) st = Normal tracks →
  length tracks = length entries.
Proof.
  intros Hr. apply audio_track_entries_active in Hr.
  symmetry. by eapply Forall2_length.
Qed.

(** X22: the enumeration of the audio tracks.  [get_audio_tracks] sends
    exactly one request and changes neither the cache nor any item.  It
    returns nothing after a failed request or an answer that does not parse;
    for an answer that parses it never returns nothing: it returns the empty
    list when the answer holds no track, and whenever it returns a list, the
    list has one entry for each [e2audiotrack] element. *)
Theorem X22_audio_track_list (st : State) :
  new_sent st (after get_audio_tracks st)
  = [Request None (getaudiotracks_url st)
       (network st (length (sent st)) (getaudiotracks_url st))]
  ∧ values (after get_audio_tracks st) = values st
  ∧ _response_cache (after get_audio_tracks st) = _response_cache st
  ∧ (network st (length (sent st)) (getaudiotracks_url st) = None
     ∨ (∃ body, network st (length (sent st)) (getaudiotracks_url st) = Some body
                ∧ parseString body = None) →
     result get_audio_tracks st = Normal None)
  ∧ (∀ body xml,
       network st (length (sent st)) (getaudiotracks_url st) = Some body →
       parseString body = Some xml →
       result get_audio_tracks st ≠ Normal None
       ∧ (getElementsByTagName xml "e2audiotrack" = [] →
          result get_audio_tracks st = Normal (Some []))
       ∧ (∀ tracks,
            result get_audio_tracks st = Normal (Some tracks) →
            length tracks = length (getElementsByTagName xml "e2audiotrack"))).
Proof.
  assert (∀ body xml,
            network st (length (sent st)) (getaudiotracks_url st) = Some body →
            parseString body = Some xml →
            get_audio_tracks st
            = (match result (audio_track_entries (getElementsByTagName xml "e2audiotrack"))
                       (add_sent (Request None (getaudiotracks_url st) (Some body)) st)
               with
               | Normal tracks => Normal (Some tracks)
               | Raised e => Raised e
               end,
               add_sent (Request None (getaudiotracks_url st) (Some body)) st))
    as Hanswered.
  { intros body xml Hnet Hp. rewrite (get_audio_tracks_run st body xml) by done.
    fold (getaudiotracks_url st). rewrite run_bind.
    set (st1 := add_sent _ st).
    pose proof (audio_track_entries_unchanged
                  (getElementsByTagName xml "e2audiotrack") st1) as Hsame.
    unfold unchanged, after, result in *.
    destruct (audio_track_entries _ st1) as [[tracks|e] st2]; simpl in *; by subst st2. }
  assert (network st (length (sent st)) (getaudiotracks_url st) = None
          ∨ (∃ body, network st (length (sent st)) (getaudiotracks_url st) = Some body
                     ∧ parseString body = None) →
          ∃ st1, get_audio_tracks st = (Normal None, st1)
                 ∧ values st1 = values st
                 ∧ _response_cache st1 = _response_cache st
                 ∧ sent st1
                   = (sent st ++ [Request None (getaudiotracks_url st)
                                    (network st (length (sent st))
                                       (getaudiotracks_url st))])%list)
    as Hfailed.
  { unfold getaudiotracks_url.
    intros [Hnet | (body & Hnet & Hp)]; eexists.
    all: split; [unfold get_audio_tracks |].
    all: try (rewrite run_bind; unfold subscript at 1;
              change (_url_suffix_map !! "getaudiotracks")
                with (Some "/web/getaudiotracks");
              simpl; rewrite run_bind; simpl; rewrite run_bind;
              unfold attempt; rewrite run_bind; unfold session_get;
              rewrite Hnet; simpl; unfold parse; rewrite ?Hp; reflexivity).
    all: rewrite Hnet; done. }
  destruct (network st (length (sent st)) (getaudiotracks_url st)) as [body|] eqn:Hnet.
  - destruct (parseString body) as [xml|] eqn:Hp.
    + specialize (Hanswered body xml eq_refl Hp).
      set (st1 := add_sent (Request None (getaudiotracks_url st) (Some body)) st) in *.
      assert (after get_audio_tracks st = st1) as ->
        by (unfold after; by rewrite Hanswered).
      assert (result get_audio_tracks st
              = match result (audio_track_entries
                                (getElementsByTagName xml "e2audiotrack")) st1 with
                | Normal tracks => Normal (Some tracks)
                | Raised e => Raised e
                end) as ->
        by (unfold result at 1; by rewrite Hanswered).
      split; [by apply new_sent_app |]. split; [done |]. split; [done |].
      split; [intros [? | (body' & [= <-] & Hp')]; congruence |].
      intros body' xml' [= <-] Hp'. rewrite Hp in Hp'. injection Hp' as <-.
      split; [by destruct (result _ st1) | split].
      * intros ->. done.
      * intros tracks Hr.
        destruct (result (audio_track_entries _) st1) as [tracks'|e] eqn:Hres; [| done].
        injection Hr as ->. by eapply audio_track_entries_length.
    + destruct Hfailed as (st1 & Hrun & Hv & Hc & Hs); [right; eauto |].
      unfold result, after. rewrite Hrun. simpl.
      split; [by apply new_sent_app |]. split; [done |]. split; [done |].
      split; [done |]. intros body' xml' [= <-] Hp'. congruence.
  - destruct Hfailed as (st1 & Hrun & Hv & Hc & Hs); [by left |].
    unfold result, after. rewrite Hrun. simpl.
    split; [by apply new_sent_app |]. split; [done |]. split; [done |].
    split; [done |]. intros body' xml' Hnet'. congruence.
Qed.

End AudioTrackList.

(** *** The routes of the fast cycle *)

Section FastRoutes.
Context `{Runtime}.

Lemma update_of_cached_page_sent item page st :
  conf item !! "enigma2_page" = Some page →
  cached page st →
  sent (after (_update item true) st) = sent st.
Proof.
  intros Hpage Hcached.
  destruct (conf item !! "enigma2_data_type") as [dt|] eqn:Hdt.
  - destruct (_url_suffix_map !! page) as [suffix|] eqn:Hs.
    + unfold after at 1. rewrite (update_run item true dt page suffix) by done.
      fold (after (_update_from_cache item page) (page_requested page true st)).
      rewrite update_from_cache_sent. unfold page_requested, after.
      rewrite Hs, cached_get_request_run.
      unfold has_key. rewrite bool_decide_true by done. done.
    + unfold after. by rewrite (update_unknown_page item true page) by eauto.
  - unfold after. by rewrite update_without_data_type.
Qed.

(** X23: the forced fast cycle does not bypass the cache for page
    bindings: a binding with an endpoint page is resolved by [_update] with
    the default flag whatever the flag of the cycle, so that it sends no
    request when its page is in the cache. *)
Theorem X23_page_bindings_ignore_the_flag (item : Item) (page : string) (c : bool)
    (st : State) :
  conf item !! "enigma2_page" = Some page →
  _update_loop_fast_item item c st = _update item true st
  ∧ (cached page st → sent (after (_update_loop_fast_item item c) st) = sent st).
Proof.
  intros Hpage.
  assert (_update_loop_fast_item item c st = _update item true st) as Hrun.
  { unfold _update_loop_fast_item, has_key. rewrite Hpage.
    by rewrite bool_decide_true by eauto. }
  split; [exact Hrun |]. intros Hcached. unfold after. rewrite Hrun.
  by apply update_of_cached_page_sent with page.
Qed.

Lemma passed_over_item item c st :
  passed_over item → _update_loop_fast_item item c st = (Normal tt, st).
Proof.
  intros (Hpage & dt & Hdt & Hevent & Hvolume).
  unfold _update_loop_fast_item, has_key, subscript. rewrite Hpage, Hdt.
  rewrite bool_decide_false by (by intros [? ?]).
  rewrite run_bind. simpl.
  apply str_mem_false in Hevent. rewrite Hevent.
  by rewrite bool_decide_false.
Qed.

Lemma passed_over_loop items c st :
  Forall passed_over items →
  result (_update_loop_fast_from items c) st = Normal tt
  ∧ sent (after (_update_loop_fast_from items c) st) = sent st
  ∧ values (after (_update_loop_fast_from items c) st) = values st.
Proof.
  induction 1 as [|item rest Hitem Hrest IH]; [done |].
  unfold result, after in *. simpl. rewrite run_bind. simpl.
  destruct (alive st); simpl; [| done].
  rewrite run_bind, passed_over_item by done. exact IH.
Qed.

(** X24: bindings that no route takes.  A fast cycle over a registry whose
    bindings all lack an endpoint page and have a data type that is neither
    an event information nor the volume (the service name, the video
    size, ...) returns normally without sending a request and without writing
    an item. *)
Theorem X24_bindings_passed_over (c : bool) (st : State) :
  Forall passed_over (get_fast_items (_enigma2_device st)) →
  result (_update_loop_fast c) st = Normal tt
  ∧ sent (after (_update_loop_fast c) st) = sent st
  ∧ values (after (_update_loop_fast c) st) = values st.
Proof.
  intros Hall. unfold _update_loop_fast. autorewrite with run. simpl.
  destruct (passed_over_loop (get_fast_items (_enigma2_device st)) c
              (add_logged
                 (Log DEBUG ("Starting update loop for identifier "
                               +:+ _identifier (_enigma2_device st)) None)
                 (add_call (FastCycle c) st)) Hall) as (Hr & Hs & Hv).
  by rewrite Hr, Hs, Hv.
Qed.

End FastRoutes.

(** ** Runs of the further properties

    Each property above that has a precondition, at the sample
    installation. *)
Section FurtherRuns.
#[local] Existing Instance Cases.runtime.

Ltac decided := apply (bool_decide_unpack _); vm_compute; exact I.

Lemma X1_boolean_coercion_witness :
  (result (_update Cases.standby_item true) Cases.house = Normal tt
   ∧ values (after (_update Cases.standby_item true) Cases.house)
     = <[path Cases.standby_item := VInt 1]> (values Cases.house))
  ∧ (result (_update Cases.mac_flag_item true) Cases.house = Normal tt
     ∧ values (after (_update Cases.mac_flag_item true) Cases.house)
       = values Cases.house).
Proof.
  split.
  - apply (proj1 (X1_boolean_coercion Cases.standby_item true Cases.house
                    (Element "e2instandby" [Text "true"]) []
                    ltac:(reflexivity) ltac:(vm_compute; reflexivity)) "true");
      reflexivity.
  - apply (proj2 (X1_boolean_coercion Cases.mac_flag_item true Cases.house
                    (Element "e2lanmac" []) []
                    ltac:(reflexivity) ltac:(vm_compute; reflexivity)));
      reflexivity.
Defined.

Lemma X2_unparsable_response_witness :
  result (_update Sample.model_item false) Cases.garbled = Normal tt
  ∧ values (after (_update Sample.model_item false) Cases.garbled) = values Cases.garbled
  ∧ _response_cache (after (_update Sample.model_item false) Cases.garbled) !! "about"
    = Some "<garbage>"
  ∧ ∃ earlier,
      new_logged Cases.garbled (after (_update Sample.model_item false) Cases.garbled)
      = (earlier ++ [Log ERROR "Exception when parsing response: "
                       (Some ExpatError)])%list.
Proof.
  apply (X2_unparsable_response Sample.model_item false Cases.garbled
           "e2model" "about" "/web/about" "<garbage>");
    vm_compute; reflexivity.
Defined.

Lemma X3_update_missing_keys_witness :
  (result (_update Cases.untyped_item true) Cases.house = Normal tt
   ∧ only_logs Cases.house (after (_update Cases.untyped_item true) Cases.house)
   ∧ new_logged Cases.house (after (_update Cases.untyped_item true) Cases.house)
     = [Log ERROR "No enigma2_data_type set in item!" None])
  ∧ _update Cases.uptime_item true Cases.house
    = (Raised (KeyError "enigma2_page"), Cases.house)
  ∧ _update Cases.unknown_page_item true Cases.house
    = (Raised (KeyError "bogus"), Cases.house).
Proof.
  split; [|split].
  - apply (proj1 (X3_update_missing_keys Cases.untyped_item true Cases.house));
      vm_compute; reflexivity.
  - apply (proj1 (proj2 (X3_update_missing_keys Cases.uptime_item true Cases.house)));
      [by eexists | vm_compute; reflexivity].
  - apply (proj2 (proj2 (X3_update_missing_keys Cases.unknown_page_item true Cases.house))
             "bogus");
      [by eexists | vm_compute; reflexivity | vm_compute; reflexivity].
Defined.

Lemma X4_registries_stay_sorted_witness :
  registries_sorted
    (_enigma2_device (after (parse_item Cases.untyped_item) (Cases.empty_house Cases.home)))
  ∧ registries_sorted
      (_enigma2_device (after (parse_items Cases.host_items)
                          (Cases.empty_house Cases.home))).
Proof.
  split.
  - apply (proj1 (X4_registries_stay_sorted Cases.host_items
                    (Cases.empty_house Cases.home) ltac:(split; constructor))).
  - apply (proj2 (X4_registries_stay_sorted Cases.host_items
                    (Cases.empty_house Cases.home) ltac:(split; constructor))).
Defined.

Lemma X5_parse_item_callback_witness :
  result (parse_item Sample.power_item) Cases.house = Normal (Some ExecuteItem)
  ∧ after (parse_item Sample.power_item) Cases.house = Cases.house
  ∧ parse_item Cases.foreign_item Cases.house = (Normal None, Cases.house).
Proof.
  split; [|split].
  - apply (proj2 (proj1 (X5_parse_item_callback Sample.power_item Cases.house))).
    repeat split; [vm_compute; reflexivity ..|].
    left. by eexists.
  - apply (proj1 (proj2 (X5_parse_item_callback Sample.power_item Cases.house))).
    vm_compute; reflexivity.
  - apply (proj2 (proj2 (X5_parse_item_callback Cases.foreign_item Cases.house))).
    vm_compute; discriminate.
Defined.

Lemma X6_pageless_slow_binding_witness :
  get_items (_enigma2_device (after (parse_item Cases.uptime_item)
                                (Cases.empty_house Cases.home)))
  = [Cases.uptime_item]
  ∧ result (parse_item Cases.uptime_item;; _update_loop) (Cases.empty_house Cases.home)
    = Raised (KeyError "enigma2_page")
  ∧ sent (after (parse_item Cases.uptime_item;; _update_loop) (Cases.empty_house Cases.home))
    = [].
Proof.
  apply (X6_pageless_slow_binding Cases.uptime_item "e2uptime"
           (Cases.empty_house Cases.home));
    [vm_compute; reflexivity .. | decided].
Defined.

Lemma X8_dispatch_sends_witness :
  new_sent Cases.house (after (execute_item Sample.model_item None) Cases.house) = []
  ∧ execute_item Sample.power_item (Some "Enigma2") Cases.house = (Normal tt, Cases.house).
Proof.
  split.
  - apply (proj2 (proj1 (X8_dispatch_sends Sample.model_item None Cases.house))).
    right. split; vm_compute; reflexivity.
  - apply (proj2 (X8_dispatch_sends Sample.power_item (Some "Enigma2") Cases.house)).
    vm_compute; reflexivity.
Defined.

Lemma X9_command_resynchronization_witness :
  new_calls Sample.living_room (after (execute_item Sample.power_item None) Sample.living_room)
  = [EventItems false; FastCycle false; EventItems false]
  ∧ new_calls Sample.living_room
      (after (execute_item Sample.volume_up_item None) Sample.living_room)
    = [FastCycle false; EventItems false]
  ∧ new_calls Cases.house (after (execute_item Cases.menu_item None) Cases.house) = [].
Proof.
  split; [|split].
  - refine (eq_trans (X9_command_resynchronization Sample.power_item None "105"
                        Sample.living_room _ _ _) _);
      [discriminate | vm_compute; reflexivity ..].
  - refine (eq_trans (X9_command_resynchronization Sample.volume_up_item None "114"
                        Sample.living_room _ _ _) _);
      [discriminate | vm_compute; reflexivity ..].
  - refine (eq_trans (X9_command_resynchronization Cases.menu_item None "139"
                        Cases.house _ _ _) _);
      [discriminate | vm_compute; reflexivity ..].
Defined.

Lemma X10_channel_change_witness :
  (∃ more,
     new_sent Cases.house (after (execute_item Cases.zap_item None) Cases.house)
     = Request None Cases.first_zap_url (Some "<ack>") :: more)
  ∧ new_calls Cases.house (after (execute_item Cases.zap_item None) Cases.house)
    = EventItems false :: FastCycle false
        :: repeat (EventItems false) (nested_event_resolutions Cases.house).
Proof.
  split.
  - apply (proj1 (X10_channel_change Cases.zap_item None
                    "1:0:19:283D:41B:1:FFFF0000:0:0:0:" Cases.house
                    ltac:(discriminate) ltac:(vm_compute; reflexivity)
                    ltac:(vm_compute; reflexivity))).
  - apply (proj2 (X10_channel_change Cases.zap_item None
                    "1:0:19:283D:41B:1:FFFF0000:0:0:0:" Cases.house
                    ltac:(discriminate) ltac:(vm_compute; reflexivity)
                    ltac:(vm_compute; reflexivity))).
    vm_compute; reflexivity.
Defined.

Lemma X11_unparsable_acknowledgement_witness :
  execute_item Sample.power_item None Cases.garbled
  = (Raised ExpatError,
     add_sent (Request None (Sample.command_url "105") (Some "<garbage>")) Cases.garbled)
  ∧ execute_item Cases.zap_item None Cases.garbled
    = (Raised ExpatError,
       add_sent (Request None Cases.first_zap_url (Some "<garbage>")) Cases.garbled).
Proof.
  split.
  - apply (proj1 (X11_unparsable_acknowledgement Sample.power_item None "<garbage>"
                    Cases.garbled ltac:(discriminate) ltac:(vm_compute; reflexivity))
             "105");
      vm_compute; reflexivity.
  - apply (proj2 (X11_unparsable_acknowledgement Cases.zap_item None "<garbage>"
                    Cases.garbled ltac:(discriminate) ltac:(vm_compute; reflexivity))
             "1:0:19:283D:41B:1:FFFF0000:0:0:0:");
      vm_compute; reflexivity.
Defined.

Lemma X13_volume_outcomes_witness :
  (result (_update_volume Sample.volume_item false) Cases.house = Normal tt
   ∧ values (after (_update_volume Sample.volume_item false) Cases.house)
     = <[path Sample.volume_item := VStr "35"]> (values Cases.house))
  ∧ (result (_update_volume Sample.volume_item false) Cases.without_volume = Raised TypeError
     ∧ values (after (_update_volume Sample.volume_item false) Cases.without_volume)
       = values Cases.without_volume)
  ∧ (result (_update_volume Sample.volume_item false) Cases.offline = Normal tt
     ∧ values (after (_update_volume Sample.volume_item false) Cases.offline)
       = values Cases.offline).
Proof.
  split; [|split].
  - apply (proj1 (X13_volume_outcomes Sample.volume_item false Cases.house)
             "<volume>" Sample.volume_xml "35");
      vm_compute; reflexivity.
  - apply (proj1 (proj2 (X13_volume_outcomes Sample.volume_item false Cases.without_volume))
             "<about>" Sample.about_xml);
      [vm_compute; reflexivity .. | left; vm_compute; reflexivity].
  - apply (proj2 (proj2 (X13_volume_outcomes Sample.volume_item false Cases.offline))).
    left. vm_compute; reflexivity.
Defined.

Lemma X14_send_message_witness :
  (result (send_message "Hello" 1 10) Cases.offline = Normal tt
   ∧ new_logged Cases.offline (after (send_message "Hello" 1 10) Cases.offline)
     = [Log ERROR "Exception when sending GET request: " (Some RequestException)])
  ∧ (result (send_message "Hello" 1 10) Cases.garbled = Raised ExpatError
     ∧ new_logged Cases.garbled (after (send_message "Hello" 1 10) Cases.garbled) = []).
Proof.
  split.
  - apply (proj1 (proj2 (proj2 (proj2
             (X14_send_message "Hello" 1 10 Cases.offline))))).
    vm_compute; reflexivity.
  - apply (proj2 (proj2 (proj2 (proj2
             (X14_send_message "Hello" 1 10 Cases.garbled)))) "<garbage>");
      vm_compute; reflexivity.
Defined.

Lemma X15_get_answer_witness :
  result get_answer Cases.offline = Normal None
  ∧ result get_answer Cases.garbled = Normal None
  ∧ result get_answer Cases.house = Normal (Some "Answer is NO!").
Proof.
  split; [|split].
  - apply (proj1 (X15_get_answer Cases.offline)).
    left. vm_compute; reflexivity.
  - apply (proj1 (X15_get_answer Cases.garbled)).
    right. exists "<garbage>". split; vm_compute; reflexivity.
  - apply (proj2 (proj2 (X15_get_answer Cases.house) "<answer>" Cases.answer_xml
                    "Answer is NO!" ltac:(vm_compute; reflexivity)
                    ltac:(vm_compute; reflexivity))).
    split; vm_compute; reflexivity.
Defined.

Lemma X16_event_record_witness :
  result (get_current_epgservice_for_service_reference "1:0:19:283D:41B:1:FFFF0000:0:0:0:")
    Cases.offline = Normal None
  ∧ result (get_current_epgservice_for_service_reference
              "1:0:19:283D:41B:1:FFFF0000:0:0:0:")
      Cases.without_events = Normal (Some ∅)
  ∧ ∃ d, Cases.event_record = Some d
         ∧ d !! "e2eventtitle" = Some "Tagesschau"
         ∧ d !! "e2eventdescription" = Some "Nachrichten"
         ∧ d !! "e2eventdescriptionextended" = Some "-".
Proof.
  split; [|split].
  - apply (proj1 (X16_event_record "1:0:19:283D:41B:1:FFFF0000:0:0:0:" Cases.offline)).
    left. vm_compute; reflexivity.
  - apply (proj1 (proj2 (X16_event_record "1:0:19:283D:41B:1:FFFF0000:0:0:0:"
                           Cases.without_events)
                    "<epg empty>" Cases.epg_empty_xml
                    ltac:(vm_compute; reflexivity) ltac:(vm_compute; reflexivity))).
    vm_compute; reflexivity.
  - apply (proj2 (proj2 (X16_event_record "1:0:19:283D:41B:1:FFFF0000:0:0:0:" Cases.house)
                    "<epg>" Sample.epg_xml
                    ltac:(vm_compute; reflexivity) ltac:(vm_compute; reflexivity))
             (Element "e2event"
                [Element "e2eventtitle" [Text "Tagesschau"];
                 Element "e2eventdescription" [Text "Nachrichten"];
                 Element "e2eventdescriptionextended" []]) [] Cases.event_record);
      vm_compute; reflexivity.
Defined.

Lemma X17_event_binding_without_record_witness :
  (result (_update_current_event Sample.title_item false) Sample.epg_unreachable
   = Raised TypeError
   ∧ values (after (_update_current_event Sample.title_item false) Sample.epg_unreachable)
     = values Sample.epg_unreachable)
  ∧ (result (_update_current_event Sample.title_item false) Cases.without_events
     = Raised (KeyError "e2eventtitle")
     ∧ values (after (_update_current_event Sample.title_item false) Cases.without_events)
       = values Cases.without_events).
Proof.
  split.
  - apply (proj1 (X17_event_binding_without_record Sample.title_item false
                    Sample.epg_unreachable "current_eventtitle"
                    "1:0:19:283D:41B:1:FFFF0000:0:0:0:"
                    (Sample.subservices_xml "1:0:19:283D:41B:1:FFFF0000:0:0:0:")
                    (Element "e2servicereference"
                       [Text "1:0:19:283D:41B:1:FFFF0000:0:0:0:"]) []
                    ltac:(vm_compute; reflexivity) ltac:(decided)
                    ltac:(vm_compute; reflexivity) ltac:(vm_compute; reflexivity)
                    ltac:(reflexivity) ltac:(discriminate)
                    ltac:(vm_compute; reflexivity))).
    left. vm_compute; reflexivity.
  - apply (proj2 (X17_event_binding_without_record Sample.title_item false
                    Cases.without_events "current_eventtitle"
                    "1:0:19:283D:41B:1:FFFF0000:0:0:0:"
                    (Sample.subservices_xml "1:0:19:283D:41B:1:FFFF0000:0:0:0:")
                    (Element "e2servicereference"
                       [Text "1:0:19:283D:41B:1:FFFF0000:0:0:0:"]) []
                    ltac:(vm_compute; reflexivity) ltac:(decided)
                    ltac:(vm_compute; reflexivity) ltac:(vm_compute; reflexivity)
                    ltac:(reflexivity) ltac:(discriminate)
                    ltac:(vm_compute; reflexivity))
             "<epg empty>" Cases.epg_empty_xml);
      vm_compute; reflexivity.
Defined.

Lemma X18_service_name_witness :
  values (after (_update_current_event Sample.name_item false) Cases.house)
  = <[path Sample.name_item := VStr "Das Erste HD"]> (values Cases.house).
Proof.
  apply (X18_service_name Sample.name_item false Cases.house
           "1:0:19:283D:41B:1:FFFF0000:0:0:0:"
           (Sample.subservices_xml "1:0:19:283D:41B:1:FFFF0000:0:0:0:")
           (Element "e2servicereference" [Text "1:0:19:283D:41B:1:FFFF0000:0:0:0:"]) []);
    vm_compute; reflexivity.
Defined.

Lemma X20_stopped_cycle_is_inert_witness :
  (result (run_cycle Slow) Cases.stopped_house = Normal tt
   ∧ sent (after (run_cycle Slow) Cases.stopped_house) = sent Cases.stopped_house
   ∧ values (after (run_cycle Slow) Cases.stopped_house) = values Cases.stopped_house)
  ∧ (result (run_cycle (Fast false)) Cases.stopped_house = Normal tt
     ∧ sent (after (run_cycle (Fast false)) Cases.stopped_house) = sent Cases.stopped_house
     ∧ values (after (run_cycle (Fast false)) Cases.stopped_house)
       = values Cases.stopped_house).
Proof.
  split.
  - apply (X20_stopped_cycle_is_inert Slow Cases.stopped_house).
    vm_compute; reflexivity.
  - apply (X20_stopped_cycle_is_inert (Fast false) Cases.stopped_house).
    vm_compute; reflexivity.
Defined.

Lemma X21_audio_track_entry_witness :
  Cases.first_track_entry !! "e2audiotrackdescription" = Some (VStr "Deutsch")
  ∧ Cases.first_track_entry !! "e2audiotrackid" = Some (VInt 0)
  ∧ Cases.first_track_entry !! "e2audiotrackpid" = Some (VInt 5102)
  ∧ Cases.first_track_entry !! "e2audiotrackactive" = Some (VBool true).
Proof.
  destruct (X21_audio_track_entry Cases.first_track Cases.house Cases.first_track_entry)
    as (Hd & Hi & Hp & Ha); [vm_compute; reflexivity|].
  exact (conj Hd (conj Hi (conj Hp Ha))).
Defined.

Lemma X22_audio_track_list_witness :
  result get_audio_tracks Cases.offline = Normal None
  ∧ result get_audio_tracks Cases.no_tracks = Normal (Some [])
  ∧ result get_audio_tracks Cases.house ≠ Normal None
  ∧ length Cases.house_tracks = 3%nat.
Proof.
  split; [|split; [|split]].
  - apply (proj1 (proj2 (proj2 (proj2 (X22_audio_track_list Cases.offline))))).
    left. vm_compute; reflexivity.
  - apply (proj1 (proj2 (proj2 (proj2 (proj2 (proj2 (X22_audio_track_list Cases.no_tracks))))
                           "<about>" Sample.about_xml
                           ltac:(vm_compute; reflexivity) ltac:(vm_compute; reflexivity)))).
    vm_compute; reflexivity.
  - apply (proj1 (proj2 (proj2 (proj2 (proj2 (X22_audio_track_list Cases.house))))
                    "<audio>" Sample.audio_xml
                    ltac:(vm_compute; reflexivity) ltac:(vm_compute; reflexivity))).
  - apply (proj2 (proj2 (proj2 (proj2 (proj2 (proj2 (X22_audio_track_list Cases.house))))
                           "<audio>" Sample.audio_xml
                           ltac:(vm_compute; reflexivity) ltac:(vm_compute; reflexivity)))
             Cases.house_tracks).
    vm_compute; reflexivity.
Defined.

Lemma X23_page_bindings_ignore_the_flag_witness :
  _update_loop_fast_item Sample.service_page_item false Sample.service_page_cached
  = _update Sample.service_page_item true Sample.service_page_cached
  ∧ sent (after (_update_loop_fast_item Sample.service_page_item false)
            Sample.service_page_cached)
    = sent Sample.service_page_cached.
Proof.
  split.
  - apply (proj1 (X23_page_bindings_ignore_the_flag Sample.service_page_item "subservices"
                    false Sample.service_page_cached ltac:(vm_compute; reflexivity))).
  - apply (proj2 (X23_page_bindings_ignore_the_flag Sample.service_page_item "subservices"
                    false Sample.service_page_cached ltac:(vm_compute; reflexivity))).
    vm_compute. by eexists.
Defined.

Lemma X24_bindings_passed_over_witness :
  result (_update_loop_fast false) Cases.passed_over_house = Normal tt
  ∧ sent (after (_update_loop_fast false) Cases.passed_over_house) = []
  ∧ values (after (_update_loop_fast false) Cases.passed_over_house) = ∅.
Proof.
  apply (X24_bindings_passed_over false Cases.passed_over_house).
  repeat constructor; (eexists; split; [vm_compute; reflexivity | split; decided]).
Defined.

End FurtherRuns.
